(** * DocRes: MATLAB-to-NumPy converter with round-trip verification

    A shallow embedding of [src/dewarping_json_worker/mat_to_npy.py]
    (class [MatToNpyConverterDebug]) and the properties its specification
    states about it.

    Conventions of the embedding:
    - [float64] elements are Rocq's primitive binary64 floats, so every
      arithmetic step of the source ([-], [/], [np.abs], [<]) is the IEEE
      operation the interpreter executes; [float64] and [int64] are the
      numeric element types, [object] the third;
    - an [ndarray] is its shape together with its elements in C (row-major)
      order;
    - Python exceptions are values of [outcome]; code that mutates a
      dictionary before raising is written in a state-and-exception monad
      so that the partial updates survive the [except] clause;
    - a file is what each of the three readers (h5py, scipy.io, numpy's
      [load]) makes of its bytes, independently of the others: the same
      bytes can be an HDF5 container and an array file at once;
    - a [str] is the string of its UTF-8 bytes, a surrogate code point
      being written as the three bytes [ED A0..BF 80..BF]; this is what
      decides whether a path can be handed to the operating system;
    - the name of a file the file system holds can be encoded (the
      operating system keeps bytes, and Python shows a name it can give
      back), so the readers meet [os.fsencode]'s error only on a path that
      names no file;
    - directories are not objects of the file system: a directory exists
      where files lie below it or where [mkdir] may create it, and the one
      failure of [mkdir] and of opening a file for writing that the
      embedding determines is a regular file in the way;
    - what depends on the numpy release or on bytes the embedding does
      not hold (whether [np.object] exists, what numpy does with arrays of
      Python objects, what the other readers make of the bytes of an
      [.npy] file) is left open, as the class [Numpy];
    - [float64] is the one floating type: [float32] arrays, which the
      module treats as floating too, are outside the embedding;
    - [print] calls and the body of the JSON report are left out.

    The file has two parts: the definitions (libraries, records, the
    methods of the class in source order, the vocabulary of the statements
    and the scenarios of the specification), then the properties. *)

From Stdlib Require Import String Ascii ZArith List Bool Lia Floats Uint63 PeanoNat
  Sorted Permutation.
Import ListNotations.

Set Warnings "-inexact-float,-register-all".

Local Open Scope Z_scope.

(* ================================================================== *)
(** * Bytes and MD5 ([hashlib.md5])                                     *)
(* ================================================================== *)

Module MD5.

Definition word := Z.
Definition mask32 : Z := 0xffffffff.
Definition w32 (x : Z) : word := Z.land x mask32.

Definition rotl (x : word) (c : Z) : word :=
  w32 (Z.lor (Z.shiftl x c) (Z.shiftr x (32 - c))).

Definition shifts : list Z :=
  [7; 12; 17; 22; 7; 12; 17; 22; 7; 12; 17; 22; 7; 12; 17; 22;
   5; 9; 14; 20; 5; 9; 14; 20; 5; 9; 14; 20; 5; 9; 14; 20;
   4; 11; 16; 23; 4; 11; 16; 23; 4; 11; 16; 23; 4; 11; 16; 23;
   6; 10; 15; 21; 6; 10; 15; 21; 6; 10; 15; 21; 6; 10; 15; 21].

Definition sines : list Z :=
  [0xd76aa478; 0xe8c7b756; 0x242070db; 0xc1bdceee;
   0xf57c0faf; 0x4787c62a; 0xa8304613; 0xfd469501;
   0x698098d8; 0x8b44f7af; 0xffff5bb1; 0x895cd7be;
   0x6b901122; 0xfd987193; 0xa679438e; 0x49b40821;
   0xf61e2562; 0xc040b340; 0x265e5a51; 0xe9b6c7aa;
   0xd62f105d; 0x02441453; 0xd8a1e681; 0xe7d3fbc8;
   0x21e1cde6; 0xc33707d6; 0xf4d50d87; 0x455a14ed;
   0xa9e3e905; 0xfcefa3f8; 0x676f02d9; 0x8d2a4c8a;
   0xfffa3942; 0x8771f681; 0x6d9d6122; 0xfde5380c;
   0xa4beea44; 0x4bdecfa9; 0xf6bb4b60; 0xbebfbc70;
   0x289b7ec6; 0xeaa127fa; 0xd4ef3085; 0x04881d05;
   0xd9d4d039; 0xe6db99e5; 0x1fa27cf8; 0xc4ac5665;
   0xf4292244; 0x432aff97; 0xab9423a7; 0xfc93a039;
   0x655b59c3; 0x8f0ccc92; 0xffeff47d; 0x85845dd1;
   0x6fa87e4f; 0xfe2ce6e0; 0xa3014314; 0x4e0811a1;
   0xf7537e82; 0xbd3af235; 0x2ad7d2bb; 0xeb86d391].

(** Little-endian encoding of the low [n] bytes of [x]. *)
Fixpoint le_bytes (n : nat) (x : Z) : list Z :=
  match n with
  | O => []
  | S n' => Z.land x 0xff :: le_bytes n' (Z.shiftr x 8)
  end.

Fixpoint le_word (bs : list Z) : Z :=
  match bs with
  | [] => 0
  | b :: bs' => b + 256 * le_word bs'
  end.

(** Message padding: a [0x80] byte, zeros up to 56 modulo 64, then the bit
    length on eight bytes. *)
Definition pad (msg : list Z) : list Z :=
  let len := Z.of_nat (length msg) in
  let zeros := Z.to_nat ((55 - len) mod 64) in
  msg ++ 0x80 :: repeat 0 zeros ++ le_bytes 8 (Z.land (8 * len) 0xffffffffffffffff).

Fixpoint chunks (fuel : nat) (n : nat) (bs : list Z) : list (list Z) :=
  match fuel, bs with
  | O, _ | _, [] => []
  | S fuel', _ => firstn n bs :: chunks fuel' n (skipn n bs)
  end.

Definition words_of_block (block : list Z) : list word :=
  map le_word (chunks 16 4 block).

Record state := St { sa : word; sb : word; sc : word; sd : word }.

Definition init : state :=
  St 0x67452301 0xefcdab89 0x98badcfe 0x10325476.

Definition lnot32 (x : word) : word := Z.lxor x mask32.

Definition round_fg (i : Z) (b c d : word) : word * Z :=
  if i <? 16 then (Z.lor (Z.land b c) (Z.land (lnot32 b) d), i)
  else if i <? 32 then (Z.lor (Z.land d b) (Z.land (lnot32 d) c), (5 * i + 1) mod 16)
  else if i <? 48 then (Z.lxor (Z.lxor b c) d, (3 * i + 5) mod 16)
  else (Z.lxor c (Z.lor b (lnot32 d)), (7 * i) mod 16).

Definition step (m : list word) (s : state) (i : Z) : state :=
  let '(f, g) := round_fg i (sb s) (sc s) (sd s) in
  let k := nth (Z.to_nat i) sines 0 in
  let r := nth (Z.to_nat i) shifts 0 in
  let f' := w32 (f + sa s + k + nth (Z.to_nat g) m 0) in
  St (sd s) (w32 (sb s + rotl f' r)) (sb s) (sc s).

Definition rounds : list Z := map Z.of_nat (seq 0 64).

Definition compress (s : state) (block : list Z) : state :=
  let s' := fold_left (step (words_of_block block)) rounds s in
  St (w32 (sa s + sa s')) (w32 (sb s + sb s')) (w32 (sc s + sc s')) (w32 (sd s + sd s')).

Definition digest (msg : list Z) : list Z :=
  let p := pad msg in
  let s := fold_left compress (chunks (length p) 64 p) init in
  le_bytes 4 (sa s) ++ le_bytes 4 (sb s) ++ le_bytes 4 (sc s) ++ le_bytes 4 (sd s).

Definition hex_digit (n : Z) : ascii :=
  nth (Z.to_nat n) (list_ascii_of_string "0123456789abcdef") "0"%char.

Fixpoint hex (bs : list Z) : string :=
  match bs with
  | [] => EmptyString
  | b :: bs' => String (hex_digit (b / 16)) (String (hex_digit (b mod 16)) (hex bs'))
  end.

Definition hexdigest (msg : list Z) : string := hex (digest msg).

End MD5.

(* ================================================================== *)
(** * IEEE binary64 helpers                                            *)
(* ================================================================== *)

Module F64.

Local Open Scope float_scope.

Definition two52 : float := 0x1p52.

(** Sign bit of a float, zeros and infinities included. *)
Definition signbit (x : float) : bool :=
  match classify x with
  | NInf | NNormal | NSubn | NZero => true
  | _ => false
  end.

Definition is_finite (x : float) : bool :=
  match classify x with
  | PInf | NInf | NaN => false
  | _ => true
  end.

(** [np.rint]: round to the nearest integer, ties to even.  Below [2^52]
    the sum [|x| + 2^52] has unit spacing, so the addition itself performs
    the rounding; from [2^52] on every float is an integer already. *)
Definition rint (x : float) : float :=
  if abs x <? two52 then
    let r := (abs x + two52) - two52 in
    if signbit x then - r else r
  else x.

(** [np.round(x, decimals=6)]: numpy multiplies by [10**6], applies [rint]
    and divides by [10**6]. *)
Definition round6 (x : float) : float := rint (x * 1e6) / 1e6.

(** The 64 bits of a float that is not a NaN.  [Prim2SF] keeps neither
    the sign nor the payload of a NaN; [tobytes] below leaves arrays that
    hold one aside. *)
Definition bits (x : float) : Z :=
  (let sign (s : bool) : Z := if s then 0x8000000000000000 else 0 in
   match Prim2SF x with
   | S754_zero s => sign s
   | S754_infinity s => sign s + 0x7ff0000000000000
   | S754_nan => 0x7ff8000000000000
   | S754_finite s m e => sign s + (e + 1074) * 0x10000000000000 + Zpos m
   end)%Z.

Definition to_bytes (x : float) : list Z := MD5.le_bytes 8 (bits x).

(** The cast numpy applies when an [int64] meets a [float64]: the nearest
    float.  [-2^63] is the one int64 whose magnitude does not fit the 63
    bits of [of_uint63]. *)
Definition of_int64 (z : Z) : float :=
  if (z =? - 0x8000000000000000)%Z then - 0x1p63
  else if (z <? 0)%Z then - of_uint63 (Uint63.of_Z (- z))
  else of_uint63 (Uint63.of_Z z).

End F64.

(* ================================================================== *)
(** * Python values and numpy arrays                                   *)
(* ================================================================== *)

(** ** Exceptions *)

(** The classes of the exceptions that occur; the three after [OSError]
    are subclasses of it, [UnicodeEncodeError] is a [ValueError]. *)
Inductive exn_class :=
| OSError | FileNotFoundError | FileExistsError | NotADirectoryError
| ValueError | UnicodeEncodeError | TypeError | KeyError | AttributeError
| NotImplementedError | EOFError | UnpicklingError.

Record exn := Exn { exn_cls : exn_class; exn_msg : string }.

(** [str(e)] *)
Definition str_exn (e : exn) : string := exn_msg e.

Inductive outcome (A : Type) :=
| Ok (a : A)
| Raise (e : exn).
Arguments Ok {A} a.
Arguments Raise {A} e.

Definition obind {A B} (m : outcome A) (k : A -> outcome B) : outcome B :=
  match m with
  | Ok a => k a
  | Raise e => Raise e
  end.

Declare Scope outcome_scope.
Delimit Scope outcome_scope with outcome.
Notation "x <- m ;; k" := (obind m (fun x => k))
  (at level 61, m at next level, right associativity) : outcome_scope.

(** [try: m except: handler] for a handler that catches everything. *)
Definition try_except {A} (m : outcome A) (handler : exn -> A) : A :=
  match m with
  | Ok a => a
  | Raise e => handler e
  end.

(** ** Arrays *)

Inductive dtype := float64 | int64 | object.

(** [str(array.dtype)] *)
Definition str_dtype (d : dtype) : string :=
  match d with
  | float64 => "float64"
  | int64 => "int64"
  | object => "object"
  end.

Definition dtype_eqb (a b : dtype) : bool :=
  match a, b with
  | float64, float64 | int64, int64 | object, object => true
  | _, _ => false
  end.

(** [np.issubdtype(dtype, np.floating)] *)
Definition is_floating (d : dtype) : bool :=
  match d with
  | float64 => true
  | _ => false
  end.

(** The elements of an array in C order.  An object array holds Python
    values of type [O]. *)
Inductive buffer (O : Type) :=
| F64buf (xs : list float)
| I64buf (xs : list Z)
| Objbuf (xs : list O).
Arguments F64buf {O} xs.
Arguments I64buf {O} xs.
Arguments Objbuf {O} xs.

Record ndarray (O : Type) := NdArray { shape : list nat; buf : buffer O }.
Arguments NdArray {O} shape buf.
Arguments shape {O} n.
Arguments buf {O} n.

Definition href := nat.

Inductive scalar :=
| SFloat (x : float)
| SInt (z : Z).

Inductive pyvalue :=
| PArr (a : ndarray pyvalue)          (* numpy.ndarray *)
| PNum (s : scalar)                   (* numpy.float64 / numpy.int64 *)
| PRef (r : href)                     (* h5py.Reference *)
| PDict (d : list (string * pyvalue)) (* dict *)
| PSparse (sh : list nat) (dt : dtype) (* scipy.sparse.csc_matrix *)
| POther (type_name : string).        (* bytes, str, list, ... *)

Definition array := ndarray pyvalue.

Definition buf_dtype {O} (b : buffer O) : dtype :=
  match b with
  | F64buf _ => float64
  | I64buf _ => int64
  | Objbuf _ => object
  end.

Definition buf_length {O} (b : buffer O) : nat :=
  match b with
  | F64buf xs => length xs
  | I64buf xs => length xs
  | Objbuf xs => length xs
  end.

Definition arr_dtype (a : array) : dtype := buf_dtype (buf a).
Definition ndim (a : array) : nat := length (shape a).
Definition size_of (sh : list nat) : nat := fold_right Nat.mul 1%nat sh.

(** Shape and element count agree. *)
Definition wf_array (a : array) : Prop := buf_length (buf a) = size_of (shape a).

Definition shape_eqb (s t : list nat) : bool :=
  if list_eq_dec Nat.eq_dec s t then true else false.

(** ** Transposition ([ndarray.T])

    [a.T] reverses the axes.  Element [k] of [a.T] in C order is element
    [k] of [a] in Fortran order: unravel [k] over the shape with the first
    axis varying fastest, then take the C offset of that multi-index. *)

Fixpoint unravel_F (sh : list nat) (k : nat) : list nat :=
  match sh with
  | [] => []
  | d :: ds => (k mod d)%nat :: unravel_F ds (k / d)%nat
  end.

Definition ravel_C (sh idx : list nat) : nat :=
  fold_left (fun acc di => (acc * fst di + snd di)%nat) (combine sh idx) 0%nat.

Definition transpose_list {A} (sh : list nat) (xs : list A) : list A :=
  match xs with
  | [] => []
  | x0 :: _ => map (fun k => nth (ravel_C sh (unravel_F sh k)) xs x0) (seq 0 (length xs))
  end.

Definition transpose_buf {O} (sh : list nat) (b : buffer O) : buffer O :=
  match b with
  | F64buf xs => F64buf (transpose_list sh xs)
  | I64buf xs => I64buf (transpose_list sh xs)
  | Objbuf xs => Objbuf (transpose_list sh xs)
  end.

Definition transpose (a : array) : array :=
  NdArray (rev (shape a)) (transpose_buf (shape a) (buf a)).

(** Element access [a[idx]] on the flat representation. *)
Definition get {A} (sh : list nat) (xs : list A) (idx : list nat) : option A :=
  nth_error xs (ravel_C sh idx).

(** ** numpy reductions and comparisons on float64 data *)

Definition zip_with {A B C} (f : A -> B -> C) (xs : list A) (ys : list B) : list C :=
  map (fun p => f (fst p) (snd p)) (combine xs ys).

Definition all2 {A B} (p : A -> B -> bool) (xs : list A) (ys : list B) : bool :=
  forallb (fun q => p (fst q) (snd q)) (combine xs ys).

(** [np.maximum] on two floats: a NaN on either side wins. *)
Definition np_maximum (a b : float) : float :=
  if (PrimFloat.leb b a || PrimFloat.is_nan a)%bool then a else b.

(** [np.max]: raises on a zero-size array. *)
Definition np_max (xs : list float) : outcome float :=
  match xs with
  | [] => Raise (Exn ValueError
            "zero-size array to reduction operation maximum which has no identity")
  | x :: rest => Ok (fold_left np_maximum rest x)
  end.

(** One element of [np.abs(mat - npy) / (np.abs(mat) + 1e-10)]. *)
Definition rel_diff (x y : float) : float :=
  (abs (x - y) / (abs x + 1e-10))%float.

(** [np.isclose(x, y, rtol, atol)] with [equal_nan=False]. *)
Definition np_isclose (rtol atol x y : float) : bool :=
  ((PrimFloat.leb (abs (x - y)) (atol + rtol * abs y) && F64.is_finite y)
   || PrimFloat.eqb x y)%float%bool.

(** numpy's default absolute tolerance of [allclose]/[isclose]. *)
Definition default_atol : float := 1e-8%float.

(** [np.allclose(xs, ys, rtol=rtol)]; the absolute tolerance keeps its
    default because the caller does not pass one. *)
Definition np_allclose (rtol : float) (xs ys : list float) : bool :=
  all2 (np_isclose rtol default_atol) xs ys.

(** A numeric buffer as float64 values (int64 is promoted), [None] for an
    object buffer. *)
Definition as_floats {O} (b : buffer O) : option (list float) :=
  match b with
  | F64buf xs => Some xs
  | I64buf zs => Some (map F64.of_int64 zs)
  | Objbuf _ => None
  end.

(** [array.tobytes()].  An object array's bytes are the addresses of the
    objects it holds, and the bytes of a NaN carry a sign and a payload
    that Rocq's floats do not keep: neither is part of the embedding. *)
Definition tobytes {O} (b : buffer O) : option (list Z) :=
  match b with
  | F64buf xs => if existsb PrimFloat.is_nan xs then None
                 else Some (flat_map F64.to_bytes xs)
  | I64buf zs => Some (flat_map (MD5.le_bytes 8) zs)
  | Objbuf _ => None
  end.

(** [np.round(array, decimals=6)] on a floating array. *)
Definition np_round6 {O} (b : buffer O) : buffer O :=
  match b with
  | F64buf xs => F64buf (map F64.round6 xs)
  | other => other
  end.

(** [hashlib.md5(bytes).hexdigest()[:8]] *)
Definition md5_prefix (bytes : list Z) : string :=
  substring 0 8 (MD5.hexdigest bytes).

(** [MatToNpyConverterDebug.compute_array_hash].  The source tests for
    [float64] and [float32]; [float64] is the floating type of the
    embedding. *)
Definition compute_array_hash (a : array) : option string :=
  if dtype_eqb (arr_dtype a) float64 then
    let array_rounded := np_round6 (buf a) in
    option_map md5_prefix (tobytes array_rounded)
  else
    option_map md5_prefix (tobytes (buf a)).

(* ================================================================== *)
(** * Strings and paths ([str], [pathlib.Path])                        *)
(* ================================================================== *)

Local Open Scope string_scope.

Definition startswith (s pre : string) : bool := String.prefix pre s.

Definition endswith (s suf : string) : bool :=
  let n := String.length s in
  let m := String.length suf in
  (m <=? n)%nat && String.eqb (substring (n - m) m s) suf.

Definition lower_ascii (c : ascii) : ascii :=
  let n := nat_of_ascii c in
  if ((65 <=? n) && (n <=? 90))%nat then ascii_of_nat (n + 32) else c.

(** [str.lower] on ASCII text. *)
Fixpoint lower (s : string) : string :=
  match s with
  | EmptyString => EmptyString
  | String c s' => String (lower_ascii c) (lower s')
  end.

(** [name.rfind('.')], [None] for [-1]. *)
Fixpoint rfind_dot (s : string) : option nat :=
  match s with
  | EmptyString => None
  | String c s' =>
      match rfind_dot s' with
      | Some i => Some (S i)
      | None => if Ascii.eqb c "." then Some 0%nat else None
      end
  end.

(** The book-keeping keys scipy adds: [key.startswith('__') and
    key.endswith('__')]. *)
Definition is_dunder (key : string) : bool :=
  startswith key "__" && endswith key "__".

(** [repr] of a string without characters that need escaping. *)
Definition repr_str (s : string) : string := "'" ++ s ++ "'".

(** [str(n)] *)
Fixpoint str_nat_digits (fuel n : nat) (acc : string) : string :=
  match fuel with
  | O => acc
  | S fuel' =>
      let acc' := String (ascii_of_nat (48 + n mod 10)) acc in
      if (n <? 10)%nat then acc' else str_nat_digits fuel' (n / 10) acc'
  end.

Definition str_nat (n : nat) : string := str_nat_digits (S n) n "".

(** Whether [os.fsencode] accepts a string.  With the UTF-8 file-system
    encoding and its [surrogateescape] handler the only characters it
    refuses are the surrogates outside U+DC80..U+DCFF: the byte [ED]
    followed by a byte of [A0..BF] other than [B2] and [B3]. *)
Fixpoint fsencodable (s : string) : bool :=
  match s with
  | EmptyString => true
  | String c s' =>
      match s' with
      | String c' _ =>
          let b := nat_of_ascii c' in
          if ((nat_of_ascii c =? 237) && (160 <=? b) && (b <=? 191)
              && negb (b =? 178) && negb (b =? 179))%nat
          then false else fsencodable s'
      | EmptyString => true
      end
  end.

(** The text of the [UnicodeEncodeError]: the encoder names the first
    character it refuses and its index, or, when more surrogates follow
    it, the indices of the first and the last of the run. *)
Definition is_surrogate (c b2 : ascii) : bool :=
  ((nat_of_ascii c =? 237) && (160 <=? nat_of_ascii b2) && (nat_of_ascii b2 <=? 191))%nat.

Fixpoint surrogate_run (s : string) : nat :=
  match s with
  | String c (String b2 (String _ s')) =>
      if is_surrogate c b2 then S (surrogate_run s') else 0%nat
  | _ => 0%nat
  end.

Definition is_continuation (c : ascii) : bool :=
  ((128 <=? nat_of_ascii c) && (nat_of_ascii c <=? 191))%nat.

Definition hex4 (n : nat) : string :=
  let d k := String (MD5.hex_digit (Z.of_nat ((n / k) mod 16))) EmptyString in
  d 4096%nat ++ d 256%nat ++ d 16%nat ++ d 1%nat.

Fixpoint encode_error (s : string) (pos : nat) : string :=
  match s with
  | EmptyString => ""
  | String c s' =>
      match s' with
      | String b2 s'' =>
          let b := nat_of_ascii b2 in
          if is_surrogate c b2 && negb (b =? 178)%nat && negb (b =? 179)%nat then
            let b3 := match s'' with String b3 _ => nat_of_ascii b3 | EmptyString => 128%nat end in
            let run := surrogate_run s in
            if (run <=? 1)%nat then
              "'utf-8' codec can't encode character '\u"
              ++ hex4 (13 * 4096 + (b - 128) * 64 + (b3 - 128)) ++ "' in position "
              ++ str_nat pos ++ ": surrogates not allowed"
            else
              "'utf-8' codec can't encode characters in position "
              ++ str_nat pos ++ "-" ++ str_nat (pos + run - 1) ++ ": surrogates not allowed"
          else encode_error s' (if is_continuation c then pos else S pos)
      | EmptyString => ""
      end
  end.

(** A path is the list of its components. *)
Definition path := list string.

Definition str_path (p : path) : string :=
  match p with
  | [] => "."
  | _ => String.concat "/" p
  end.

Definition path_eqb (p q : path) : bool :=
  if list_eq_dec string_dec p q then true else false.

(** [Path.name] *)
Definition path_name (p : path) : string := last p "".

(** [Path.parent] *)
Definition parent (p : path) : path := removelast p.

(** [repr(path)] *)
Definition repr_path (p : path) : string := "PosixPath(" ++ repr_str (str_path p) ++ ")".

(** The initial parts of a path that are not empty, the shortest first,
    the path itself last. *)
Definition prefixes (p : path) : list path :=
  map (fun k => firstn k p) (seq 1 (length p)).

(** [os.fsencode(path)]: the exception is a [UnicodeEncodeError], a
    [ValueError] and no [OSError]. *)
Definition fsencode (p : path) : outcome unit :=
  if fsencodable (str_path p) then Ok tt
  else Raise (Exn UnicodeEncodeError (encode_error (str_path p) 0)).

(** [Path.relative_to(root)]: the components after [root], or [ValueError]
    when [root] is not a leading part of the path. *)
Fixpoint strip_prefix (p root : path) : option path :=
  match root, p with
  | [], _ => Some p
  | r :: root', c :: p' => if String.eqb r c then strip_prefix p' root' else None
  | _ :: _, [] => None
  end.

Definition relative_to (p root : path) : outcome path :=
  match strip_prefix p root with
  | Some rel => Ok rel
  | None => Raise (Exn ValueError
              (repr_str (str_path p) ++ " is not in the subpath of " ++ repr_str (str_path root)))
  end.

(** [Path.with_suffix(suffix)]: [ValueError] on an empty name; the old
    suffix starts at the last dot unless that dot is the first or the last
    character of the name. *)
Definition with_suffix (p : path) (suffix : string) : outcome path :=
  match rev p with
  | [] => Raise (Exn ValueError "PosixPath('.') has an empty name")
  | name :: parents =>
      let stem :=
        match rfind_dot name with
        | Some i => if ((0 <? i) && (i <? String.length name - 1))%nat
                    then substring 0 i name else name
        | None => name
        end in
      Ok (List.app (rev parents) [stem ++ suffix])
  end.

(* ================================================================== *)
(** * Files and the libraries that read them                           *)
(* ================================================================== *)

(** ** HDF5 files as h5py shows them

    [h5_members] are the members of the root group in the order
    [f.keys()] yields them; [h5_targets] resolves object references. *)

Inductive h5object :=
| H5Dataset (sh : list nat) (b : buffer pyvalue)
| H5Group.

Record h5file := H5File {
  h5_members : list (string * h5object);
  h5_targets : list (href * h5object)
}.

(** ** MAT files up to version 7 as scipy shows them

    A variable is stored with the element type the writer chose;
    [mv_double] tells whether its MATLAB class is [double], [mv_sparse]
    whether it is a sparse matrix, which scipy returns as a
    [scipy.sparse] matrix and not as an array. *)

Record mat_variable := MatVariable {
  mv_name : string;
  mv_double : bool;
  mv_sparse : bool;
  mv_shape : list nat;
  mv_stored : buffer pyvalue
}.

Definition matfile := list mat_variable.

(** ** Files

    What [np.load(path, allow_pickle=True)] makes of the bytes of a file:
    an array for an array file, the archive object for a zip file, the
    unpickled object for a pickle; otherwise it reports that the file is
    no pickle, or fails in some other way (a truncated file). *)
Inductive npy_reading :=
| Loads (v : pyvalue)
| NotAPickle
| LoadFails (e : exn).

(** A file is what each reader makes of its bytes.  The three views are
    independent: h5py looks for the HDF5 signature at the offsets 0, 512,
    1024, ..., scipy reads the header of the first 128 bytes, numpy the
    magic string at offset 0. *)
Record file_content := File {
  as_hdf5 : option h5file;          (* [h5py.File]: the container, if it opens *)
  as_mat : outcome matfile;         (* [scipy.io.loadmat] *)
  as_npy : npy_reading              (* [np.load] *)
}.

(** [ValueError] of scipy's [_get_matfile_version]: the bytes at the
    offsets 124 to 127 do not hold a known version.  [maj] and [min] are
    the two bytes it read as the version. *)
Definition unknown_mat_file_type (maj min : nat) : exn :=
  Exn ValueError ("Unknown mat file type, version " ++ str_nat maj ++ ", " ++ str_nat min).

(** A MATLAB v7.3 file: an HDF5 container behind a MAT header of version
    2, which scipy refuses by name. *)
Definition HDF5 (f : h5file) : file_content :=
  File (Some f)
       (Raise (Exn NotImplementedError "Please use HDF reader for matlab v7.3 files, e.g. h5py"))
       NotAPickle.

(** A MAT file of version 7 or older. *)
Definition MAT (m : matfile) : file_content :=
  File None (Ok m) NotAPickle.

(** A file no reader accepts whose bytes 124 and 125 are [maj] and
    [min]. *)
Definition unreadable (maj min : nat) : file_content :=
  File None (Raise (unknown_mat_file_type maj min)) NotAPickle.

(** For instance a text of blanks. *)
Definition Other : file_content := unreadable 32 32.

Definition filesystem := list (path * file_content).

Fixpoint fs_lookup (fs : filesystem) (p : path) : option file_content :=
  match fs with
  | [] => None
  | (q, c) :: fs' => if path_eqb p q then Some c else fs_lookup fs' p
  end.

Fixpoint fs_write (fs : filesystem) (p : path) (c : file_content) : filesystem :=
  match fs with
  | [] => [(p, c)]
  | (q, c') :: fs' => if path_eqb p q then (q, c) :: fs' else (q, c') :: fs_write fs' p c
  end.

(** ** Python dictionaries: insertion-ordered, one entry per key *)

Fixpoint dict_get {V} (d : list (string * V)) (k : string) : option V :=
  match d with
  | [] => None
  | (k', v) :: d' => if String.eqb k k' then Some v else dict_get d' k
  end.

Fixpoint dict_set {V} (d : list (string * V)) (k : string) (v : V) : list (string * V) :=
  match d with
  | [] => [(k, v)]
  | (k', v') :: d' => if String.eqb k k' then (k', v) :: d' else (k', v') :: dict_set d' k v
  end.

Definition dict_keys {V} (d : list (string * V)) : list string := map fst d.

Definition dict_contains {V} (d : list (string * V)) (k : string) : bool :=
  match dict_get d k with
  | Some _ => true
  | None => false
  end.

(** ** The operating system

    [exists()] of a path is [fs_lookup] finding a file.  A path the file
    system holds is one the operating system knows; whether a path can be
    encoded is a question for the paths that name no file. *)

Definition is_file (fs : filesystem) (p : path) : bool :=
  match fs_lookup fs p with
  | Some _ => true
  | None => false
  end.

Definition no_such_file (p : path) : exn :=
  Exn FileNotFoundError ("[Errno 2] No such file or directory: " ++ repr_str (str_path p)).

Definition not_a_directory (p : path) : exn :=
  Exn NotADirectoryError ("[Errno 20] Not a directory: " ++ repr_str (str_path p)).

Definition file_exists (p : path) : exn :=
  Exn FileExistsError ("[Errno 17] File exists: " ++ repr_str (str_path p)).

(** A regular file lies on the way to [p]: one of the proper initial
    parts of [p] names a file. *)
Definition blocked (fs : filesystem) (p : path) : bool :=
  existsb (is_file fs) (prefixes (parent p)).

(** What [open(p, 'rb')] raises for a path that names no file. *)
Definition open_missing (fs : filesystem) (p : path) : exn :=
  match fsencode p with
  | Raise e => e
  | Ok _ => if blocked fs p then not_a_directory p else no_such_file p
  end.

(** [open(p, 'wb')] where the directory of [p] exists or can be created:
    it fails on a path that cannot be encoded and on a regular file in
    the place of a directory. *)
Definition open_for_writing (fs : filesystem) (p : path) : outcome unit :=
  (_ <- fsencode p ;;
   if blocked fs p then Raise (not_a_directory p) else Ok tt)%outcome.

(** [Path.mkdir(parents=True, exist_ok=True)].  [os.mkdir] raises
    [NotADirectoryError] when a proper initial part of the path is a
    regular file and [FileExistsError] when the path itself is one (an
    existing directory, the current one included, is accepted); nothing
    else stands in the way of creating the directories.  The directories
    created are not objects of the file system. *)
Definition mkdir_parents (fs : filesystem) (dir : path) : outcome unit :=
  (_ <- fsencode dir ;;
   if blocked fs dir then Raise (not_a_directory dir)
   else if existsb (is_file fs) (prefixes dir) then Raise (file_exists dir)
   else Ok tt)%outcome.

(** ** h5py *)

(** [h5py.File(path, 'r')]: the container when the bytes hold one; an
    [OSError] (in recent releases one of its subclasses, with a longer
    text) when they do not or the file is missing; the
    [UnicodeEncodeError] of [os.fsencode], which is no [OSError], when the
    name cannot be encoded. *)
Definition h5py_File (fs : filesystem) (p : path) : outcome h5file :=
  match fs_lookup fs p with
  | Some c =>
      match as_hdf5 c with
      | Some f => Ok f
      | None => Raise (Exn OSError "Unable to open file (file signature not found)")
      end
  | None =>
      (_ <- fsencode p ;;
       Raise (Exn OSError "Unable to open file (No such file or directory)"))%outcome
  end.

(** [f[key]] *)
Definition h5_getitem (f : h5file) (key : string) : outcome h5object :=
  match dict_get (h5_members f) key with
  | Some o => Ok o
  | None => Raise (Exn KeyError "Unable to open object (object doesn't exist)")
  end.

(** [f[ref]] *)
Definition h5_deref (f : h5file) (r : href) : outcome h5object :=
  match find (fun t => Nat.eqb (fst t) r) (h5_targets f) with
  | Some t => Ok (snd t)
  | None => Raise (Exn ValueError "Invalid object reference")
  end.

(** The single element of a zero-dimensional dataset as a Python value. *)
Definition scalar_of_buf (b : buffer pyvalue) : pyvalue :=
  match b with
  | F64buf (x :: _) => PNum (SFloat x)
  | I64buf (z :: _) => PNum (SInt z)
  | Objbuf (v :: _) => v
  | _ => POther "Empty"
  end.

(** [dataset[()]]: an array, or the element itself for shape [()]. *)
Definition read_dataset (sh : list nat) (b : buffer pyvalue) : pyvalue :=
  match sh with
  | [] => scalar_of_buf b
  | _ => PArr (NdArray sh b)
  end.

(** [obj[()]] on whatever a reference points to. *)
Definition h5_read (o : h5object) : outcome pyvalue :=
  match o with
  | H5Dataset sh b => Ok (read_dataset sh b)
  | H5Group => Raise (Exn TypeError "Accessing a group is done with bytes or str, not <class 'tuple'>")
  end.

(** ** scipy.io.loadmat

    [squeeze_me] stays [False] in every call of the module, so shapes are
    the stored ones; [mat_dtype=True] returns a [double] variable as
    float64 whatever type it was stored with. *)

Definition loadmat_buffer (mat_dtype : bool) (v : mat_variable) : buffer pyvalue :=
  match mv_stored v with
  | I64buf zs => if mat_dtype && mv_double v then F64buf (map F64.of_int64 zs) else I64buf zs
  | other => other
  end.

Definition loadmat_header : list (string * pyvalue) :=
  [("__header__", POther "bytes"); ("__version__", POther "str"); ("__globals__", POther "list")].

(** The value scipy returns for one variable. *)
Definition loadmat_value (mat_dtype : bool) (v : mat_variable) : pyvalue :=
  if mv_sparse v then PSparse (mv_shape v) (buf_dtype (loadmat_buffer mat_dtype v))
  else PArr (NdArray (mv_shape v) (loadmat_buffer mat_dtype v)).

Definition loadmat_dict (mat_dtype : bool) (m : matfile) : list (string * pyvalue) :=
  fold_left (fun d v => dict_set d (mv_name v) (loadmat_value mat_dtype v))
            m loadmat_header.

(** [scipy.io.loadmat(path, ...)] with a [Path]: whatever [OSError]
    [open] raises is replaced by scipy's own (for a [str] it would try
    the name again with [.mat] appended); the [UnicodeEncodeError] of a
    name that cannot be encoded passes through. *)
Definition loadmat (fs : filesystem) (p : path) (mat_dtype : bool)
  : outcome (list (string * pyvalue)) :=
  match fs_lookup fs p with
  | Some c => (m <- as_mat c ;; Ok (loadmat_dict mat_dtype m))%outcome
  | None =>
      (_ <- fsencode p ;;
       Raise (Exn OSError "Reader needs file name or open file-like object"))%outcome
  end.

(** ** State threaded through code that may raise

    [SE S A] is a computation over a mutable state [S] that returns an [A]
    or raises; the state reached when the exception is raised is kept, as
    Python keeps the mutations made before a [raise]. *)

Definition SE (S A : Type) : Type := S -> outcome A * S.

Definition ret {S A} (a : A) : SE S A := fun s => (Ok a, s).

Definition bind {S A B} (m : SE S A) (k : A -> SE S B) : SE S B :=
  fun s =>
    match m s with
    | (Ok a, s') => k a s'
    | (Raise e, s') => (Raise e, s')
    end.

Definition lift {S A} (o : outcome A) : SE S A := fun s => (o, s).

Definition modify {S} (f : S -> S) : SE S unit := fun s => (Ok tt, f s).

Definition gets {S A} (f : S -> A) : SE S A := fun s => (Ok (f s), s).

(** [try: m except Exception as e: handler e] *)
Definition try_catch {S A} (m : SE S A) (handler : exn -> SE S A) : SE S A :=
  fun s =>
    match m s with
    | (Ok a, s') => (Ok a, s')
    | (Raise e, s') => handler e s'
    end.

Fixpoint for_each {S X} (xs : list X) (body : X -> SE S unit) : SE S unit :=
  match xs with
  | [] => ret tt
  | x :: xs' => bind (body x) (fun _ => for_each xs' body)
  end.

Declare Scope se_scope.
Delimit Scope se_scope with se.
Notation "x <- m ;; k" := (bind m (fun x => k))
  (at level 61, m at next level, right associativity) : se_scope.
Notation "m ;;; k" := (bind m (fun _ => k))
  (at level 61, right associativity) : se_scope.

(* ================================================================== *)
(** * Records of the converter                                         *)
(* ================================================================== *)

(** [self]: the two roots ([conversion_log] is never read or written). *)
Record converter := Converter { input_root : path; output_root : path }.

(** ** [compare_matrices]: the comparison dictionary *)

Record differences_t := Differences {
  diff_shape : list nat * list nat;
  diff_dtype : string * string;
  max_relative_difference : option float;
  comparison_error : option string;
  diff_hash : option string * option string
}.

Record comparison_t := Comparison {
  filename : string;
  shapes_equal : bool;
  dtypes_equal : bool;
  values_equal : bool;
  transposed_equal : bool;
  differences : differences_t
}.

(** ** [inspect_mat_file_deep]: the info dictionary *)

Record var_info := VarInfo {
  vi_name : string;
  vi_type : string;
  vi_shape : option (list nat);
  vi_dtype : option string;
  vi_is_reference : bool;
  vi_referenced : option (string * option (list nat))
}.

Record info_t := Info {
  info_file : string;
  info_version : option string;
  variables : list var_info;
  issues : list string
}.

(** ** [load_mat_correctly]: the meta dictionary

    The HDF5 branch stores a variable's shape under ['original_shape'],
    the scipy branch under ['shape']. *)

Inductive shape_key := original_shape | plain_shape.

Record loaded_variable := LoadedVariable {
  lv_name : string;
  lv_key : shape_key;
  lv_shape : list nat;
  lv_dtype : string
}.

Record load_meta_t := LoadMeta {
  meta_file : string;
  meta_version : option string;
  loaded_variables : list loaded_variable;
  meta_warnings : list string;
  transpose_applied : bool;
  selected_variable : option string
}.

(** ** [convert_and_verify]: the result dictionary *)

Inductive verification_t :=
| NoVerification                                  (* {} *)
| ArrayVerification (c : comparison_t)
| DictVerification (keys_match : bool) (keys : list string).

Record result_t := Result {
  input_file : string;
  output_file : option string;
  success : bool;
  verification : verification_t;
  warnings : list string;
  errors : list string;
  load_meta : option load_meta_t;
  traceback : option string
}.

(* ================================================================== *)
(** * The converter                                                    *)
(* ================================================================== *)

(** Which numpy routine is asked to compare two arrays. *)
Inductive np_check := CheckRelDiff | CheckArrayEqual | CheckAllclose.

(** Behaviour of numpy and of the other libraries that the module relies
    on but the embedding does not determine:
    - [np_array items]: [np.array] applied to a Python list of values read
      through references;
    - [np_object_check c a b]: the truth value routine [c] computes when
      [a] or [b] has dtype [object] (numpy then calls the operators of the
      stored Python objects), or the exception it raises;
    - [picklable v]: whether [pickle] can serialise [v];
    - [np_object_alias]: the evaluation of the name [np.object], an alias
      of [object] up to numpy 1.23 and an [AttributeError] from numpy 1.24
      on;
    - [npy_as_hdf5 a], [npy_as_mat a]: what h5py and scipy make of the
      bytes [np.save] writes for [a] (array data can hold an HDF5 image at
      offset 512; with a header of fewer than 128 bytes the version scipy
      reads lies in the data);
    - [npy_truncated a]: the file [np.save] leaves behind when pickling
      fails after the header has been written;
    - [json_dump results]: the file [json.dump] writes, and the exception
      it raises if it does (a string with a surrogate cannot be written to
      a file opened with [encoding='utf-8']). *)
Class Numpy := {
  np_array : list pyvalue -> outcome array;
  np_object_check : np_check -> array -> array -> outcome bool;
  picklable : pyvalue -> bool;
  np_object_alias : outcome unit;
  npy_as_hdf5 : array -> option h5file;
  npy_as_mat : array -> outcome matfile;
  npy_truncated : array -> file_content;
  json_dump : list (string * result_t) -> file_content * outcome unit
}.

Section Converter.

Context {np : Numpy}.

(** ** [compare_matrices] *)

(** [np.array_equal(a, b)] *)
Definition np_array_equal (a b : array) : outcome bool :=
  if negb (shape_eqb (shape a) (shape b)) then Ok false
  else
    match buf a, buf b with
    | I64buf xs, I64buf ys => Ok (all2 Z.eqb xs ys)
    | Objbuf _, _ | _, Objbuf _ => np_object_check CheckArrayEqual a b
    | x, y =>
        match as_floats x, as_floats y with
        | Some xs, Some ys => Ok (all2 PrimFloat.eqb xs ys)
        | _, _ => np_object_check CheckArrayEqual a b
        end
    end.

(** The floating branch of step 3: the maximum relative difference and
    its comparison with [1e-10]. *)
Definition max_rel_diff_check (mat_data npy_data : array) : outcome (option float * bool) :=
  match as_floats (buf mat_data), as_floats (buf npy_data) with
  | Some xs, Some ys =>
      (max_rel_diff <- np_max (zip_with rel_diff xs ys) ;;
       Ok (Some max_rel_diff, PrimFloat.ltb max_rel_diff 1e-10%float))%outcome
  | _, _ =>
      (b <- np_object_check CheckRelDiff mat_data npy_data ;; Ok (None, b))%outcome
  end.

(** [np.allclose(a, b, rtol=1e-10)] on arrays of one shape. *)
Definition allclose_check (a b : array) : outcome bool :=
  match as_floats (buf a), as_floats (buf b) with
  | Some xs, Some ys => Ok (np_allclose 1e-10%float xs ys)
  | _, _ => np_object_check CheckAllclose a b
  end.

(** Step 3 of [compare_matrices]: the values, when the shapes agree.  The
    triple is [max_relative_difference], [values_equal] and
    [comparison_error] as the [try] block leaves them. *)
Definition values_check (mat_data npy_data : array) : option float * bool * option string :=
  if shape_eqb (shape mat_data) (shape npy_data) then
    if is_floating (arr_dtype mat_data) then
      match max_rel_diff_check mat_data npy_data with
      | Ok (m, b) => (m, b, None)
      | Raise e => (None, false, Some (str_exn e))
      end
    else
      match np_array_equal mat_data npy_data with
      | Ok b => (None, b, None)
      | Raise e => (None, false, Some (str_exn e))
      end
  else (None, false, None).

(** Step 4: is one array the transpose of the other? *)
Definition transposed_check (mat_data npy_data : array) : bool :=
  if (ndim mat_data =? 2)%nat && (ndim npy_data =? 2)%nat then
    if shape_eqb (shape mat_data) (shape (transpose npy_data)) then
      let mat_transposed := transpose mat_data in
      try_except
        (if is_floating (arr_dtype mat_data)
         then allclose_check mat_transposed npy_data
         else np_array_equal mat_transposed npy_data)
        (fun _ => false)
    else false
  else false.

Definition compare_matrices (mat_data npy_data : array) (filename : string) : comparison_t :=
  let checked := values_check mat_data npy_data in
  Comparison filename
    (shape_eqb (shape mat_data) (shape npy_data))
    (dtype_eqb (arr_dtype mat_data) (arr_dtype npy_data))
    (snd (fst checked))
    (transposed_check mat_data npy_data)
    (Differences (shape mat_data, shape npy_data)
       (str_dtype (arr_dtype mat_data), str_dtype (arr_dtype npy_data))
       (fst (fst checked)) (snd checked)
       (compute_array_hash mat_data, compute_array_hash npy_data)).

(** ** [detect_mat_version] *)

(** [isinstance(e, OSError)]; [IOError] is the same class. *)
Definition is_OSError (e : exn) : bool :=
  match exn_cls e with
  | OSError | FileNotFoundError | FileExistsError | NotADirectoryError => true
  | _ => false
  end.

Definition detect_mat_version (fs : filesystem) (file_path : path) : outcome string :=
  match h5py_File fs file_path with
  | Ok _ => Ok "v7.3"
  | Raise e =>
      if is_OSError e then            (* except (OSError, IOError) *)
        match loadmat fs file_path true with
        | Ok _ => Ok "v7.0_or_older"
        | Raise _ => Ok "unknown"     (* bare except *)
        end
      else Raise e
  end.

(** ** [inspect_mat_file_deep] *)

Definition add_variable (v : var_info) (i : info_t) : info_t :=
  Info (info_file i) (info_version i) (variables i ++ [v])%list (issues i).

Definition add_issue (msg : string) (i : info_t) : info_t :=
  Info (info_file i) (info_version i) (variables i) (issues i ++ [msg])%list.

Definition set_info_version (v : string) (i : info_t) : info_t :=
  Info (info_file i) (Some v) (variables i) (issues i).

(** What the inner [try] of the HDF5 branch finds behind a reference; its
    bare [except] leaves the two keys out. *)
Definition inspect_reference (f : h5file) (sh : list nat) (b : buffer pyvalue)
  : option (string * option (list nat)) :=
  match read_dataset sh b with
  | PRef r =>
      match h5_deref f r with
      | Ok (H5Dataset sh' _) => Some ("Dataset", Some sh')
      | Ok H5Group => Some ("Group", None)
      | Raise _ => None
      end
  | _ => None
  end.

Definition inspect_h5_key (f : h5file) (key : string) : SE info_t unit :=
  (obj <- lift (h5_getitem f key) ;;
   let var :=
     match obj with
     | H5Dataset sh b =>
         let is_ref := dtype_eqb (buf_dtype b) object in
         VarInfo key "Dataset" (Some sh) (Some (str_dtype (buf_dtype b))) is_ref
           (if is_ref then inspect_reference f sh b else None)
     | H5Group => VarInfo key "Group" None None false None
     end in
   modify (add_variable var) ;;;
   if vi_is_reference var
   then modify (add_issue ("Variable '" ++ key ++ "' is a reference (may need special handling)"))
   else ret tt)%se.

Definition inspect_mat_var (key : string) (var : pyvalue) : var_info :=
  match var with
  | PArr a => VarInfo key "ndarray" (Some (shape a)) (Some (str_dtype (arr_dtype a))) false None
  | PNum (SFloat _) => VarInfo key "float64" (Some []) (Some "float64") false None
  | PNum (SInt _) => VarInfo key "int64" (Some []) (Some "int64") false None
  | PRef _ => VarInfo key "Reference" None None false None
  | PDict _ => VarInfo key "dict" None None false None
  | PSparse sh dt => VarInfo key "csc_matrix" (Some sh) (Some (str_dtype dt)) false None
  | POther t => VarInfo key t None None false None
  end.

Definition inspect_body (fs : filesystem) (file_path : path) : SE info_t unit :=
  (version <- lift (detect_mat_version fs file_path) ;;
   modify (set_info_version version) ;;;
   if String.eqb version "v7.3" then
     f <- lift (h5py_File fs file_path) ;;
     for_each (dict_keys (h5_members f)) (inspect_h5_key f)
   else
     mat_data <- lift (loadmat fs file_path false) ;;
     for_each (filter (fun kv => negb (is_dunder (fst kv))) mat_data)
       (fun kv => modify (add_variable (inspect_mat_var (fst kv) (snd kv)))))%se.

Definition inspect_mat_file_deep (fs : filesystem) (file_path : path) : info_t :=
  snd (try_catch (inspect_body fs file_path)
         (fun e => modify (add_issue ("Error inspecting file: " ++ str_exn e)))
         (Info (str_path file_path) None [] [])).

(** ** [load_mat_correctly] *)

Record load_state := LoadState {
  ls_meta : load_meta_t;
  ls_dict : list (string * pyvalue)      (* data_dict *)
}.

Definition on_meta (f : load_meta_t -> load_meta_t) (s : load_state) : load_state :=
  LoadState (f (ls_meta s)) (ls_dict s).

Definition meta_add_warning (msg : string) (m : load_meta_t) : load_meta_t :=
  LoadMeta (meta_file m) (meta_version m) (loaded_variables m)
    (meta_warnings m ++ [msg])%list (transpose_applied m) (selected_variable m).

Definition meta_add_loaded (v : loaded_variable) (m : load_meta_t) : load_meta_t :=
  LoadMeta (meta_file m) (meta_version m) (loaded_variables m ++ [v])%list
    (meta_warnings m) (transpose_applied m) (selected_variable m).

Definition meta_set_transpose (m : load_meta_t) : load_meta_t :=
  LoadMeta (meta_file m) (meta_version m) (loaded_variables m)
    (meta_warnings m) true (selected_variable m).

Definition meta_set_selected (name : string) (m : load_meta_t) : load_meta_t :=
  LoadMeta (meta_file m) (meta_version m) (loaded_variables m)
    (meta_warnings m) (transpose_applied m) (Some name).

Definition data_dict_set (key : string) (v : pyvalue) (s : load_state) : load_state :=
  LoadState (ls_meta s) (dict_set (ls_dict s) key v).

(** [ndarray.reshape(shape)] *)
Definition reshape (a : array) (sh : list nat) : outcome array :=
  if (buf_length (buf a) =? size_of sh)%nat then Ok (NdArray sh (buf a))
  else Raise (Exn ValueError "cannot reshape array").

(** The loop [for item in raw_data.flat] that builds [dereferenced]. *)
Fixpoint dereference_all (f : h5file) (items : list pyvalue) : outcome (list pyvalue) :=
  match items with
  | [] => Ok []
  | item :: rest =>
      (v <- match item with
            | PRef r => (o <- h5_deref f r ;; h5_read o)
            | other => Ok other
            end ;;
       vs <- dereference_all f rest ;;
       Ok (v :: vs))%outcome
  end.

(** From [raw_data = dataset[()]] to [data], the value before the layout
    step.  The test [isinstance(raw_data, np.ndarray) and raw_data.dtype ==
    np.object] evaluates [np.object] for every array, outside the [try]. *)
Definition materialize (f : h5file) (key : string) (sh : list nat) (b : buffer pyvalue)
  : SE load_state pyvalue :=
  let raw_data := read_dataset sh b in
  if dtype_eqb (buf_dtype b) object then
    match raw_data with
    | PRef r =>
        (ref_obj <- lift (h5_deref f r) ;;
         match ref_obj with
         | H5Dataset sh' b' => ret (read_dataset sh' b')
         | H5Group =>
             modify (on_meta (meta_add_warning
                       ("Variable '" ++ key ++ "' is a reference to non-dataset"))) ;;;
             ret raw_data
         end)%se
    | PArr raw =>
        (lift np_object_alias ;;;
         match buf raw with
         | Objbuf items =>
             try_catch
               (dereferenced <- lift (dereference_all f items) ;;
                stacked <- lift (np_array dereferenced) ;;
                reshaped <- lift (reshape stacked (shape raw)) ;;
                ret (PArr reshaped))
               (fun _ =>
                  modify (on_meta (meta_add_warning
                            ("Could not dereference object array for '" ++ key ++ "'"))) ;;;
                  ret raw_data)
         | _ => ret raw_data
         end)%se
    | _ => ret raw_data
    end
  else ret raw_data.

(** The layout step: [if isinstance(data, np.ndarray) and data.ndim >= 2]. *)
Definition layout_step (key : string) (data : pyvalue) : SE load_state pyvalue :=
  match data with
  | PArr a =>
      if (2 <=? ndim a)%nat then
        (modify (on_meta (meta_add_loaded
                   (LoadedVariable key original_shape (shape a) (str_dtype (arr_dtype a))))) ;;;
         let data' := PArr (transpose a) in
         modify (on_meta meta_set_transpose) ;;;
         ret data')%se
      else ret data
  | _ => ret data
  end.

Definition load_h5_key (f : h5file) (key : string) : SE load_state unit :=
  (obj <- lift (h5_getitem f key) ;;
   match obj with
   | H5Dataset sh b =>
       data <- materialize f key sh b ;;
       data <- layout_step key data ;;
       modify (data_dict_set key data)
   | H5Group => ret tt
   end)%se.

(** [if variable_name and variable_name in data_dict ... elif
    len(data_dict) == 1 ... else ...] *)
Definition select_variable (variable_name : option string) : SE load_state pyvalue :=
  (data_dict <- gets ls_dict ;;
   match variable_name with
   | Some name =>
       if negb (String.eqb name "") && dict_contains data_dict name then
         modify (on_meta (meta_set_selected name)) ;;;
         ret (match dict_get data_dict name with Some v => v | None => PDict data_dict end)
       else
         match data_dict with
         | [(k, v)] => modify (on_meta (meta_set_selected k)) ;;; ret v
         | _ => modify (on_meta (meta_set_selected "dict")) ;;; ret (PDict data_dict)
         end
   | None =>
       match data_dict with
       | [(k, v)] => modify (on_meta (meta_set_selected k)) ;;; ret v
       | _ => modify (on_meta (meta_set_selected "dict")) ;;; ret (PDict data_dict)
       end
   end)%se.

Definition load_mat_key (kv : string * pyvalue) : SE load_state unit :=
  let '(key, data) := kv in
  ((match data with
    | PArr a =>
        modify (on_meta (meta_add_loaded
                  (LoadedVariable key plain_shape (shape a) (str_dtype (arr_dtype a)))))
    | _ => ret tt
    end) ;;;
   modify (data_dict_set key data))%se.

Definition load_body (fs : filesystem) (file_path : path) (variable_name : option string)
  : SE load_state pyvalue :=
  (version <- lift (detect_mat_version fs file_path) ;;
   modify (on_meta (fun m => LoadMeta (meta_file m) (Some version) (loaded_variables m)
                               (meta_warnings m) (transpose_applied m) (selected_variable m))) ;;;
   if String.eqb version "v7.3" then
     f <- lift (h5py_File fs file_path) ;;
     for_each (dict_keys (h5_members f)) (load_h5_key f) ;;;
     select_variable variable_name
   else
     mat_data <- lift (loadmat fs file_path true) ;;
     for_each (filter (fun kv => negb (is_dunder (fst kv))) mat_data) load_mat_key ;;;
     select_variable variable_name)%se.

Definition initial_load_state (file_path : path) : load_state :=
  LoadState (LoadMeta (str_path file_path) None [] [] false None) [].

Definition load_mat_correctly (fs : filesystem) (file_path : path) (variable_name : option string)
  : outcome (pyvalue * load_meta_t) :=
  match load_body fs file_path variable_name (initial_load_state file_path) with
  | (Ok data, s) => Ok (data, ls_meta s)
  | (Raise e, _) => Raise e
  end.

(** ** [np.save] and [np.load] with [allow_pickle=True] *)

(** [np.asanyarray]: what [np.save] writes for a value that is not an
    array is a zero-dimensional array holding it. *)
Definition asanyarray (v : pyvalue) : array :=
  match v with
  | PArr a => a
  | PNum (SFloat x) => NdArray [] (F64buf [x])
  | PNum (SInt z) => NdArray [] (I64buf [z])
  | other => NdArray [] (Objbuf [other])
  end.

(** [np.save] appends [.npy] to a file name that does not end with it;
    the name of the empty path is ['.']. *)
Definition npy_filename (p : path) : path :=
  if endswith (str_path p) ".npy" then p
  else match rev p with
       | [] => ["..npy"]
       | name :: parents => List.app (rev parents) [name ++ ".npy"]
       end.

(** The file [np.save] writes for an array: [np.load] returns the array. *)
Definition NPY (a : array) : file_content :=
  File (npy_as_hdf5 a) (npy_as_mat a) (Loads (PArr a)).

(** Whether the elements of an array can be written: numbers always,
    Python objects when [pickle] takes them. *)
Definition can_pickle (arr : array) : bool :=
  match buf arr with
  | Objbuf items => forallb picklable items
  | _ => true
  end.

(** [np.save(p, v, allow_pickle=True)] where the directory of [p] exists:
    the file system after the call. *)
Definition np_save (fs : filesystem) (p : path) (v : pyvalue) : outcome filesystem :=
  let arr := asanyarray v in
  (_ <- open_for_writing fs (npy_filename p) ;;
   if can_pickle arr then Ok (fs_write fs (npy_filename p) (NPY arr))
   else Raise (Exn TypeError "cannot pickle object"))%outcome.

(** The file system a failing [np.save] leaves: the file has been opened
    and the header written before the elements are pickled. *)
Definition np_save_failed (fs : filesystem) (p : path) (v : pyvalue) : filesystem :=
  match open_for_writing fs (npy_filename p) with
  | Ok _ => fs_write fs (npy_filename p) (npy_truncated (asanyarray v))
  | Raise _ => fs
  end.

(** [np.load(p, allow_pickle=True)] *)
Definition np_load (fs : filesystem) (p : path) : outcome pyvalue :=
  match fs_lookup fs p with
  | Some c =>
      match as_npy c with
      | Loads v => Ok v
      | NotAPickle =>
          Raise (Exn UnpicklingError
                   ("Failed to interpret file " ++ repr_path p ++ " as a pickle"))
      | LoadFails e => Raise e
      end
  | None => Raise (open_missing fs p)
  end.

(** ** [convert_and_verify] *)

Record cv_state := CvState { cv_fs : filesystem; cv_result : result_t }.

Definition on_result (f : result_t -> result_t) (s : cv_state) : cv_state :=
  CvState (cv_fs s) (f (cv_result s)).

Definition set_fs (fs : filesystem) (s : cv_state) : cv_state :=
  CvState fs (cv_result s).

Definition set_load_meta (m : load_meta_t) (r : result_t) : result_t :=
  Result (input_file r) (output_file r) (success r) (verification r)
    (warnings r) (errors r) (Some m) (traceback r).

Definition set_output_file (p : string) (r : result_t) : result_t :=
  Result (input_file r) (Some p) (success r) (verification r)
    (warnings r) (errors r) (load_meta r) (traceback r).

Definition set_success (r : result_t) : result_t :=
  Result (input_file r) (output_file r) true (verification r)
    (warnings r) (errors r) (load_meta r) (traceback r).

Definition set_verification (v : verification_t) (r : result_t) : result_t :=
  Result (input_file r) (output_file r) (success r) v
    (warnings r) (errors r) (load_meta r) (traceback r).

Definition add_warning (msg : string) (r : result_t) : result_t :=
  Result (input_file r) (output_file r) (success r) (verification r)
    (warnings r ++ [msg])%list (errors r) (load_meta r) (traceback r).

Definition add_error (msg : string) (r : result_t) : result_t :=
  Result (input_file r) (output_file r) (success r) (verification r)
    (warnings r) (errors r ++ [msg])%list (load_meta r) (traceback r).

Definition set_traceback (t : string) (r : result_t) : result_t :=
  Result (input_file r) (output_file r) (success r) (verification r)
    (warnings r) (errors r) (load_meta r) (Some t).

(** [type(v)] and its [repr]. *)
Definition type_name (v : pyvalue) : string :=
  match v with
  | PArr _ => "numpy.ndarray"
  | PNum (SFloat _) => "numpy.float64"
  | PNum (SInt _) => "numpy.int64"
  | PRef _ => "h5py.h5r.Reference"
  | PDict _ => "dict"
  | PSparse _ _ => "scipy.sparse._csc.csc_matrix"
  | POther t => t
  end.

Definition repr_type (v : pyvalue) : string := "<class '" ++ type_name v ++ "'>".

Definition exn_class_name (c : exn_class) : string :=
  match c with
  | OSError => "OSError"
  | FileNotFoundError => "FileNotFoundError"
  | FileExistsError => "FileExistsError"
  | NotADirectoryError => "NotADirectoryError"
  | ValueError => "ValueError"
  | UnicodeEncodeError => "UnicodeEncodeError"
  | TypeError => "TypeError"
  | KeyError => "KeyError"
  | AttributeError => "AttributeError"
  | NotImplementedError => "NotImplementedError"
  | EOFError => "EOFError"
  | UnpicklingError => "_pickle.UnpicklingError"
  end.

(** [traceback.format_exc()]: the header, the frames (left out), and the
    line naming the exception. *)
Definition format_exc (e : exn) : string :=
  "Traceback (most recent call last):" ++ String "010" EmptyString
  ++ exn_class_name (exn_cls e) ++ ": " ++ exn_msg e ++ String "010" EmptyString.

(** Sets of keys: [set(d.keys())], [==], [-] and [repr]. *)
Definition mem_str (x : string) (l : list string) : bool := existsb (String.eqb x) l.

Definition key_set {V} (d : list (string * V)) : list string := nodup string_dec (dict_keys d).

Definition set_eqb (a b : list string) : bool :=
  forallb (fun x => mem_str x b) a && forallb (fun x => mem_str x a) b.

Definition set_diff (a b : list string) : list string :=
  filter (fun x => negb (mem_str x b)) a.

Definition repr_set (l : list string) : string :=
  match l with
  | [] => "set()"
  | _ => "{" ++ String.concat ", " (map repr_str l) ++ "}"
  end.

(** Step 6 of [convert_and_verify]: the comparison of what was loaded with
    what was read back, and the classification of the outcome. *)
Definition verify (mat_data npy_data : pyvalue) (name : string) : SE cv_state unit :=
  match mat_data, npy_data with
  | PArr mat_arr, PArr npy_arr =>
      let comparison := compare_matrices mat_arr npy_arr name in
      (modify (on_result (set_verification (ArrayVerification comparison))) ;;;
       if negb (values_equal comparison) then
         if transposed_equal comparison then
           modify (on_result (add_warning "Arrays differ but one is transposed of the other"))
         else
           modify (on_result (add_error "Arrays are different (not just transposed)"))
       else
         modify (on_result set_success))%se
  | PDict mat_dict, PDict npy_dict =>
      let mat_keys := key_set mat_dict in
      let npy_keys := key_set npy_dict in
      if set_eqb mat_keys npy_keys then
        (modify (on_result set_success) ;;;
         modify (on_result (set_verification (DictVerification true mat_keys))))%se
      else
        modify (on_result (add_error
          ("Dictionary keys differ: " ++ repr_set (set_diff mat_keys npy_keys)
           ++ " vs " ++ repr_set (set_diff npy_keys mat_keys))))
  | _, _ =>
      if String.eqb (type_name mat_data) (type_name npy_data) then
        modify (on_result set_success)
      else
        modify (on_result (add_error
          ("Types differ: " ++ repr_type mat_data ++ " vs " ++ repr_type npy_data)))
  end.

(** Step 3: [if npy_file_path is None: ...], the output path mirrors the
    input path below [output_root] with the suffix [.npy]. *)
Definition derive_npy_path (self : converter) (mat_file_path : path)
    (npy_file_path : option path) : outcome path :=
  match npy_file_path with
  | None =>
      (rel_path <- relative_to mat_file_path (input_root self) ;;
       suffixed <- with_suffix rel_path ".npy" ;;
       Ok (List.app (output_root self) suffixed))%outcome
  | Some p => Ok p
  end.

(** Step 4 on the state: the file system after [np.save], also when it
    raises. *)
Definition save_step (npy_file_path : path) (mat_data : pyvalue) : SE cv_state unit :=
  fun s =>
    match np_save (cv_fs s) npy_file_path mat_data with
    | Ok fs' => (Ok tt, set_fs fs' s)
    | Raise e => (Raise e, set_fs (np_save_failed (cv_fs s) npy_file_path mat_data) s)
    end.

(** The body of the [try] block, steps 1 to 6. *)
Definition convert_body (self : converter) (mat_file_path : path) (npy_file_path : option path)
  : SE cv_state unit :=
  (fs <- gets cv_fs ;;
   let file_info := inspect_mat_file_deep fs mat_file_path in
   loaded <- lift (load_mat_correctly fs mat_file_path None) ;;
   let mat_data := fst loaded in
   modify (on_result (set_load_meta (snd loaded))) ;;;
   npy_file_path <- lift (derive_npy_path self mat_file_path npy_file_path) ;;
   lift (mkdir_parents fs (parent npy_file_path)) ;;;
   modify (on_result (set_output_file (str_path npy_file_path))) ;;;
   save_step npy_file_path mat_data ;;;
   fs' <- gets cv_fs ;;
   npy_data <- lift (np_load fs' npy_file_path) ;;
   verify mat_data npy_data (path_name mat_file_path))%se.

Definition initial_result (mat_file_path : path) : result_t :=
  Result (str_path mat_file_path) None false NoVerification [] [] None None.

(** The [except Exception as e] clause. *)
Definition record_exception (e : exn) : SE cv_state unit :=
  (modify (on_result (add_error (str_exn e))) ;;;
   modify (on_result (set_traceback (format_exc e))))%se.

Definition convert_and_verify (self : converter) (fs : filesystem)
    (mat_file_path : path) (npy_file_path : option path) : result_t * filesystem :=
  let s := snd (try_catch (convert_body self mat_file_path npy_file_path) record_exception
                  (CvState fs (initial_result mat_file_path))) in
  (cv_result s, cv_fs s).

(** ** [batch_convert_with_verification] *)

(** The files [os.walk(root)] reports, as [Path(root) / file]: every file
    strictly below [root], in the order of the file system listing. *)
Definition os_walk (fs : filesystem) (root : path) : list path :=
  filter (fun p => match strip_prefix p root with
                   | Some (_ :: _) => true
                   | _ => false
                   end) (map fst fs).

Definition find_mat_files (self : converter) (fs : filesystem) : list path :=
  filter (fun p => endswith (lower (path_name p)) ".mat") (os_walk fs (input_root self)).

Record batch_state := BatchState {
  b_fs : filesystem;
  b_results : list (string * result_t)
}.

(** [save_detailed_report]: [open(report_file, 'w')] creates the file,
    [json.dump] fills it; what it raises leaves the method with the file
    in place.  The summary it computes is [report_summary] below. *)
Definition save_detailed_report (self : converter) : SE batch_state unit :=
  (let report_file := List.app (output_root self) ["conversion_report.json"] in
   results <- gets b_results ;;
   fs <- gets b_fs ;;
   lift (open_for_writing fs report_file) ;;;
   let written := json_dump results in
   modify (fun s => BatchState (fs_write (b_fs s) report_file (fst written)) (b_results s)) ;;;
   lift (snd written))%se.

(** The first loop: [rel_path = mat_file.relative_to(self.input_root)] and
    the [mkdir] of the mirrored directory. *)
Definition mirror_directory (self : converter) (mat_file : path) : SE batch_state unit :=
  (rel_path <- lift (relative_to mat_file (input_root self)) ;;
   let output_dir := List.app (output_root self) (parent rel_path) in
   fs <- gets b_fs ;;
   lift (mkdir_parents fs output_dir))%se.

Definition batch_file (self : converter) (mat_file : path) : SE batch_state unit :=
  (_shown <- lift (relative_to mat_file (input_root self)) ;;      (* progress line *)
   fs <- gets b_fs ;;
   let '(result, fs') := convert_and_verify self fs mat_file None in
   modify (fun s => BatchState fs' (dict_set (b_results s) (str_path mat_file) result)))%se.

Definition batch_body (self : converter) : SE batch_state (list (string * result_t)) :=
  (fs <- gets b_fs ;;
   let mat_files := find_mat_files self fs in
   match mat_files with
   | [] => ret []
   | _ =>
       (* mirror the directory tree *)
       for_each mat_files (mirror_directory self) ;;;
       for_each mat_files (batch_file self) ;;;
       save_detailed_report self ;;;
       gets b_results
   end)%se.

Definition batch_convert_with_verification (self : converter) (fs : filesystem)
  : outcome (list (string * result_t)) * filesystem :=
  let '(r, s) := batch_body self (BatchState fs []) in (r, b_fs s).

(* ================================================================== *)
(** * Vocabulary of the statements                                   *)
(* ================================================================== *)

(** What the [except] clause leaves in the result. *)
Definition failed (e : exn) (r : result_t) : result_t :=
  set_traceback (format_exc e) (add_error (str_exn e) r).

(** The empty 0x0 matrix MATLAB writes for [[]]: [np.max] raises on it, so
    [values_equal] stays [False], while [np.allclose] holds vacuously. *)
Definition empty_matrix_fs : filesystem :=
  [(["bm"; "empty.mat"], MAT [MatVariable "e" true false [0; 0]%nat (F64buf [])])].

(** The stages of the [try] block that can raise, in the order in which
    they run.  Inspection and comparison have handlers of their own
    ([inspect_mat_file_deep] and [compare_matrices] are total,
    [verify_ok]). *)
Inductive stage_raises (self : converter) (fs : filesystem) (p : path)
    (npy : option path) (e : exn) : Prop :=
| raises_in_load :
    load_mat_correctly fs p None = Raise e ->
    stage_raises self fs p npy e
| raises_in_path : forall loaded,
    load_mat_correctly fs p None = Ok loaded ->
    derive_npy_path self p npy = Raise e ->
    stage_raises self fs p npy e
| raises_in_mkdir : forall loaded q,
    load_mat_correctly fs p None = Ok loaded ->
    derive_npy_path self p npy = Ok q ->
    mkdir_parents fs (parent q) = Raise e ->
    stage_raises self fs p npy e
| raises_in_save : forall loaded q,
    load_mat_correctly fs p None = Ok loaded ->
    derive_npy_path self p npy = Ok q ->
    mkdir_parents fs (parent q) = Ok tt ->
    np_save fs q (fst loaded) = Raise e ->
    stage_raises self fs p npy e
| raises_in_load_back : forall loaded q fs',
    load_mat_correctly fs p None = Ok loaded ->
    derive_npy_path self p npy = Ok q ->
    mkdir_parents fs (parent q) = Ok tt ->
    np_save fs q (fst loaded) = Ok fs' ->
    np_load fs' q = Raise e ->
    stage_raises self fs p npy e.

(** The file at [p] is a MAT file of version 7 or older holding [m]:
    h5py finds no container in it and scipy reads [m]. *)
Definition legacy_file (fs : filesystem) (p : path) (m : matfile) : Prop :=
  exists c, fs_lookup fs p = Some c /\ as_hdf5 c = None /\ as_mat c = Ok m.

(** A stored result is the result of converting one of the listed files. *)
Definition result_of (self : converter) (files : list path) (key : string) (r : result_t) : Prop :=
  exists p fs0, In p files /\ str_path p = key /\ r = fst (convert_and_verify self fs0 p None).

(** The value a dataset materialises to, before the layout step. *)
Definition materialized (f : h5file) (key : string) (sh : list nat) (b : buffer pyvalue)
  : outcome pyvalue :=
  fst (materialize f key sh b (initial_load_state [])).

(** The layout step on values: arrays of rank 2 and more are transposed. *)
Definition is_rank2 (v : pyvalue) : bool :=
  match v with
  | PArr a => (2 <=? ndim a)%nat
  | _ => false
  end.

Definition layout (v : pyvalue) : pyvalue :=
  match v with
  | PArr a => if (2 <=? ndim a)%nat then PArr (transpose a) else v
  | _ => v
  end.

Definition layout_entry (key : string) (v : pyvalue) : list loaded_variable :=
  match v with
  | PArr a =>
      if (2 <=? ndim a)%nat
      then [LoadedVariable key original_shape (shape a) (str_dtype (arr_dtype a))]
      else []
  | _ => []
  end.

(** What the loop has established for one key: its value in [data_dict] is
    the layout step applied to what the dataset materialises to, and a
    transposed value has its entry and the flag in [meta]. *)
Definition key_loaded (f : h5file) (s : load_state) (key : string) : Prop :=
  forall sh b,
    dict_get (h5_members f) key = Some (H5Dataset sh b) ->
    exists v,
      materialized f key sh b = Ok v
      /\ dict_get (ls_dict s) key = Some (layout v)
      /\ (forall lv, In lv (layout_entry key v) -> In lv (loaded_variables (ls_meta s)))
      /\ (is_rank2 v = true -> transpose_applied (ls_meta s) = true).

(** Where an entry of [loaded_variables] comes from in the HDF5 branch. *)
Definition h5_entry_ok (f : h5file) (lv : loaded_variable) : Prop :=
  exists sh b a,
    dict_get (h5_members f) (lv_name lv) = Some (H5Dataset sh b)
    /\ materialized f (lv_name lv) sh b = Ok (PArr a)
    /\ (2 <=? ndim a)%nat = true
    /\ lv = LoadedVariable (lv_name lv) original_shape (shape a) (str_dtype (arr_dtype a)).

Definition h5_meta_ok (f : h5file) (s : load_state) : Prop :=
  Forall (h5_entry_ok f) (loaded_variables (ls_meta s))
  /\ (loaded_variables (ls_meta s) = [] \/ transpose_applied (ls_meta s) = true).

(** The record the HDF5 branch of the inspection builds for one member. *)
Definition h5_var_info (f : h5file) (key : string) (obj : h5object) : var_info :=
  match obj with
  | H5Dataset sh b =>
      let is_ref := dtype_eqb (buf_dtype b) object in
      VarInfo key "Dataset" (Some sh) (Some (str_dtype (buf_dtype b))) is_ref
        (if is_ref then inspect_reference f sh b else None)
  | H5Group => VarInfo key "Group" None None false None
  end.

Definition mat_entry (kv : string * pyvalue) : list loaded_variable :=
  match snd kv with
  | PArr a => [LoadedVariable (fst kv) plain_shape (shape a) (str_dtype (arr_dtype a))]
  | _ => []
  end.

(** [mat_dtype] changes element types, never names or shapes. *)
Definition same_shape (v1 v2 : pyvalue) : Prop :=
  match v1, v2 with
  | PArr a1, PArr a2 => shape a1 = shape a2
  | PSparse sh1 _, PSparse sh2 _ => sh1 = sh2
  | POther t1, POther t2 => t1 = t2
  | _, _ => False
  end.

Definition same_entry (kv1 kv2 : string * pyvalue) : Prop :=
  fst kv1 = fst kv2 /\ same_shape (snd kv1) (snd kv2).

End Converter.

(** A one-dimensional float64 array. *)
Definition vector (xs : list float) : array := NdArray [length xs] (F64buf xs).

Definition ravel_step (acc : nat) (di : nat * nat) : nat := (acc * fst di + snd di)%nat.

(** The value of a successful load, without its metadata. *)
Definition fmap_fst {A B} (o : outcome (A * B)) : outcome A :=
  match o with
  | Ok ab => Ok (fst ab)
  | Raise e => Raise e
  end.

(* ================================================================== *)
(** * The specification's scenarios                                  *)
(* ================================================================== *)

(** One numpy for the examples: [np.array] stacks float scalars and raises
    on anything else, comparisons on object arrays raise, and everything
    but an HDF5 reference can be pickled. *)
Definition example_np_array (items : list pyvalue) : outcome array :=
  let scalars := flat_map (fun v => match v with PNum (SFloat x) => [x] | _ => [] end) items in
  if (length scalars =? length items)%nat
  then Ok (NdArray [length items] (F64buf scalars))
  else Raise (Exn ValueError "setting an array element with a sequence.").

Definition example_object_check (c : np_check) (a b : array) : outcome bool :=
  Raise (Exn TypeError "unsupported operand type(s)").

Definition example_picklable (v : pyvalue) : bool :=
  match v with
  | PRef _ => false
  | _ => true
  end.

(** The numpy of the examples is a release that still has [np.object];
    the files it writes have the 128-byte header of a small array, blanks
    at the offsets 124 to 126, and no HDF5 image in them; a report is a
    text whose bytes 124 and 125 are [{] and [}] when every count of the
    summary has one digit. *)
Definition example_numpy : Numpy :=
  {| np_array := example_np_array;
     np_object_check := example_object_check;
     picklable := example_picklable;
     np_object_alias := Ok tt;
     npy_as_hdf5 := fun _ => None;
     npy_as_mat := fun _ => Raise (unknown_mat_file_type 32 32);
     npy_truncated := fun _ =>
       File None (Raise (unknown_mat_file_type 32 32))
            (LoadFails (Exn EOFError "Ran out of input"));
     json_dump := fun _ => (unreadable 123 125, Ok tt) |}.

Definition bm : converter := Converter ["bm"] ["bm_npy"].

Definition convert : filesystem -> path -> option path -> result_t * filesystem :=
  convert_and_verify (np := example_numpy) bm.

Definition matrix_2x3 : array := NdArray [2; 3]%nat (F64buf [1; 2; 3; 4; 5; 6]%float).

(** Scenario 1: a 2x3 float64 variable [data] in a legacy file. *)
Definition legacy_fs : filesystem :=
  [(["bm"; "data.mat"], MAT [MatVariable "data" true false [2; 3]%nat (F64buf [1; 2; 3; 4; 5; 6]%float)])].

Definition legacy_meta : load_meta_t :=
  LoadMeta "bm/data.mat" (Some "v7.0_or_older")
    [LoadedVariable "data" plain_shape [2; 3]%nat "float64"] [] false (Some "data").

(** Scenario 2: the same matrix stored column-major in an HDF5 file. *)
Definition column_major : h5object := H5Dataset [3; 2]%nat (F64buf [1; 4; 2; 5; 3; 6]%float).

Definition hdf5_file : h5file := H5File [("data", column_major)] [].

Definition hdf5_fs : filesystem := [(["bm"; "data.mat"], HDF5 hdf5_file)].

Definition hdf5_meta : load_meta_t :=
  LoadMeta "bm/data.mat" (Some "v7.3")
    [LoadedVariable "data" original_shape [3; 2]%nat "float64"] [] true (Some "data").

(** A legacy file with two variables: the loader returns a dictionary. *)
Definition two_variables_fs : filesystem :=
  [(["bm"; "pair.mat"],
    MAT [MatVariable "a" true false [1; 1]%nat (F64buf [1%float]);
         MatVariable "b" true false [1; 1]%nat (F64buf [2%float])])].

(** A file that is neither HDF5 nor MAT. *)
Definition broken_fs : filesystem := [(["bm"; "broken.mat"], Other)].

(* ================================================================== *)
(** * The rest of the module                                           *)
(* ================================================================== *)

(** ** [save_detailed_report]: the summary it computes

    [stats] as the method fills it (['file_types'] stays the empty
    dictionary it starts as and is left out).  [collections.Counter]
    counts in order of first occurrence; [most_common(n)] is the first [n]
    entries of the stable sort by decreasing count. *)

Record report_stats := ReportStats {
  total_files : nat;
  successful : nat;
  with_warnings : nat;
  with_errors : nat;
  common_issues : list (string * nat)
}.

(** [sum(1 for r in results.values() if test(r))] *)
Definition count_results (test : result_t -> bool) (results : list (string * result_t)) : nat :=
  length (filter (fun kr => test (snd kr)) results).

(** The truth value of a list: not empty. *)
Definition truthy {A} (l : list A) : bool :=
  match l with
  | [] => false
  | _ => true
  end.

(** [Counter(items)] *)
Definition counter (items : list string) : list (string * nat) :=
  fold_left (fun counts x =>
               dict_set counts x (S (match dict_get counts x with
                                     | Some n => n
                                     | None => 0%nat
                                     end)))
            items [].

(** Insertion into a list sorted by decreasing count, before the first
    entry that does not have a larger count. *)
Fixpoint insert_by_count (kv : string * nat) (sorted : list (string * nat))
  : list (string * nat) :=
  match sorted with
  | [] => [kv]
  | h :: t => if (snd kv <? snd h)%nat then h :: insert_by_count kv t else kv :: h :: t
  end.

(** [sorted(items, key=itemgetter(1), reverse=True)] *)
Definition sort_by_count (items : list (string * nat)) : list (string * nat) :=
  fold_right insert_by_count [] items.

(** [Counter.most_common(n)] *)
Definition most_common (n : nat) (counts : list (string * nat)) : list (string * nat) :=
  firstn n (sort_by_count counts).

(** [all_issues]: the errors of every result, in the order of the results. *)
Definition all_issues (results : list (string * result_t)) : list string :=
  flat_map (fun kr => errors (snd kr)) results.

Definition report_summary (results : list (string * result_t)) : report_stats :=
  ReportStats
    (length results)
    (count_results success results)
    (count_results (fun r => truthy (warnings r)) results)
    (count_results (fun r => truthy (errors r)) results)
    (most_common 10 (counter (all_issues results))).

Section Scripts.

Context {np : Numpy}.

(** ** [test_single_file]

    The converter is [MatToNpyConverterDebug()] with its default roots and
    the file is always [test.mat].  The loader is called outside any [try],
    so what it raises leaves the function. *)
Definition test_single_file (fs : filesystem) : outcome unit * filesystem :=
  let converter := Converter ["bm"] ["bm_npy"] in
  let test_file := ["test.mat"] in
  match fs_lookup fs test_file with
  | None => (Ok tt, fs)                                  (* not test_file.exists() *)
  | Some _ =>
      let file_info := inspect_mat_file_deep fs test_file in
      match load_mat_correctly fs test_file None with
      | Raise e => (Raise e, fs)
      | Ok _ =>
          let '(result, fs') :=
            convert_and_verify converter fs test_file (Some ["test_output.npy"]) in
          (Ok tt, fs')
      end
  end.

(** ** The command line ([if __name__ == "__main__"])

    The arguments as [argparse] returns them; [test_file] is [None] when
    the option is absent or empty. *)
Record arguments := Args {
  arg_input : path;
  arg_output : path;
  arg_test : bool;
  arg_test_file : option path
}.

Definition main (args : arguments) (fs : filesystem) : outcome unit * filesystem :=
  if arg_test args then
    let test_file :=
      match arg_test_file args with
      | Some p => p
      | None => ["test.mat"]
      end in
    match fs_lookup fs test_file with
    | Some _ => test_single_file fs
    | None => (Ok tt, fs)
    end
  else
    let converter := Converter (arg_input args) (arg_output args) in
    let '(results, fs') := batch_convert_with_verification converter fs in
    (match results with
     | Ok _ => Ok tt
     | Raise e => Raise e
     end, fs').

End Scripts.

(** ** Vocabulary of the further properties *)

(** [meta['version'] = version] *)
Definition meta_set_version (version : string) (m : load_meta_t) : load_meta_t :=
  LoadMeta (meta_file m) (Some version) (loaded_variables m)
    (meta_warnings m) (transpose_applied m) (selected_variable m).

(** A member that is a scalar dataset of object type holding a reference
    [f[ref]] cannot resolve. *)
Definition dangling (f : h5file) (key : string) : Prop :=
  exists r rest e,
    dict_get (h5_members f) key = Some (H5Dataset [] (Objbuf (PRef r :: rest)))
    /\ h5_deref f r = Raise e.

(** The count a [Counter] holds for a key, [0] for a key it does not have. *)
Definition count_of (counts : list (string * nat)) (k : string) : nat :=
  match dict_get counts k with
  | Some n => n
  | None => 0%nat
  end.

(** The order of [most_common]: decreasing counts. *)
Definition by_count (a b : string * nat) : Prop := (snd b <= snd a)%nat.

(** The issue the inspection records for a dataset of object type. *)
Definition reference_issue (key : string) : string :=
  "Variable '" ++ key ++ "' is a reference (may need special handling)".

(** The keys scipy's [loadmat] returns that are variables of the file. *)
Definition is_variable (kv : string * pyvalue) : bool := negb (is_dunder (fst kv)).

(** The records of the inspection whose ['type'] is [ndarray]. *)
Definition is_ndarray (vi : var_info) : bool := String.eqb (vi_type vi) "ndarray".

(** A variable [loadmat] returns is an array or a sparse matrix. *)
Definition array_or_sparse (kv : string * pyvalue) : Prop :=
  is_variable kv = true ->
  (exists a, snd kv = PArr a) \/ (exists sh dt, snd kv = PSparse sh dt).

(** A float as [SpecFloat] has it that is a zero or a finite number. *)
Definition SFfinite (a : spec_float) : Prop :=
  match a with
  | S754_zero _ | S754_finite _ _ _ => True
  | _ => False
  end.

(** ** Further scenarios *)

(** A label matrix of MATLAB class [int64]. *)
Definition labels_fs : filesystem :=
  [(["bm"; "labels.mat"], MAT [MatVariable "labels" false false [2; 2]%nat (I64buf [1; 2; 3; 4])])].

(** A map with a hole in it. *)
Definition holes_fs : filesystem :=
  [(["bm"; "holes.mat"], MAT [MatVariable "m" true false [1; 2]%nat (F64buf [1; nan]%float)])].

(** An input next to an older array stored without the extension. *)
Definition old_array : array := NdArray [1%nat] (F64buf [0%float]).

Definition stale_fs : filesystem :=
  (legacy_fs ++ [(["out"], NPY (np := example_numpy) old_array)])%list.

(** A v7.3 file holding a cell array whose references resolve to nothing. *)
Definition cells_file : h5file :=
  H5File [("cells", H5Dataset [2%nat] (Objbuf [PRef 7%nat; PRef 8%nat]))] [].

Definition cells_fs : filesystem := [(["bm"; "cells.mat"], HDF5 cells_file)].

(** A [test.mat] that is not a MAT file. *)
Definition test_fs : filesystem := [(["test.mat"], Other)].

(** A legacy file with a full matrix and a sparse one. *)
Definition sparse_fs : filesystem :=
  [(["bm"; "mixed.mat"],
    MAT [MatVariable "full" true false [2; 3]%nat (F64buf [1; 2; 3; 4; 5; 6]%float);
         MatVariable "holes" true true [4; 4]%nat (F64buf [7; 8]%float)])].

(** A file name holding the lone surrogate U+D800, as [os.listdir] never
    returns one but as a caller can pass it. *)
Definition surrogate_name : string :=
  String (ascii_of_nat 237) (String (ascii_of_nat 160) (String (ascii_of_nat 128) ".mat")).

(** A file that is both: a MAT header of version 5 in the first 128
    bytes (the user block of HDF5) and an HDF5 container at offset 512. *)
Definition both_fs : filesystem :=
  [(["bm"; "both.mat"],
    File (Some hdf5_file)
         (Ok [MatVariable "data" true false [2; 3]%nat (F64buf [1; 2; 3; 4; 5; 6]%float)])
         NotAPickle)].

(** The two-variable input next to an older file [out] that is a plain
    pickle of a dictionary with the same keys: [np.load] with
    [allow_pickle=True] unpickles what is no array file. *)
Definition stale_pickle_fs : filesystem :=
  (two_variables_fs
   ++ [(["out"], File None (Raise (unknown_mat_file_type 0 0))
                   (Loads (PDict [("b", POther "str"); ("a", POther "str")])))])%list.

(** A regular file where the output root should be. *)
Definition occupied_fs : filesystem := ((["bm_npy"], Other) :: legacy_fs)%list.

(** A numpy whose array files carry an HDF5 image of their own data, in
    MATLAB's layout, at offset 512. *)
Definition image_numpy : Numpy :=
  {| np_array := example_np_array;
     np_object_check := example_object_check;
     picklable := example_picklable;
     np_object_alias := Ok tt;
     npy_as_hdf5 := fun a =>
       Some (H5File [("data", H5Dataset (rev (shape a)) (transpose_buf (shape a) (buf a)))] []);
     npy_as_mat := fun _ => Raise (unknown_mat_file_type 32 32);
     npy_truncated := fun _ => unreadable 32 32;
     json_dump := fun _ => (unreadable 123 125, Ok tt) |}.

(** A numpy of release 1.24 or later: [np.object] is gone. *)
Definition recent_numpy : Numpy :=
  {| np_array := example_np_array;
     np_object_check := example_object_check;
     picklable := example_picklable;
     np_object_alias :=
       Raise (Exn AttributeError "module 'numpy' has no attribute 'object'");
     npy_as_hdf5 := fun _ => None;
     npy_as_mat := fun _ => Raise (unknown_mat_file_type 32 32);
     npy_truncated := fun _ => unreadable 32 32;
     json_dump := fun _ => (unreadable 123 125, Ok tt) |}.


(* ================================================================== *)
(** * Checks of the embedding on known values                        *)
(* ================================================================== *)

(** RFC 1321 test vectors. *)
Example md5_empty : MD5.hexdigest [] = "d41d8cd98f00b204e9800998ecf8427e"%string.
Proof. vm_compute. reflexivity. Qed.

Example md5_abc : MD5.hexdigest [97; 98; 99] = "900150983cd24fb0d6963f7d28e17f72"%string.
Proof. vm_compute. reflexivity. Qed.

Example md5_two_blocks :
  MD5.hexdigest (map (fun c => Z.of_nat (nat_of_ascii c))
    (list_ascii_of_string
       "12345678901234567890123456789012345678901234567890123456789012345678901234567890"))
  = "57edf4a22be3c955ac49da2e2107b67a"%string.
Proof. vm_compute. reflexivity. Qed.

Example of_int64_values :
  map F64.of_int64 [0; 3; -7; 9007199254740993; - 0x8000000000000000]%Z
  = [0; 3; -7; 9007199254740992; -9223372036854775808]%float.
Proof. vm_compute. reflexivity. Qed.

Example round6_collapses : F64.round6 1.0000001%float = 1%float.
Proof. vm_compute. reflexivity. Qed.

Example round6_half_even :
  map F64.round6 [0.5e-6; 1.5e-6; 2.5e-6]%float = [0; 2e-6; 2e-6]%float.
Proof. vm_compute. reflexivity. Qed.

Example to_bytes_1e_6 :
  MD5.hex (F64.to_bytes 1e-6%float) = "8dedb5a0f7c6b03e"%string.
Proof. vm_compute. reflexivity. Qed.

Example to_bytes_neg_zero :
  MD5.hex (F64.to_bytes (F64.round6 (-4e-7)%float)) = "0000000000000080"%string.
Proof. vm_compute. reflexivity. Qed.

Example transpose_3x2 :
  transpose (NdArray [3; 2]%nat (I64buf [1; 4; 2; 5; 3; 6]))
  = NdArray [2; 3]%nat (I64buf [1; 2; 3; 4; 5; 6]).
Proof. reflexivity. Qed.

Example transpose_2x3x2 :
  transpose (NdArray [2; 3; 2]%nat (I64buf [0; 1; 2; 3; 4; 5; 6; 7; 8; 9; 10; 11]))
  = NdArray [2; 3; 2]%nat (I64buf [0; 6; 2; 8; 4; 10; 1; 7; 3; 9; 5; 11]).
Proof. reflexivity. Qed.

Example hash_of_one : compute_array_hash (NdArray [1%nat] (F64buf [1%float])) = Some "e02e0d84"%string.
Proof. vm_compute. reflexivity. Qed.

Example with_suffix_mat : with_suffix ["1"; "page.v2.MAT"] ".npy" = Ok ["1"; "page.v2.npy"].
Proof. reflexivity. Qed.

Example with_suffix_hidden : with_suffix [".mat"] ".npy" = Ok [".mat.npy"].
Proof. reflexivity. Qed.

(* ================================================================== *)
(** * Strings, paths and the file system                               *)
(* ================================================================== *)

Lemma substring_all : forall s, substring 0 (String.length s) s = s.
Proof. induction s as [|c s IH]; cbn; [reflexivity | now rewrite IH]. Qed.

Lemma substring_append_right : forall a b,
  substring (String.length a) (String.length b) (a ++ b) = b.
Proof. induction a as [|c a IH]; intros b; cbn; [apply substring_all | apply IH]. Qed.

Lemma length_append : forall a b,
  String.length (a ++ b) = (String.length a + String.length b)%nat.
Proof. induction a as [|c a IH]; intros b; cbn; [reflexivity | now rewrite IH]. Qed.

Lemma endswith_append : forall a b, endswith (a ++ b) b = true.
Proof.
  intros a b. unfold endswith. rewrite length_append.
  replace (String.length a + String.length b - String.length b)%nat
    with (String.length a) by lia.
  rewrite substring_append_right, String.eqb_refl.
  replace (String.length b <=? String.length a + String.length b)%nat with true
    by (symmetry; apply Nat.leb_le; lia).
  reflexivity.
Qed.

Lemma append_assoc : forall a b c : string, (a ++ b) ++ c = a ++ (b ++ c).
Proof. induction a as [|x a IH]; intros b c; cbn; [reflexivity | now rewrite IH]. Qed.

(** The text of a path ends with its last component. *)
Lemma str_path_last : forall (parents : path) name,
  exists pre, str_path (parents ++ [name])%list = pre ++ name.
Proof.
  intros parents name.
  assert (H : forall l : list string, exists pre, String.concat "/" (l ++ [name])%list = pre ++ name).
  { induction l as [|x l IH]; cbn.
    - exists "". reflexivity.
    - destruct IH as [pre IH]. destruct (l ++ [name])%list as [|y t] eqn:E.
      + destruct l; discriminate.
      + rewrite IH. exists (x ++ "/" ++ pre). now rewrite !append_assoc. }
  unfold str_path. destruct (parents ++ [name])%list eqn:E.
  - destruct parents; discriminate.
  - rewrite <- E. apply H.
Qed.

(** Dictionaries whose keys are distinct. *)
Lemma In_dict_get : forall {V} (d : list (string * V)) k v,
  NoDup (dict_keys d) -> In (k, v) d -> dict_get d k = Some v.
Proof.
  intros V d k v Hnd Hin. induction d as [|[k' v'] d IH]; [destruct Hin|].
  cbn in *. inversion Hnd as [|? ? Hk' Hnd']; subst.
  destruct Hin as [[= -> ->]|Hin].
  - now rewrite String.eqb_refl.
  - destruct (String.eqb k k') eqn:E.
    + apply String.eqb_eq in E. subst k'. destruct Hk'.
      change k with (fst (k, v)). now apply in_map.
    + now apply IH.
Qed.

Lemma dict_get_In : forall {V} (d : list (string * V)) k v,
  dict_get d k = Some v -> In (k, v) d.
Proof.
  intros V d k v. induction d as [|[k' v'] d IH]; cbn; [discriminate|].
  destruct (String.eqb k k') eqn:E.
  - apply String.eqb_eq in E. subst k'. intros [= ->]. now left.
  - intros H. right. now apply IH.
Qed.

Lemma path_eqb_eq : forall p q, path_eqb p q = true <-> p = q.
Proof.
  intros p q. unfold path_eqb. destruct (list_eq_dec string_dec p q); split; congruence.
Qed.

Lemma path_eqb_refl : forall p, path_eqb p p = true.
Proof. intros p. now apply path_eqb_eq. Qed.

Lemma path_eqb_neq : forall p q, p <> q -> path_eqb p q = false.
Proof.
  intros p q H. destruct (path_eqb p q) eqn:E; [|reflexivity].
  apply path_eqb_eq in E. contradiction.
Qed.

Lemma fs_lookup_write_same : forall fs p c, fs_lookup (fs_write fs p c) p = Some c.
Proof.
  induction fs as [|[q c'] fs IH]; intros p c; cbn.
  - now rewrite path_eqb_refl.
  - destruct (path_eqb p q) eqn:E; cbn; rewrite E; [reflexivity | apply IH].
Qed.

Lemma fs_lookup_write_other : forall fs p q c,
  q <> p -> fs_lookup (fs_write fs p c) q = fs_lookup fs q.
Proof.
  induction fs as [|[r c'] fs IH]; intros p q c Hne; cbn.
  - now rewrite (path_eqb_neq q p Hne).
  - destruct (path_eqb p r) eqn:E; cbn.
    + apply path_eqb_eq in E. subst r. now rewrite (path_eqb_neq q p Hne).
    + destruct (path_eqb q r); [reflexivity | now apply IH].
Qed.


(** ** Paths, encodings and directories *)

Lemma fsencodable_app : forall s t,
  fsencodable (s ++ t) = true -> fsencodable s = true.
Proof.
  induction s as [|c s IH]; intros t; [reflexivity|].
  destruct s as [|c' s']; [reflexivity|].
  change (String c (String c' s') ++ t) with (String c (String c' (s' ++ t))).
  cbn [fsencodable].
  destruct (_ && _ && _ && _ && _)%bool; [discriminate|].
  change (String c' (s' ++ t)) with (String c' s' ++ t). apply IH.
Qed.

Lemma concat_app_last : forall (l : list string) x,
  l <> [] -> String.concat "/" (l ++ [x])%list = String.concat "/" l ++ "/" ++ x.
Proof.
  induction l as [|y l IH]; intros x Hl; [contradiction|].
  destruct l as [|z l]; [reflexivity|].
  assert (E : forall a b (t : list string),
             String.concat "/" (a :: b :: t) = a ++ "/" ++ String.concat "/" (b :: t))
    by reflexivity.
  change ((y :: z :: l) ++ [x])%list with (y :: z :: (l ++ [x]))%list.
  rewrite E. change (z :: (l ++ [x]))%list with ((z :: l) ++ [x])%list.
  rewrite IH by discriminate. now rewrite E, !append_assoc.
Qed.

(** A path that can be encoded has a directory that can. *)
Lemma fsencodable_parent : forall (l : path) y,
  fsencodable (str_path (l ++ [y])%list) = true -> fsencodable (str_path l) = true.
Proof.
  intros l y H. destruct l as [|x l]; [reflexivity|].
  unfold str_path in *.
  change ((x :: l) ++ [y])%list with (x :: (l ++ [y]))%list in H.
  change (x :: (l ++ [y]))%list with ((x :: l) ++ [y])%list in H.
  rewrite concat_app_last in H by discriminate.
  now apply fsencodable_app in H.
Qed.

Lemma prefixes_app_last : forall (l : path) x,
  prefixes (l ++ [x])%list = (prefixes l ++ [(l ++ [x])%list])%list.
Proof.
  intros l x. unfold prefixes. rewrite length_app. cbn [length].
  rewrite Nat.add_1_r, seq_S, map_app. cbn [map]. f_equal.
  - apply map_ext_in. intros k Hk. apply in_seq in Hk.
    rewrite firstn_app. replace (k - length l)%nat with 0%nat by lia.
    cbn. apply app_nil_r.
  - f_equal. change (1 + length l)%nat with (S (length l)).
    rewrite firstn_all2; [reflexivity|]. rewrite length_app. cbn. lia.
Qed.

Lemma parent_app_last : forall (l : path) x, parent (l ++ [x])%list = l.
Proof. intros l x. apply removelast_last. Qed.

(** The name [np.save] writes lies in the directory of the name it is
    given. *)
Lemma npy_filename_parent : forall q,
  exists y, npy_filename q = (parent q ++ [y])%list.
Proof.
  intros q. induction q as [|x l _] using rev_ind.
  - exists "..npy". reflexivity.
  - rewrite parent_app_last. unfold npy_filename.
    destruct (endswith _ _); [exists x; reflexivity|].
    rewrite rev_unit, rev_involutive. eexists. reflexivity.
Qed.

Lemma parent_npy_filename : forall q, parent (npy_filename q) = parent q.
Proof.
  intros q. destruct (npy_filename_parent q) as [y ->]. apply parent_app_last.
Qed.

(** No file on the way to a path: none on the way to its directory. *)
Lemma prefixes_parent_free : forall (f : path -> bool) p,
  existsb f (prefixes p) = false -> existsb f (prefixes (parent p)) = false.
Proof.
  intros f p. induction p as [|x l _] using rev_ind; [trivial|].
  rewrite parent_app_last, prefixes_app_last, existsb_app.
  intros H. now apply orb_false_iff in H.
Qed.

Lemma mkdir_parents_ok : forall fs dir,
  fsencodable (str_path dir) = true ->
  existsb (is_file fs) (prefixes dir) = false ->
  mkdir_parents fs dir = Ok tt.
Proof.
  intros fs dir He Hf. unfold mkdir_parents, fsencode, blocked. rewrite He. cbn [obind].
  now rewrite (prefixes_parent_free _ _ Hf), Hf.
Qed.

Lemma mkdir_parents_inv : forall fs dir,
  mkdir_parents fs dir = Ok tt ->
  fsencodable (str_path dir) = true /\ existsb (is_file fs) (prefixes dir) = false.
Proof.
  intros fs dir. unfold mkdir_parents, fsencode.
  destruct (fsencodable (str_path dir)); cbn [obind]; [|discriminate].
  destruct (blocked fs dir); [discriminate|].
  destruct (existsb _ _); [discriminate|]. now split.
Qed.

Lemma open_for_writing_inv : forall fs p,
  open_for_writing fs p = Ok tt ->
  fsencodable (str_path p) = true /\ blocked fs p = false.
Proof.
  intros fs p. unfold open_for_writing, fsencode.
  destruct (fsencodable (str_path p)); cbn [obind]; [|discriminate].
  destruct (blocked fs p); [discriminate|]. now split.
Qed.

(** Where a file can be opened for writing, its directory can be made. *)
Lemma open_for_writing_mkdir : forall fs p,
  open_for_writing fs p = Ok tt -> mkdir_parents fs (parent p) = Ok tt.
Proof.
  intros fs p H. apply open_for_writing_inv in H as [He Hb].
  apply mkdir_parents_ok; [|exact Hb].
  induction p as [|x l _] using rev_ind; [reflexivity|].
  rewrite parent_app_last. now apply fsencodable_parent with (y := x).
Qed.

(** The name [np.save] writes to always carries the extension. *)
Lemma npy_filename_endswith : forall q,
  q <> [] -> endswith (str_path (npy_filename q)) ".npy" = true.
Proof.
  intros q Hq. unfold npy_filename.
  destruct (endswith (str_path q) ".npy") eqn:E; [exact E|].
  destruct (rev q) as [|name parents] eqn:R.
  - apply (f_equal (@rev string)) in R. rewrite rev_involutive in R. contradiction.
  - destruct (str_path_last (rev parents) (name ++ ".npy")) as [pre Hpre].
    rewrite Hpre, <- append_assoc. apply endswith_append.
Qed.

Lemma npy_filename_fixed : forall q,
  endswith (str_path q) ".npy" = true -> npy_filename q = q.
Proof. intros q H. unfold npy_filename. now rewrite H. Qed.

Lemma npy_filename_moves : forall q,
  q <> [] -> endswith (str_path q) ".npy" = false -> npy_filename q <> q.
Proof.
  intros q Hq H Heq. pose proof (npy_filename_endswith q Hq) as E.
  rewrite Heq in E. congruence.
Qed.

(** The path step 3 derives ends with [.npy]. *)
Lemma derived_path_endswith : forall self p q,
  derive_npy_path self p None = Ok q ->
  q <> [] /\ endswith (str_path q) ".npy" = true.
Proof.
  intros self p q. unfold derive_npy_path, relative_to, with_suffix. 
  destruct (strip_prefix p (input_root self)) as [rel|]; cbn; [|discriminate].
  destruct (rev rel) as [|name parents]; cbn; [discriminate|].
  intros [= <-]. rewrite app_assoc. split.
  - intros H. apply app_eq_nil in H. destruct H; discriminate.
  - match goal with |- context [[?n]] =>
      destruct (str_path_last (output_root self ++ rev parents)%list n) as [pre Hpre] end.
    match type of Hpre with _ = pre ++ (?stem ++ _) =>
      rewrite Hpre, <- append_assoc end.
    apply endswith_append.
Qed.

Lemma prefixes_length : forall (p d : path),
  In d (prefixes p) -> (length d <= length p)%nat.
Proof.
  intros p d H. unfold prefixes in H. apply in_map_iff in H as (k & <- & Hk).
  apply in_seq in Hk. rewrite length_firstn. lia.
Qed.

Lemma parent_length : forall p : path, p <> [] -> (length (parent p) < length p)%nat.
Proof.
  intros p Hp. induction p as [|x l _] using rev_ind; [contradiction|].
  rewrite parent_app_last, length_app. cbn. lia.
Qed.

(** Writing a file does not put anything on the way to its neighbours. *)
Lemma blocked_write : forall fs (n p : path) c,
  parent n = parent p -> blocked (fs_write fs n c) p = blocked fs p.
Proof.
  intros fs n p c Hpar. unfold blocked.
  destruct n as [|x n'].
  - cbn in Hpar. rewrite <- Hpar. reflexivity.
  - set (n := x :: n') in *.
    assert (Hn : (length (parent p) < length n)%nat)
      by (rewrite <- Hpar; apply parent_length; discriminate).
    assert (H : forall d, In d (prefixes (parent p)) ->
                  is_file (fs_write fs n c) d = is_file fs d).
    { intros d Hd. apply prefixes_length in Hd. unfold is_file.
      rewrite fs_lookup_write_other; [reflexivity|]. intros ->. lia. }
    induction (prefixes (parent p)) as [|d l IH]; [reflexivity|].
    cbn [existsb]. rewrite H by (now left). rewrite IH; [reflexivity|].
    intros d' Hd'. apply H. now right.
Qed.

Lemma str_path_snoc : forall (l : path) x,
  str_path (l ++ [x])%list
  = match l with
    | [] => x
    | _ => String.concat "/" l ++ "/" ++ x
    end.
Proof.
  intros l x. destruct l as [|y l]; [reflexivity|].
  rewrite <- concat_app_last by discriminate. reflexivity.
Qed.

(** The name [np.save] writes, as a text. *)
Lemma str_path_npy_filename : forall q,
  q <> [] -> endswith (str_path q) ".npy" = false ->
  str_path (npy_filename q) = str_path q ++ ".npy".
Proof.
  intros q Hq Hend. unfold npy_filename. rewrite Hend.
  induction q as [|x l _] using rev_ind; [contradiction|].
  rewrite rev_unit, rev_involutive, !str_path_snoc.
  destruct l; [reflexivity|]. now rewrite !append_assoc.
Qed.

Section Properties.

Context {np : Numpy}.

(* ================================================================== *)
(** * Properties of the Conversion Verifier                            *)
(* ================================================================== *)

Ltac se_unfold :=
  unfold bind, lift, gets, modify, ret, try_catch, on_result, set_fs in *;
  cbn [fst snd cv_fs cv_result] in *.

(** The classification step always completes and only touches the result. *)
Lemma verify_ok : forall mat_data npy_data name s,
  fst (verify mat_data npy_data name s) = Ok tt
  /\ cv_fs (snd (verify mat_data npy_data name s)) = cv_fs s.
Proof.
  intros mat_data npy_data name s.
  destruct mat_data as [m| | |md| |]; destruct npy_data as [n| | |nd| |]; cbn [verify];
    try (destruct (String.eqb _ _); se_unfold; split; reflexivity).
  - se_unfold. destruct (values_equal _); cbn [negb].
    + split; reflexivity.
    + destruct (transposed_equal _); split; reflexivity.
  - destruct (set_eqb _ _); se_unfold; split; reflexivity.
Qed.

(** What [np.save] does when it succeeds, and what it needs. *)
Lemma np_save_inv : forall fs q v fs',
  np_save fs q v = Ok fs' ->
  open_for_writing fs (npy_filename q) = Ok tt
  /\ can_pickle (asanyarray v) = true
  /\ fs' = fs_write fs (npy_filename q) (NPY (asanyarray v)).
Proof.
  intros fs q v fs'. unfold np_save.
  destruct (open_for_writing fs (npy_filename q)) as [[]|e]; cbn [obind]; [|discriminate].
  destruct (can_pickle (asanyarray v)); [|discriminate].
  intros [= <-]. repeat split.
Qed.

(** Where [np.save] succeeds, the [mkdir] before it has succeeded. *)
Lemma np_save_mkdir : forall fs q v fs',
  np_save fs q v = Ok fs' -> mkdir_parents fs (parent q) = Ok tt.
Proof.
  intros fs q v fs' H. apply np_save_inv in H as (Ho & _ & _).
  rewrite <- (parent_npy_filename q). now apply open_for_writing_mkdir.
Qed.

(** What [np.save] writes, and where. *)
Lemma np_save_writes : forall fs q v fs',
  np_save fs q v = Ok fs' -> fs' = fs_write fs (npy_filename q) (NPY (asanyarray v)).
Proof. intros fs q v fs' H. now apply np_save_inv in H. Qed.

(** Reading back what was written under a name that carries the
    extension. *)
Lemma np_load_saved : forall fs q v fs',
  endswith (str_path q) ".npy" = true ->
  np_save fs q v = Ok fs' ->
  np_load fs' q = Ok (PArr (asanyarray v)).
Proof.
  intros fs q v fs' Hq Hsave. apply np_save_writes in Hsave. subst fs'.
  rewrite (npy_filename_fixed q Hq). unfold np_load. now rewrite fs_lookup_write_same.
Qed.

(** [convert_and_verify], stage by stage.  The [mkdir] of step 3 is
    listed under the failure of [np.save]: where it raises, [np.save]
    would raise as well. *)
Lemma convert_and_verify_unfold : forall self fs p npy,
  convert_and_verify self fs p npy =
  match load_mat_correctly fs p None with
  | Raise e => (failed e (initial_result p), fs)
  | Ok loaded =>
      let r1 := set_load_meta (snd loaded) (initial_result p) in
      match derive_npy_path self p npy with
      | Raise e => (failed e r1, fs)
      | Ok q =>
          let r2 := set_output_file (str_path q) r1 in
          match np_save fs q (fst loaded) with
          | Raise e =>
              match mkdir_parents fs (parent q) with
              | Raise e' => (failed e' r1, fs)
              | Ok _ => (failed e r2, np_save_failed fs q (fst loaded))
              end
          | Ok fs' =>
              match np_load fs' q with
              | Raise e => (failed e r2, fs')
              | Ok npy_data =>
                  let s := snd (verify (fst loaded) npy_data (path_name p) (CvState fs' r2)) in
                  (cv_result s, cv_fs s)
              end
          end
      end
  end.
Proof.
  intros self fs p npy.
  unfold convert_and_verify, convert_body, record_exception, save_step.
  se_unfold.
  destruct (load_mat_correctly fs p None) as [loaded|e]; [|reflexivity].
  destruct (derive_npy_path self p npy) as [q|e]; [|reflexivity].
  destruct (np_save fs q (fst loaded)) as [fs'|e] eqn:Hsave.
  - rewrite (np_save_mkdir _ _ _ _ Hsave). cbn [cv_fs cv_result].
    destruct (np_load fs' q) as [npy_data|e]; [|reflexivity].
    cbn zeta.
    pose proof (verify_ok (fst loaded) npy_data (path_name p)
                  (CvState fs' (set_output_file (str_path q)
                     (set_load_meta (snd loaded) (initial_result p))))) as [Hok _].
    destruct (verify _ _ _ _) as [o s]. cbn [fst] in Hok. subst o. reflexivity.
  - destruct (mkdir_parents fs (parent q)) as [[]|e']; [|reflexivity].
    reflexivity.
Qed.

(** The three outcomes of the array branch, on any starting result. *)
Lemma verify_arrays : forall mat_arr npy_arr name s,
  let c := compare_matrices mat_arr npy_arr name in
  let r := cv_result s in
  let r' := cv_result (snd (verify (PArr mat_arr) (PArr npy_arr) name s)) in
  verification r' = ArrayVerification c
  /\ load_meta r' = load_meta r /\ output_file r' = output_file r
  /\ traceback r' = traceback r
  /\ (if values_equal c
      then success r' = true /\ warnings r' = warnings r /\ errors r' = errors r
      else if transposed_equal c
      then success r' = success r /\ errors r' = errors r
           /\ warnings r' = (warnings r ++ ["Arrays differ but one is transposed of the other"])%list
      else success r' = success r /\ warnings r' = warnings r
           /\ errors r' = (errors r ++ ["Arrays are different (not just transposed)"])%list).
Proof.
  intros mat_arr npy_arr name s c r r'. subst r'. cbn [verify]. fold c. se_unfold.
  destruct (values_equal c); cbn [negb].
  - cbn. repeat split; reflexivity.
  - destruct (transposed_equal c); cbn; repeat split; reflexivity.
Qed.

(** C1. When the value loaded from the source file and the value read back
    from the output file are both plain arrays, [convert_and_verify]
    classifies the pair into exactly one of three cases, tested in this
    order: [values_equal] gives [success = True] with no warning and no
    error; otherwise [transposed_equal] gives [success = False], the single
    warning "Arrays differ but one is transposed of the other" and no error;
    otherwise [success = False] and the single error "Arrays are different
    (not just transposed)". *)
Theorem C1_array_outcome_classification :
  forall self fs p npy mat_arr meta q fs' npy_arr,
    load_mat_correctly fs p None = Ok (PArr mat_arr, meta) ->
    derive_npy_path self p npy = Ok q ->
    np_save fs q (PArr mat_arr) = Ok fs' ->
    np_load fs' q = Ok (PArr npy_arr) ->
    let r := fst (convert_and_verify self fs p npy) in
    let c := compare_matrices mat_arr npy_arr (path_name p) in
    verification r = ArrayVerification c
    /\ ((values_equal c = true
         /\ success r = true /\ warnings r = [] /\ errors r = [])
        \/ (values_equal c = false /\ transposed_equal c = true
            /\ success r = false /\ errors r = []
            /\ warnings r = ["Arrays differ but one is transposed of the other"])
        \/ (values_equal c = false /\ transposed_equal c = false
            /\ success r = false /\ warnings r = []
            /\ errors r = ["Arrays are different (not just transposed)"])).
Proof.
  intros self fs p npy mat_arr meta q fs' npy_arr Hload Hpath Hsave Hback r c.
  subst r. rewrite convert_and_verify_unfold, Hload. cbn [fst snd].
  rewrite Hpath, Hsave, Hback. cbn [fst].
  pose proof (verify_arrays mat_arr npy_arr (path_name p)
                (CvState fs' (set_output_file (str_path q)
                   (set_load_meta meta (initial_result p))))) as H.
  cbn zeta in H. fold c in H.
  destruct H as (Hv & _ & _ & _ & Hcase). split; [exact Hv|].
  destruct (values_equal c).
  - left. destruct Hcase as (Hs & Hw & He). rewrite Hs, Hw, He. repeat split.
  - destruct (transposed_equal c).
    + right; left. destruct Hcase as (Hs & He & Hw). rewrite Hs, He, Hw. repeat split.
    + right; right. destruct Hcase as (Hs & Hw & He). rewrite Hs, Hw, He. repeat split.
Qed.

(** Every way through the classification step: it sets [success] and adds
    nothing, or it leaves [success] alone and adds one warning or one
    error; the traceback is never written. *)
Lemma verify_cases : forall mat_data npy_data name s,
  let r := cv_result s in
  let r' := cv_result (snd (verify mat_data npy_data name s)) in
  traceback r' = traceback r /\ load_meta r' = load_meta r
  /\ ((success r' = true /\ errors r' = errors r /\ warnings r' = warnings r)
      \/ (success r' = success r /\ errors r' = errors r
          /\ exists w, warnings r' = (warnings r ++ [w])%list)
      \/ (success r' = success r /\ warnings r' = warnings r
          /\ exists e, errors r' = (errors r ++ [e])%list)).
Proof.
  intros mat_data npy_data name s.
  destruct mat_data as [m| | |md| |]; destruct npy_data as [n| | |nd| |]; cbn [verify];
    try (destruct (String.eqb _ _); se_unfold; cbn;
         (split; [reflexivity|split; [reflexivity|]]);
         [left; repeat split | right; right; repeat split; eexists; reflexivity]).
  - se_unfold. destruct (values_equal _); cbn [negb]; [|destruct (transposed_equal _)]; cbn;
      (split; [reflexivity|split; [reflexivity|]]).
    + left; repeat split.
    + right; left; repeat split. eexists; reflexivity.
    + right; right; repeat split. eexists; reflexivity.
  - destruct (set_eqb _ _); se_unfold; cbn; (split; [reflexivity|split; [reflexivity|]]).
    + left; repeat split.
    + right; right; repeat split. eexists; reflexivity.
Qed.

Lemma failed_result : forall e r,
  success (failed e r) = success r
  /\ errors (failed e r) = (errors r ++ [str_exn e])%list
  /\ warnings (failed e r) = warnings r
  /\ verification (failed e r) = verification r
  /\ load_meta (failed e r) = load_meta r
  /\ traceback (failed e r) = Some (format_exc e).
Proof. intros e r. repeat split. Qed.

(** C10. Every result of [convert_and_verify] with [success = True] has an
    empty [errors] list (and no traceback): [success] is set only where no
    error is recorded, and every result that carries an error or a
    traceback has [success = False].  The converse fails: the conversion of
    an empty matrix ends with [success = False] and no error, only the
    transpose warning. *)
Theorem C10_success_implies_no_errors :
  (forall self fs p npy,
     let r := fst (convert_and_verify self fs p npy) in
     (success r = true -> errors r = [] /\ traceback r = None)
     /\ (errors r <> [] -> success r = false)
     /\ (traceback r <> None -> success r = false))
  /\ (exists self fs p npy,
        let r := fst (convert_and_verify self fs p npy) in
        success r = false /\ errors r = []
        /\ warnings r = ["Arrays differ but one is transposed of the other"]).
Proof.
  split.
  - intros self fs p npy r.
    assert (Hmain : (success r = false /\ errors r <> [])
                    \/ (errors r = [] /\ traceback r = None)
                    \/ (success r = false /\ traceback r = None)).
    { subst r. rewrite convert_and_verify_unfold.
      destruct (load_mat_correctly fs p None) as [loaded|e];
        [|left; cbn; split; [reflexivity|discriminate]].
      cbn zeta.
      destruct (derive_npy_path self p npy) as [q|e];
        [|left; cbn; split; [reflexivity|discriminate]].
      destruct (np_save fs q (fst loaded)) as [fs'|e];
        [|left; destruct (mkdir_parents fs (parent q)) as [[]|e'];
          cbn; (split; [reflexivity|discriminate])].
      destruct (np_load fs' q) as [npy_data|e];
        [|left; cbn; split; [reflexivity|discriminate]].
      cbn [fst].
      pose proof (verify_cases (fst loaded) npy_data (path_name p)
                    (CvState fs' (set_output_file (str_path q)
                       (set_load_meta (snd loaded) (initial_result p))))) as H.
      cbn zeta in H. cbn [cv_result] in H.
      destruct H as (Htb & _ & [(Hs & He & Hw) | [(Hs & He & w & Hw) | (Hs & Hw & e & He)]]).
      - right; left. rewrite He, Htb. split; reflexivity.
      - right; left. rewrite He, Htb. split; reflexivity.
      - left. rewrite Hs, He. split; [reflexivity|discriminate]. }
    destruct Hmain as [(Hs & He) | [(He & Ht) | (Hs & Ht)]].
    + split; [intros H; congruence|]. split; intros _; exact Hs.
    + split; [intros _; split; assumption|]. split; intros H; congruence.
    + split; [intros H; congruence|]. split; intros _; exact Hs.
  - exists (Converter ["bm"] ["bm_npy"]), empty_matrix_fs, ["bm"; "empty.mat"], None.
    vm_compute. repeat split.
Qed.

(** ** Exceptions inside [convert_and_verify] and the batch loop *)

Lemma dict_get_set_same : forall {V} (d : list (string * V)) k v,
  dict_get (dict_set d k v) k = Some v.
Proof.
  intros V d k v. induction d as [|[k' v'] d IH]; cbn.
  - rewrite String.eqb_refl. reflexivity.
  - destruct (String.eqb k k') eqn:E; cbn; rewrite E; [reflexivity|exact IH].
Qed.

Lemma dict_get_set_other : forall {V} (d : list (string * V)) k k' v,
  k' <> k -> dict_get (dict_set d k v) k' = dict_get d k'.
Proof.
  intros V d k k' v Hne. induction d as [|[k0 v0] d IH]; cbn.
  - destruct (String.eqb k' k) eqn:E; [apply String.eqb_eq in E; contradiction|reflexivity].
  - destruct (String.eqb k k0) eqn:E; cbn.
    + apply String.eqb_eq in E. subst k0.
      destruct (String.eqb k' k) eqn:E'; [apply String.eqb_eq in E'; contradiction|reflexivity].
    + destruct (String.eqb k' k0); [reflexivity|exact IH].
Qed.

(** Files found by the walk lie below the input root. *)
Lemma found_files_relative : forall self fs p,
  In p (find_mat_files self fs) ->
  exists rel, relative_to p (input_root self) = Ok rel.
Proof.
  intros self fs p Hin. unfold find_mat_files, os_walk in Hin.
  apply filter_In in Hin as [Hin _]. apply filter_In in Hin as [_ Hpre].
  unfold relative_to. destruct (strip_prefix p (input_root self)) as [rel|].
  - exists rel. reflexivity.
  - discriminate.
Qed.

Lemma batch_loop : forall self files all_files s,
  (forall p, In p files -> exists rel, relative_to p (input_root self) = Ok rel) ->
  incl files all_files ->
  (forall k r, dict_get (b_results s) k = Some r -> result_of self all_files k r) ->
  exists s',
    for_each files (batch_file self) s = (Ok tt, s')
    /\ (forall k r, dict_get (b_results s') k = Some r -> result_of self all_files k r)
    /\ (forall k, dict_get (b_results s) k <> None -> dict_get (b_results s') k <> None)
    /\ (forall p, In p files -> dict_get (b_results s') (str_path p) <> None).
Proof.
  intros self files all_files. induction files as [|p files IH]; intros s Hrel Hincl Hinv.
  - exists s. split; [reflexivity|]. split; [exact Hinv|].
    split; [intros k Hk; exact Hk | intros p []].
  - destruct (Hrel p (or_introl eq_refl)) as [rel Hp].
    cbn [for_each]. unfold bind at 1. unfold batch_file at 1. se_unfold. rewrite Hp.
    destruct (convert_and_verify self (b_fs s) p None) as [r fs'] eqn:Hcv.
    set (s1 := BatchState fs' (dict_set (b_results s) (str_path p) r)).
    destruct (IH s1) as (s' & Hrun & Hinv' & Hkeep & Hall).
    + intros p' Hin. apply Hrel. right. exact Hin.
    + intros p' Hin. apply Hincl. right. exact Hin.
    + intros k r' Hget. subst s1. cbn [b_results] in Hget.
      destruct (string_dec k (str_path p)) as [->|Hne].
      * rewrite dict_get_set_same in Hget. inversion Hget; subst r'.
        exists p, (b_fs s). split; [apply Hincl; left; reflexivity|].
        split; [reflexivity|]. rewrite Hcv. reflexivity.
      * rewrite dict_get_set_other in Hget by exact Hne. apply Hinv. exact Hget.
    + exists s'. split; [exact Hrun|]. split; [exact Hinv'|]. split.
      * intros k Hk. apply Hkeep. subst s1. cbn [b_results].
        destruct (string_dec k (str_path p)) as [->|Hne].
        -- rewrite dict_get_set_same. discriminate.
        -- rewrite dict_get_set_other by exact Hne. exact Hk.
      * intros p' [<-|Hin].
        -- apply Hkeep. subst s1. cbn [b_results]. rewrite dict_get_set_same. discriminate.
        -- apply Hall. exact Hin.
Qed.

(** The first loop leaves the file system as it is, whether or not a
    [mkdir] raises. *)
Lemma mirror_loop : forall self files (s : batch_state),
  snd (for_each files (mirror_directory self) s) = s.
Proof.
  intros self files s. induction files as [|p files IH]; [reflexivity|].
  cbn [for_each]. unfold bind at 1. unfold mirror_directory at 1. se_unfold.
  destruct (relative_to p (input_root self)) as [rel|e]; [|reflexivity].
  destruct (mkdir_parents (b_fs s) _) as [[]|e]; [|reflexivity].
  exact IH.
Qed.

(** What leaves [batch_convert_with_verification]: nothing when no file
    was found; otherwise the first exception of the [mkdir] loop, or else
    the one of [save_detailed_report], or else the results of the
    conversion loop. *)
Lemma batch_unfold : forall self fs,
  let files := find_mat_files self fs in
  batch_convert_with_verification self fs =
  match files with
  | [] => (Ok [], fs)
  | _ =>
      match fst (for_each files (mirror_directory self) (BatchState fs [])) with
      | Raise e => (Raise e, fs)
      | Ok _ =>
          let s := snd (for_each files (batch_file self) (BatchState fs [])) in
          match save_detailed_report self s with
          | (Ok _, s') => (Ok (b_results s'), b_fs s')
          | (Raise e, s') => (Raise e, b_fs s')
          end
      end
  end.
Proof.
  intros self fs files. unfold batch_convert_with_verification, batch_body.
  unfold bind at 1. unfold gets at 1. cbn [b_fs]. fold files.
  destruct files as [|p0 files'] eqn:Hfiles; [reflexivity|].
  rewrite <- Hfiles.
  assert (Hrel : forall p, In p files -> exists rel, relative_to p (input_root self) = Ok rel).
  { intros p Hin. apply (found_files_relative self fs). exact Hin. }
  unfold bind at 1.
  pose proof (mirror_loop self files (BatchState fs [])) as Hm.
  destruct (for_each files (mirror_directory self) (BatchState fs [])) as [o s0].
  cbn [fst snd] in *. subst s0. destruct o as [[]|e]; [|reflexivity].
  unfold bind at 1.
  destruct (batch_loop self files files (BatchState fs []) Hrel (incl_refl _))
    as (s' & Hrun & _); [intros k r H; discriminate|].
  rewrite Hrun. cbn [snd]. unfold bind at 1.
  destruct (save_detailed_report self s') as [[[]|e] s'']; reflexivity.
Qed.

(** The report step keeps the results. *)
Lemma save_detailed_report_results : forall self s,
  b_results (snd (save_detailed_report self s)) = b_results s.
Proof.
  intros self s. unfold save_detailed_report. se_unfold.
  destruct (open_for_writing (b_fs s) _) as [[]|e]; [|reflexivity].
  cbn [snd]. destruct (snd (json_dump (b_results s))) as [[]|e]; reflexivity.
Qed.


(** ** Dictionary payloads and second passes *)

(** The dictionary branch by itself compares key sets and nothing else. *)
Lemma verify_dicts : forall mat_dict npy_dict name s,
  let r := cv_result s in
  let r' := cv_result (snd (verify (PDict mat_dict) (PDict npy_dict) name s)) in
  if set_eqb (key_set mat_dict) (key_set npy_dict)
  then success r' = true /\ errors r' = errors r
       /\ verification r' = DictVerification true (key_set mat_dict)
  else success r' = success r
       /\ errors r' = List.app (errors r)
            ["Dictionary keys differ: "
             ++ repr_set (set_diff (key_set mat_dict) (key_set npy_dict)) ++ " vs "
             ++ repr_set (set_diff (key_set npy_dict) (key_set mat_dict))].
Proof.
  intros mat_dict npy_dict name s. cbn [verify].
  destruct (set_eqb _ _); se_unfold; cbn; repeat split.
Qed.

(** What a dictionary payload meets after the round trip under a name
    that carries the extension: [np.load] hands back the zero-dimensional
    object array [np.save] wrapped it in, so neither the array branch nor
    the dictionary branch applies and the type test of the last branch
    fails. *)
Lemma dict_payload_outcome : forall self fs p npy d meta q fs',
  load_mat_correctly fs p None = Ok (PDict d, meta) ->
  derive_npy_path self p npy = Ok q ->
  endswith (str_path q) ".npy" = true ->
  np_save fs q (PDict d) = Ok fs' ->
  let r := fst (convert_and_verify self fs p npy) in
  success r = false
  /\ verification r = NoVerification
  /\ errors r = ["Types differ: <class 'dict'> vs <class 'numpy.ndarray'>"].
Proof.
  intros self fs p npy d meta q fs' Hload Hpath Hend Hsave r. subst r.
  rewrite convert_and_verify_unfold, Hload. cbn [fst snd].
  rewrite Hpath, Hsave, (np_load_saved _ _ _ _ Hend Hsave).
  cbn. repeat split.
Qed.

(** A file [np.save] wrote, given as an input: when neither h5py nor
    scipy can read its bytes, the version is [unknown] and the loader
    raises what scipy raised. *)
Lemma npy_file_unknown : forall fs q a e,
  fs_lookup fs q = Some (NPY a) ->
  npy_as_hdf5 a = None ->
  npy_as_mat a = Raise e ->
  detect_mat_version fs q = Ok "unknown"
  /\ load_mat_correctly fs q None = Raise e.
Proof.
  intros fs q a e Hq Hh Hm.
  assert (Hd : detect_mat_version fs q = Ok "unknown").
  { unfold detect_mat_version, h5py_File, loadmat. rewrite Hq. cbn. rewrite Hh, Hm. reflexivity. }
  split; [exact Hd|].
  unfold load_mat_correctly, load_body. se_unfold. rewrite Hd. cbn.
  unfold loadmat. rewrite Hq. cbn. rewrite Hm. reflexivity.
Qed.

(** After a successful conversion the file [np.save] wrote holds the
    loaded value. *)
Lemma success_output : forall self fs p npy q,
  derive_npy_path self p npy = Ok q ->
  success (fst (convert_and_verify self fs p npy)) = true ->
  exists v meta,
    load_mat_correctly fs p None = Ok (v, meta)
    /\ snd (convert_and_verify self fs p npy)
       = fs_write fs (npy_filename q) (NPY (asanyarray v)).
Proof.
  intros self fs p npy q Hpath. rewrite convert_and_verify_unfold.
  destruct (load_mat_correctly fs p None) as [[v meta]|e]; [|cbn; discriminate].
  cbn zeta. rewrite Hpath. cbn [fst snd].
  destruct (np_save fs q v) as [fs'|e] eqn:Hsave;
    [|destruct (mkdir_parents fs (parent q)) as [[]|e']; cbn; discriminate].
  destruct (np_load fs' q) as [npy_data|e] eqn:Hback; [|cbn; discriminate].
  intros _. exists v, meta. split; [reflexivity|]. cbn [snd].
  destruct (verify_ok v npy_data (path_name p)
              (CvState fs' (set_output_file (str_path q)
                 (set_load_meta meta (initial_result p))))) as [_ Hfs].
  rewrite Hfs. cbn [cv_fs]. now apply np_save_writes.
Qed.

(** C7 (as the code has it). After a successful conversion the file
    [np.save] wrote - the output path, with [.npy] appended when it lacks
    it - holds the loaded value as an array file.  Given as the input of
    a second [convert_and_verify], it goes through the format detection
    like any file: unless h5py or scipy can read its bytes, the version
    is [unknown], the load stage raises, and the result has [success =
    False] with the message scipy raised as its only error, no comparison
    (so no [values_equal]) and no load metadata; nothing is loaded,
    transposed or written on the second pass. *)
Theorem C7_second_pass_rejects_output :
  forall self fs p npy q,
    derive_npy_path self p npy = Ok q ->
    success (fst (convert_and_verify self fs p npy)) = true ->
    let fs1 := snd (convert_and_verify self fs p npy) in
    let out := npy_filename q in
    exists v meta,
      load_mat_correctly fs p None = Ok (v, meta)
      /\ fs_lookup fs1 out = Some (NPY (asanyarray v))
      /\ forall e,
           npy_as_hdf5 (asanyarray v) = None ->
           npy_as_mat (asanyarray v) = Raise e ->
           detect_mat_version fs1 out = Ok "unknown"
           /\ forall self2 npy2,
                let r2 := fst (convert_and_verify self2 fs1 out npy2) in
                success r2 = false
                /\ verification r2 = NoVerification
                /\ load_meta r2 = None
                /\ errors r2 = [str_exn e]
                /\ snd (convert_and_verify self2 fs1 out npy2) = fs1.
Proof.
  intros self fs p npy q Hpath Hsucc fs1 out.
  destruct (success_output self fs p npy q Hpath Hsucc) as (v & meta & Hload & Hfs).
  exists v, meta. split; [exact Hload|].
  assert (Hout : fs_lookup fs1 out = Some (NPY (asanyarray v))).
  { subst fs1 out. rewrite Hfs. apply fs_lookup_write_same. }
  split; [exact Hout|].
  intros e Hh Hm.
  destruct (npy_file_unknown fs1 out _ e Hout Hh Hm) as [Hd Hl].
  split; [exact Hd|].
  intros self2 npy2 r2. subst r2.
  rewrite convert_and_verify_unfold, Hl. cbn. repeat split.
Qed.

(* ================================================================== *)
(** * Properties of the Format Detector                                *)
(* ================================================================== *)

(** What [h5py.File] raises is an [OSError], except on a path that names
    no file and cannot be encoded. *)
Lemma h5py_File_raises : forall fs p e,
  h5py_File fs p = Raise e ->
  is_OSError e = true
  \/ (fs_lookup fs p = None /\ fsencodable (str_path p) = false
      /\ exn_cls e = UnicodeEncodeError).
Proof.
  intros fs p e H. unfold h5py_File in H.
  destruct (fs_lookup fs p) as [c|].
  - destruct (as_hdf5 c); inversion H. now left.
  - unfold fsencode in H. destruct (fsencodable (str_path p)); inversion H.
    + now left.
    + right. repeat split.
Qed.

Lemma detect_v73 : forall fs p f,
  h5py_File fs p = Ok f -> detect_mat_version fs p = Ok "v7.3".
Proof. intros fs p f H. unfold detect_mat_version. now rewrite H. Qed.

Lemma detect_v73_inv : forall fs p,
  detect_mat_version fs p = Ok "v7.3" -> exists f, h5py_File fs p = Ok f.
Proof.
  intros fs p. unfold detect_mat_version.
  destruct (h5py_File fs p) as [f|e]; [intros _; now exists f|].
  destruct (is_OSError e); [|discriminate].
  destruct (loadmat fs p true); discriminate.
Qed.

Lemma detect_legacy : forall fs p m,
  legacy_file fs p m ->
  detect_mat_version fs p = Ok "v7.0_or_older"
  /\ forall mat_dtype, loadmat fs p mat_dtype = Ok (loadmat_dict mat_dtype m).
Proof.
  intros fs p m (c & Hc & Hh & Hm).
  unfold detect_mat_version, h5py_File, loadmat. rewrite Hc, Hh, Hm. cbn. now split.
Qed.

(** The four ways through [detect_mat_version]. *)
Lemma detect_cases : forall fs p,
  (exists f, h5py_File fs p = Ok f /\ detect_mat_version fs p = Ok "v7.3")
  \/ (exists m, legacy_file fs p m /\ detect_mat_version fs p = Ok "v7.0_or_older")
  \/ (exists e, detect_mat_version fs p = Ok "unknown"
                /\ forall mat_dtype, loadmat fs p mat_dtype = Raise e)
  \/ (exists e, detect_mat_version fs p = Raise e
                /\ fs_lookup fs p = None /\ fsencodable (str_path p) = false
                /\ exn_cls e = UnicodeEncodeError).
Proof.
  intros fs p. unfold detect_mat_version, h5py_File, loadmat, legacy_file.
  destruct (fs_lookup fs p) as [c|] eqn:Hc.
  - destruct (as_hdf5 c) as [f|] eqn:Hh; [left; now exists f|].
    cbn. destruct (as_mat c) as [m|e] eqn:Hm; cbn.
    + right; left. exists m. split; [|reflexivity]. exists c. now repeat split.
    + right; right; left. exists e. now split.
  - unfold fsencode. destruct (fsencodable (str_path p)); cbn.
    + right; right; left. eexists. split; reflexivity.
    + right; right; right. eexists. repeat split.
Qed.

(** C4 (as the code has it). [detect_mat_version] first tries [h5py.File]
    and answers ['v7.3'] when it opens the file, whatever scipy would make
    of it; when h5py raises an [OSError] it tries [scipy.io.loadmat] and
    answers ['v7.0_or_older'] when that succeeds and ['unknown'] when it
    raises, whatever it raises; an exception of h5py that is no [OSError]
    leaves the method.  So for a file that exists the answer is decided by
    what the two readers make of its bytes, h5py first; a path that names
    no file gives ['unknown'] when it can be encoded for the operating
    system and the [UnicodeEncodeError] of [os.fsencode] when it cannot. *)
Theorem C4_detect_mat_version_order :
  forall fs file_path,
    (forall f, h5py_File fs file_path = Ok f ->
       detect_mat_version fs file_path = Ok "v7.3")
    /\ (forall e, h5py_File fs file_path = Raise e -> is_OSError e = true ->
          detect_mat_version fs file_path
          = Ok (match loadmat fs file_path true with
                | Ok _ => "v7.0_or_older"
                | Raise _ => "unknown"
                end))
    /\ (forall e, h5py_File fs file_path = Raise e -> is_OSError e = false ->
          detect_mat_version fs file_path = Raise e)
    /\ (forall c, fs_lookup fs file_path = Some c ->
          detect_mat_version fs file_path
          = Ok (match as_hdf5 c, as_mat c with
                | Some _, _ => "v7.3"
                | None, Ok _ => "v7.0_or_older"
                | None, Raise _ => "unknown"
                end))
    /\ (fs_lookup fs file_path = None ->
          if fsencodable (str_path file_path)
          then detect_mat_version fs file_path = Ok "unknown"
          else exists e, detect_mat_version fs file_path = Raise e
                         /\ exn_cls e = UnicodeEncodeError).
Proof.
  intros fs file_path. repeat split.
  - intros f H. now apply detect_v73 with (f := f).
  - intros e H He. unfold detect_mat_version. rewrite H, He.
    destruct (loadmat fs file_path true); reflexivity.
  - intros e H He. unfold detect_mat_version. now rewrite H, He.
  - intros c Hc. unfold detect_mat_version, h5py_File, loadmat. rewrite Hc.
    destruct (as_hdf5 c); [reflexivity|]. cbn. destruct (as_mat c); reflexivity.
  - intros Hc. unfold detect_mat_version, h5py_File, loadmat, fsencode. rewrite Hc.
    destruct (fsencodable (str_path file_path)); cbn; [reflexivity|].
    eexists. split; reflexivity.
Qed.

(* ================================================================== *)
(** * Properties of the Array Loader                                   *)
(* ================================================================== *)

(** [materialize] reads the state only to append warnings. *)
Lemma materialize_spec : forall f key sh b s,
  fst (materialize f key sh b s) = materialized f key sh b
  /\ ls_dict (snd (materialize f key sh b s)) = ls_dict s
  /\ loaded_variables (ls_meta (snd (materialize f key sh b s))) = loaded_variables (ls_meta s)
  /\ transpose_applied (ls_meta (snd (materialize f key sh b s))) = transpose_applied (ls_meta s).
Proof.
  intros f key sh b s. unfold materialized, materialize.
  destruct (dtype_eqb (buf_dtype b) object); [|repeat split].
  destruct (read_dataset sh b) as [[rsh rb]|n|r|d|ssh sdt|t];
    try solve [repeat split].
  - unfold bind at 1 3 5 7. unfold lift at 1 3 5 7.
    destruct np_object_alias as [[]|e]; [|repeat split].
    cbn [buf shape].
    destruct rb as [xs|xs|items]; try solve [repeat split].
    unfold try_catch, bind, lift, modify, ret.
    destruct (dereference_all f items) as [vs|e]; [|repeat split].
    destruct (np_array vs) as [stacked|e]; [|repeat split].
    destruct (reshape stacked rsh) as [reshaped|e]; repeat split.
  - unfold bind, lift, modify, ret.
    destruct (h5_deref f r) as [[sh' b'|]|e]; repeat split.
Qed.

(** A dataset whose element type is not [object] materialises to what is
    stored. *)
Lemma materialized_inline : forall f key sh b,
  buf_dtype b <> object -> materialized f key sh b = Ok (read_dataset sh b).
Proof.
  intros f key sh b Hb. unfold materialized, materialize.
  destruct b; cbn in *; try reflexivity. contradiction.
Qed.

Lemma layout_step_spec : forall key v s,
  layout_step key v s =
  (Ok (layout v),
   if is_rank2 v
   then on_meta meta_set_transpose
          (on_meta (meta_add_loaded
             (match v with
              | PArr a => LoadedVariable key original_shape (shape a) (str_dtype (arr_dtype a))
              | _ => LoadedVariable key original_shape [] ""
              end)) s)
   else s).
Proof.
  intros key v s. destruct v as [a|n|r|d|ssh sdt|t]; try reflexivity.
  cbn [layout_step layout is_rank2]. destruct (2 <=? ndim a)%nat; reflexivity.
Qed.

(** One iteration of the loop over [f.keys()]. *)
Lemma load_h5_key_spec : forall f key s s1,
  load_h5_key f key s = (Ok tt, s1) ->
  match dict_get (h5_members f) key with
  | None => False
  | Some H5Group => s1 = s
  | Some (H5Dataset sh b) =>
      exists v,
        materialized f key sh b = Ok v
        /\ ls_dict s1 = dict_set (ls_dict s) key (layout v)
        /\ loaded_variables (ls_meta s1)
           = (loaded_variables (ls_meta s) ++ layout_entry key v)%list
        /\ transpose_applied (ls_meta s1) = (transpose_applied (ls_meta s) || is_rank2 v)%bool
  end.
Proof.
  intros f key s s1 H. unfold load_h5_key, h5_getitem in H.
  unfold bind at 1 in H. unfold lift at 1 in H.
  destruct (dict_get (h5_members f) key) as [[sh b|]|]; [| |discriminate].
  - unfold bind at 1 in H.
    destruct (materialize_spec f key sh b s) as (Hv & Hd & Hl & Ht).
    destruct (materialize f key sh b s) as [[v|e] s0]; [|discriminate].
    cbn [fst snd] in Hv, Hd, Hl, Ht.
    unfold bind at 1 in H. rewrite layout_step_spec in H.
    unfold modify, data_dict_set in H. inversion H; subst s1; clear H.
    exists v. split; [symmetry; exact Hv|].
    destruct v as [a|n|r|d|ssh sdt|t]; cbn [is_rank2 layout layout_entry];
      try (cbn; rewrite Hd, Hl, Ht, app_nil_r, orb_false_r; repeat split).
    destruct (2 <=? ndim a)%nat; cbn.
    + rewrite Hd, Hl, orb_true_r. repeat split.
    + rewrite Hd, Hl, Ht, app_nil_r, orb_false_r. repeat split.
  - unfold ret in H. inversion H. reflexivity.
Qed.

Lemma load_h5_key_step : forall f key s s1,
  load_h5_key f key s = (Ok tt, s1) ->
  key_loaded f s1 key
  /\ (forall k, key_loaded f s k -> key_loaded f s1 k)
  /\ (h5_meta_ok f s -> h5_meta_ok f s1).
Proof.
  intros f key s s1 H. apply load_h5_key_spec in H.
  destruct (dict_get (h5_members f) key) as [[sh b|]|] eqn:Hkey; [| |contradiction].
  - destruct H as (v & Hv & Hd & Hl & Ht).
    split; [|split].
    + intros sh' b' Hk. rewrite Hkey in Hk. inversion Hk; subst sh' b'. exists v.
      split; [exact Hv|]. split; [rewrite Hd; apply dict_get_set_same|].
      split.
      * intros lv Hin. rewrite Hl. apply in_or_app. right. exact Hin.
      * intros Hr. rewrite Ht, Hr. apply orb_true_r.
    + intros k Hkl sh' b' Hk.
      destruct (string_dec k key) as [->|Hne].
      * rewrite Hkey in Hk. inversion Hk; subst sh' b'. exists v.
        split; [exact Hv|]. split; [rewrite Hd; apply dict_get_set_same|].
        split.
        -- intros lv Hin. rewrite Hl. apply in_or_app. right. exact Hin.
        -- intros Hr. rewrite Ht, Hr. apply orb_true_r.
      * destruct (Hkl sh' b' Hk) as (v' & Hv' & Hd' & Hl' & Ht'). exists v'.
        split; [exact Hv'|]. split; [rewrite Hd, dict_get_set_other by exact Hne; exact Hd'|].
        split.
        -- intros lv Hin. rewrite Hl. apply in_or_app. left. apply Hl'. exact Hin.
        -- intros Hr. rewrite Ht, (Ht' Hr). reflexivity.
    + intros [Hall Hflag]. split.
      * rewrite Hl. apply Forall_app. split; [exact Hall|].
        destruct v as [a|n|r|d|ssh sdt|t]; cbn [layout_entry]; try constructor.
        destruct (2 <=? ndim a)%nat eqn:Hrank; constructor; [|constructor].
        exists sh, b, a. cbn [lv_name]. repeat split; assumption.
      * rewrite Hl, Ht.
        destruct v as [a|n|r|d|ssh sdt|t]; cbn [layout_entry is_rank2];
          try (rewrite app_nil_r, orb_false_r; exact Hflag).
        destruct (2 <=? ndim a)%nat.
        -- right. apply orb_true_r.
        -- rewrite app_nil_r, orb_false_r. exact Hflag.
  - subst s1. split; [|split; auto].
    intros sh b Hk. rewrite Hkey in Hk. discriminate.
Qed.

Lemma load_h5_loop : forall f keys s s',
  for_each keys (load_h5_key f) s = (Ok tt, s') ->
  (forall k, In k keys -> key_loaded f s' k)
  /\ (forall k, key_loaded f s k -> key_loaded f s' k)
  /\ (h5_meta_ok f s -> h5_meta_ok f s').
Proof.
  intros f keys. induction keys as [|key keys IH]; intros s s' H.
  - cbn in H. unfold ret in H. inversion H; subst s'.
    split; [intros k []|]. split; auto.
  - cbn [for_each] in H. unfold bind at 1 in H.
    destruct (load_h5_key f key s) as [[[]|e] s1] eqn:Hstep; [|discriminate].
    destruct (load_h5_key_step _ _ _ _ Hstep) as (Hkey & Hkeep & Hmeta).
    destruct (IH _ _ H) as (Hall' & Hkeep' & Hmeta').
    split; [|split].
    + intros k [<-|Hin]; [apply Hkeep'; exact Hkey|apply Hall'; exact Hin].
    + intros k Hk. apply Hkeep', Hkeep, Hk.
    + intros Hm. apply Hmeta', Hmeta, Hm.
Qed.

(** The selection returns an entry of [data_dict] or the whole dictionary
    and writes only [selected_variable]. *)
Lemma select_variable_spec : forall vn s,
  exists data s',
    select_variable vn s = (Ok data, s')
    /\ loaded_variables (ls_meta s') = loaded_variables (ls_meta s)
    /\ transpose_applied (ls_meta s') = transpose_applied (ls_meta s)
    /\ (forall name v, vn = Some name -> name <> "" ->
          dict_get (ls_dict s) name = Some v -> data = v)
    /\ (forall k v, ls_dict s = [(k, v)] -> data = v)
    /\ (data = PDict (ls_dict s)
        \/ (exists k v, ls_dict s = [(k, v)] /\ data = v)
        \/ (exists name v, vn = Some name /\ dict_get (ls_dict s) name = Some v /\ data = v)).
Proof.
  intros vn s. unfold select_variable. unfold bind at 1. unfold gets at 1.
  assert (Hfallback :
    exists data s',
      match ls_dict s with
      | [(k, v)] => bind (modify (on_meta (meta_set_selected k))) (fun _ => ret v)
      | _ => bind (modify (on_meta (meta_set_selected "dict"))) (fun _ => ret (PDict (ls_dict s)))
      end s = (Ok data, s')
      /\ loaded_variables (ls_meta s') = loaded_variables (ls_meta s)
      /\ transpose_applied (ls_meta s') = transpose_applied (ls_meta s)
      /\ (forall k v, ls_dict s = [(k, v)] -> data = v)
      /\ (data = PDict (ls_dict s) \/ (exists k v, ls_dict s = [(k, v)] /\ data = v))).
  { destruct (ls_dict s) as [|[k v] [|kv rest]] eqn:Hd; eexists; eexists;
      (split; [reflexivity|]); (split; [reflexivity|]); (split; [reflexivity|]); split;
      try (intros k' v' Heq; inversion Heq; reflexivity);
      try (left; reflexivity).
    right. exists k, v. split; reflexivity. }
  destruct vn as [name|].
  - destruct (negb (String.eqb name "") && dict_contains (ls_dict s) name)%bool eqn:Hsel.
    + apply andb_true_iff in Hsel as [Hne Hin]. unfold dict_contains in Hin.
      destruct (dict_get (ls_dict s) name) as [v|] eqn:Hget; [|discriminate].
      eexists; eexists. split; [reflexivity|].
      split; [reflexivity|]. split; [reflexivity|]. split; [|split].
      * intros name' v' Heq _ Hget'. inversion Heq; subst name'. congruence.
      * intros k v' Hd. rewrite Hd in Hget. cbn in Hget.
        destruct (String.eqb name k); congruence.
      * right; right. exists name, v. repeat split. exact Hget.
    + destruct Hfallback as (data & s' & Hrun & Hl & Ht & Hone & Hcases).
      exists data, s'. split; [exact Hrun|]. split; [exact Hl|]. split; [exact Ht|].
      split; [|split; [exact Hone|]].
      * intros name' v Heq Hne Hget. inversion Heq; subst name'.
        apply andb_false_iff in Hsel as [Hsel|Hsel].
        -- apply negb_false_iff, String.eqb_eq in Hsel. contradiction.
        -- unfold dict_contains in Hsel. rewrite Hget in Hsel. discriminate.
      * destruct Hcases as [H|H]; [left; exact H|right; left; exact H].
  - destruct Hfallback as (data & s' & Hrun & Hl & Ht & Hone & Hcases).
    exists data, s'. split; [exact Hrun|]. split; [exact Hl|]. split; [exact Ht|].
    split; [intros name v Heq; discriminate|]. split; [exact Hone|].
    destruct Hcases as [H|H]; [left; exact H|right; left; exact H].
Qed.

(** The HDF5 branch of [load_mat_correctly], from the loop's final state. *)
Lemma load_h5_result : forall fs p vn f data meta,
  h5py_File fs p = Ok f ->
  load_mat_correctly fs p vn = Ok (data, meta) ->
  exists s1 s2,
    for_each (dict_keys (h5_members f)) (load_h5_key f)
      (on_meta (fun m => LoadMeta (meta_file m) (Some "v7.3") (loaded_variables m)
                           (meta_warnings m) (transpose_applied m) (selected_variable m))
         (initial_load_state p)) = (Ok tt, s1)
    /\ select_variable vn s1 = (Ok data, s2)
    /\ meta = ls_meta s2.
Proof.
  intros fs p vn f data meta Hf Hload.
  unfold load_mat_correctly, load_body in Hload.
  unfold bind at 1 in Hload. unfold lift at 1 in Hload.
  rewrite (detect_v73 _ _ _ Hf) in Hload.
  unfold bind at 1 in Hload. unfold modify at 1 in Hload.
  cbn [String.eqb Ascii.eqb Bool.eqb] in Hload. cbv iota in Hload.
  unfold bind at 1 in Hload. unfold lift at 1 in Hload.
  rewrite Hf in Hload.
  unfold bind at 1 in Hload.
  destruct (for_each _ _ _) as [[[]|e] s1] eqn:Hloop; [|discriminate].
  destruct (select_variable vn s1) as [[d|e] s2] eqn:Hsel; [|discriminate].
  inversion Hload; subst. exists s1, s2. repeat split; assumption.
Qed.

(** C2. In the HDF5 branch of [load_mat_correctly], a variable whose
    dataset materialises to an array of rank 2 or more is loaded as the
    transpose of all axes of that array - of the raw stored array when the
    dataset is not of object type - while [meta] holds the variable's name
    with the shape and dtype it had before the transposition and
    [transpose_applied] is [True]; a value of lower rank, or one that is
    not an array, is loaded as it is.  The loaded value is what the call
    returns for that variable: the returned data itself when the variable
    is asked for by name or is the only member of the file, otherwise its
    entry in the returned dictionary (unless another variable was asked
    for). *)
Theorem C2_h5_rank2_transposed :
  forall fs p vn f key sh b data meta,
    h5py_File fs p = Ok f ->
    dict_get (h5_members f) key = Some (H5Dataset sh b) ->
    load_mat_correctly fs p vn = Ok (data, meta) ->
    exists v loaded,
      materialized f key sh b = Ok v
      /\ (buf_dtype b <> object -> v = read_dataset sh b)
      /\ match v with
         | PArr a =>
             if (2 <=? ndim a)%nat then
               loaded = PArr (transpose a)
               /\ In (LoadedVariable key original_shape (shape a) (str_dtype (arr_dtype a)))
                     (loaded_variables meta)
               /\ transpose_applied meta = true
             else loaded = v
         | _ => loaded = v
         end
      /\ (data = loaded
          \/ (exists d, data = PDict d /\ dict_get d key = Some loaded)
          \/ (exists name, vn = Some name /\ name <> key))
      /\ ((vn = Some key /\ key <> "") \/ dict_keys (h5_members f) = [key] -> data = loaded).
Proof.
  intros fs p vn f key sh b data meta Hf Hkey Hload.
  destruct (load_h5_result _ _ _ _ _ _ Hf Hload) as (s1 & s2 & Hloop & Hselect & ->).
  destruct (load_h5_loop _ _ _ _ Hloop) as (Hall & _ & _).
  assert (Hin : In key (dict_keys (h5_members f))).
  { unfold dict_keys. clear - Hkey. induction (h5_members f) as [|[k o] d IH]; [discriminate|].
    cbn in Hkey |- *. destruct (String.eqb key k) eqn:E.
    - left. apply String.eqb_eq in E. auto.
    - right. apply IH. exact Hkey. }
  destruct (Hall key Hin sh b Hkey) as (v & Hv & Hd & Hl & Ht).
  destruct (select_variable_spec vn s1)
    as (data' & s2' & Hrun & Hlv & Htr & Hname & Hone & Hcases).
  rewrite Hrun in Hselect. inversion Hselect; subst data' s2'; clear Hselect.
  exists v, (layout v). split; [exact Hv|]. split; [|split; [|split]].
  - intros Hb. rewrite (materialized_inline f key sh b Hb) in Hv. congruence.
  - destruct v as [a|n|r|d|ssh sdt|t]; cbn [layout]; try reflexivity.
    cbn [layout_entry is_rank2] in Hl, Ht.
    destruct (2 <=? ndim a)%nat; [|reflexivity].
    split; [reflexivity|]. split.
    + rewrite Hlv. apply Hl. left. reflexivity.
    + rewrite Htr. apply Ht. reflexivity.
  - destruct Hcases as [Hdict | [(k & w & Hone' & Hw) | (name & w & Hvn & Hget & Hw)]].
    + right; left. exists (ls_dict s1). split; [exact Hdict|exact Hd].
    + left. rewrite Hone' in Hd. cbn in Hd.
      destruct (String.eqb key k); [|discriminate]. congruence.
    + destruct (string_dec name key) as [->|Hne].
      * left. congruence.
      * right; right. exists name. split; assumption.
  - intros [[-> Hne] | Hsingle].
    + eapply Hname; [reflexivity|exact Hne|exact Hd].
    + (* a single member: [data_dict] has the one entry *)
      assert (Hdict : exists w, ls_dict s1 = [(key, w)]).
      { clear - Hloop Hsingle Hkey. rewrite Hsingle in Hloop.
        cbn [for_each] in Hloop. unfold bind at 1 in Hloop.
        destruct (load_h5_key f key _) as [[[]|e] s0] eqn:Hstep; [|discriminate].
        unfold ret in Hloop. inversion Hloop; subst s0.
        apply load_h5_key_spec in Hstep. rewrite Hkey in Hstep.
        destruct Hstep as (w & _ & Hd & _). exists (layout w). rewrite Hd.
        cbn. reflexivity. }
      destruct Hdict as [w Hw]. rewrite Hw in Hd. cbn in Hd.
      rewrite String.eqb_refl in Hd. inversion Hd; subst w.
      eapply Hone. exact Hw.
Qed.

(** ** Inspection against loading *)

Lemma inspect_h5_loop : forall f keys i,
  (forall k, In k keys -> dict_get (h5_members f) k <> None) ->
  exists i',
    for_each keys (inspect_h5_key f) i = (Ok tt, i')
    /\ info_version i' = info_version i
    /\ forall vi, In vi (variables i') ->
         In vi (variables i)
         \/ exists obj, dict_get (h5_members f) (vi_name vi) = Some obj
                        /\ vi = h5_var_info f (vi_name vi) obj.
Proof.
  intros f keys. induction keys as [|key keys IH]; intros i Hkeys.
  - exists i. cbn. repeat split. intros vi H. left. exact H.
  - cbn [for_each]. unfold bind at 1. unfold inspect_h5_key at 1.
    unfold bind at 1. unfold lift at 1. unfold h5_getitem.
    destruct (dict_get (h5_members f) key) as [obj|] eqn:Hkey;
      [|exfalso; apply (Hkeys key (or_introl eq_refl)); exact Hkey].
    fold (h5_var_info f key obj).
    unfold bind at 1. unfold modify at 1.
    set (i1 := add_variable (h5_var_info f key obj) i).
    assert (Hstep : exists i2,
      (if vi_is_reference (h5_var_info f key obj)
       then modify (add_issue ("Variable '" ++ key ++ "' is a reference (may need special handling)"))
       else ret tt) i1 = (Ok tt, i2)
      /\ variables i2 = variables i1 /\ info_version i2 = info_version i1).
    { destruct (vi_is_reference _); eexists; (split; [reflexivity|]); split; reflexivity. }
    destruct Hstep as (i2 & -> & Hvars & Hver).
    destruct (IH i2) as (i' & Hrun & Hver' & Hin').
    { intros k Hk. apply Hkeys. right. exact Hk. }
    exists i'. split; [exact Hrun|]. split; [rewrite Hver', Hver; reflexivity|].
    intros vi Hvi. destruct (Hin' vi Hvi) as [Hold|Hnew]; [|right; exact Hnew].
    rewrite Hvars in Hold. subst i1. cbn [variables add_variable] in Hold.
    apply in_app_or in Hold as [Hold|[<-|[]]]; [left; exact Hold|].
    right. exists obj.
    assert (Hname : vi_name (h5_var_info f key obj) = key) by (destruct obj; reflexivity).
    rewrite Hname. split; [exact Hkey|reflexivity].
Qed.

Lemma dict_keys_get : forall {V} (d : list (string * V)) k,
  In k (dict_keys d) -> dict_get d k <> None.
Proof.
  intros V d k. induction d as [|[k' v] d IH]; cbn; [intros []|].
  intros [->|Hin]; [rewrite String.eqb_refl; discriminate|].
  destruct (String.eqb k k'); [discriminate|apply IH; exact Hin].
Qed.

Lemma inspect_h5_variables : forall fs p f vi,
  h5py_File fs p = Ok f ->
  In vi (variables (inspect_mat_file_deep fs p)) ->
  exists obj, dict_get (h5_members f) (vi_name vi) = Some obj
              /\ vi = h5_var_info f (vi_name vi) obj.
Proof.
  intros fs p f vi Hf Hin. unfold inspect_mat_file_deep, inspect_body in Hin.
  unfold try_catch in Hin. unfold bind at 1 in Hin. unfold lift at 1 in Hin.
  rewrite (detect_v73 _ _ _ Hf) in Hin.
  unfold bind at 1 in Hin. unfold modify at 1 in Hin.
  cbn [String.eqb Ascii.eqb Bool.eqb] in Hin. cbv iota in Hin.
  unfold bind at 1 in Hin. unfold lift at 1 in Hin.
  rewrite Hf in Hin.
  destruct (inspect_h5_loop f (dict_keys (h5_members f))
              (set_info_version "v7.3" (Info (str_path p) None [] [])))
    as (i' & Hrun & _ & Hvars).
  { intros k Hk. apply dict_keys_get. exact Hk. }
  rewrite Hrun in Hin. cbn [snd] in Hin.
  destruct (Hvars vi Hin) as [[]|Hnew]. exact Hnew.
Qed.

(** The scipy branch. *)

Lemma load_mat_loop : forall kvs s,
  exists s',
    for_each kvs load_mat_key s = (Ok tt, s')
    /\ loaded_variables (ls_meta s') = (loaded_variables (ls_meta s) ++ flat_map mat_entry kvs)%list
    /\ transpose_applied (ls_meta s') = transpose_applied (ls_meta s).
Proof.
  intros kvs. induction kvs as [|[key data] kvs IH]; intros s.
  - exists s. cbn. rewrite app_nil_r. repeat split.
  - cbn [for_each]. unfold bind at 1. unfold load_mat_key at 1.
    assert (Hstep : exists s1,
      bind (match data with
            | PArr a => modify (on_meta (meta_add_loaded
                          (LoadedVariable key plain_shape (shape a) (str_dtype (arr_dtype a)))))
            | _ => ret tt
            end) (fun _ => modify (data_dict_set key data)) s = (Ok tt, s1)
      /\ loaded_variables (ls_meta s1)
         = (loaded_variables (ls_meta s) ++ mat_entry (key, data))%list
      /\ transpose_applied (ls_meta s1) = transpose_applied (ls_meta s)).
    { destruct data as [a|n|r|d|ssh sdt|t]; eexists; (split; [reflexivity|]);
        cbn; rewrite ?app_nil_r; split; reflexivity. }
    destruct Hstep as (s1 & -> & Hl & Ht).
    destruct (IH s1) as (s' & Hrun & Hl' & Ht').
    exists s'. split; [exact Hrun|]. split.
    + rewrite Hl', Hl, <- app_assoc. reflexivity.
    + rewrite Ht', Ht. reflexivity.
Qed.

Lemma inspect_mat_loop : forall (kvs : list (string * pyvalue)) i,
  for_each kvs (fun kv => modify (add_variable (inspect_mat_var (fst kv) (snd kv)))) i
  = (Ok tt, Info (info_file i) (info_version i)
              (variables i ++ map (fun kv => inspect_mat_var (fst kv) (snd kv)) kvs)%list
              (issues i)).
Proof.
  intros kvs. induction kvs as [|kv kvs IH]; intros i.
  - cbn. rewrite app_nil_r. destruct i; reflexivity.
  - cbn [for_each]. unfold bind at 1. unfold modify at 1. rewrite IH.
    cbn. rewrite <- app_assoc. reflexivity.
Qed.

Lemma dict_set_same_entry : forall d1 d2 k v1 v2,
  Forall2 same_entry d1 d2 -> same_shape v1 v2 ->
  Forall2 same_entry (dict_set d1 k v1) (dict_set d2 k v2).
Proof.
  intros d1 d2 k v1 v2 H Hv. induction H as [|[k1 w1] [k2 w2] d1 d2 [Hk Hw] H IH]; cbn.
  - constructor; [split; [reflexivity|exact Hv]|constructor].
  - cbn in Hk. subst k2. destruct (String.eqb k k1).
    + constructor; [split; [reflexivity|exact Hv]|exact H].
    + constructor; [split; [reflexivity|exact Hw]|exact IH].
Qed.

Lemma loadmat_dict_same_entries : forall m,
  Forall2 same_entry (loadmat_dict true m) (loadmat_dict false m).
Proof.
  intros m. unfold loadmat_dict.
  assert (H0 : Forall2 same_entry loadmat_header loadmat_header).
  { repeat constructor. }
  revert H0. generalize loadmat_header at 1 3. generalize loadmat_header.
  induction m as [|v m IH]; intros d2 d1 H; [exact H|].
  cbn [fold_left]. apply IH. apply dict_set_same_entry; [exact H|].
  unfold loadmat_value. destruct (mv_sparse v); cbn; reflexivity.
Qed.

Lemma dict_set_keys_in : forall {V} (d : list (string * V)) k v k0,
  In k0 (dict_keys (dict_set d k v)) -> k0 = k \/ In k0 (dict_keys d).
Proof.
  intros V d k v k0. unfold dict_keys. induction d as [|[k' v'] d IH]; cbn.
  - intros [<-|[]]. left. reflexivity.
  - destruct (String.eqb k k'); cbn.
    + intros [<-|H]; right; [left; reflexivity|right; exact H].
    + intros [<-|H]; [right; left; reflexivity|].
      destruct (IH H) as [->|H']; [left; reflexivity|right; right; exact H'].
Qed.

Lemma dict_set_keys_NoDup : forall {V} (d : list (string * V)) k v,
  NoDup (dict_keys d) -> NoDup (dict_keys (dict_set d k v)).
Proof.
  intros V d k v. induction d as [|[k' v'] d IH]; cbn; intros Hnd.
  - constructor; [intros []|constructor].
  - inversion Hnd as [|? ? Hnotin Hnd']; subst.
    destruct (String.eqb k k') eqn:E; cbn.
    + constructor; assumption.
    + constructor; [|apply IH; exact Hnd'].
      intros Hin. destruct (dict_set_keys_in d k v k' Hin) as [->|H].
      * rewrite String.eqb_refl in E. discriminate.
      * contradiction.
Qed.

Lemma loadmat_dict_NoDup : forall b m, NoDup (dict_keys (loadmat_dict b m)).
Proof.
  intros b m. unfold loadmat_dict.
  assert (H0 : NoDup (dict_keys loadmat_header)).
  { cbn. repeat constructor; cbn; intuition discriminate. }
  revert H0. generalize loadmat_header.
  induction m as [|v m IH]; intros d H; [exact H|].
  cbn [fold_left]. apply IH. apply dict_set_keys_NoDup. exact H.
Qed.

Lemma NoDup_keys_unique : forall {V} (d : list (string * V)) k v v',
  NoDup (dict_keys d) -> In (k, v) d -> In (k, v') d -> v = v'.
Proof.
  intros V d k v v'. unfold dict_keys. induction d as [|[k0 v0] d IH]; cbn; [intros _ []|].
  intros Hnd [H1|H1] [H2|H2]; inversion Hnd as [|? ? Hnotin Hnd']; subst.
  - congruence.
  - inversion H1; subst. exfalso. apply Hnotin. apply (in_map fst) in H2. exact H2.
  - inversion H2; subst. exfalso. apply Hnotin. apply (in_map fst) in H1. exact H1.
  - apply IH; assumption.
Qed.

Lemma Forall2_In_left : forall {A B} (R : A -> B -> Prop) l1 l2 x,
  Forall2 R l1 l2 -> In x l1 -> exists y, In y l2 /\ R x y.
Proof.
  intros A B R l1 l2 x H. induction H as [|a b l1 l2 Hab H IH]; [intros []|].
  intros [<-|Hin].
  - exists b. split; [left; reflexivity|exact Hab].
  - destruct (IH Hin) as (y & Hy & Hr). exists y. split; [right; exact Hy|exact Hr].
Qed.

(** C9. A variable that has both a record from [inspect_mat_file_deep] and
    an entry in the [meta] of [load_mat_correctly] on the same file carries
    the same shape in both, unless the loader transposed it: then the entry
    is the one of the HDF5 branch, it holds the shape the value had before
    the transposition, and [transpose_applied] is [True].  (For a dataset
    stored inline that earlier shape is again the inspected one; a dataset
    read through a reference has the shape of what it points to.) *)
Theorem C9_inspected_shape_matches_meta :
  forall fs p vn data meta vi lv,
    load_mat_correctly fs p vn = Ok (data, meta) ->
    In vi (variables (inspect_mat_file_deep fs p)) ->
    In lv (loaded_variables meta) ->
    vi_name vi = lv_name lv ->
    (lv_key lv = plain_shape /\ transpose_applied meta = false
     /\ vi_shape vi = Some (lv_shape lv))
    \/ (lv_key lv = original_shape /\ transpose_applied meta = true
        /\ exists f sh b a,
             h5py_File fs p = Ok f
             /\ dict_get (h5_members f) (lv_name lv) = Some (H5Dataset sh b)
             /\ materialized f (lv_name lv) sh b = Ok (PArr a)
             /\ (2 <=? ndim a)%nat = true
             /\ lv_shape lv = shape a
             /\ vi_shape vi = Some sh
             /\ (buf_dtype b <> object -> vi_shape vi = Some (lv_shape lv))).
Proof.
  intros fs p vn data meta vi lv Hload Hvi Hlv Hname.
  destruct (detect_cases fs p)
    as [(f & Hf & Hd) | [(m & Hleg & Hd) | [(e & Hd & Hl) | (e & Hd & _)]]].
  - (* HDF5 *)
    right.
    destruct (load_h5_result _ _ _ _ _ _ Hf Hload) as (s1 & s2 & Hloop & Hsel & ->).
    destruct (load_h5_loop _ _ _ _ Hloop) as (_ & _ & Hmeta).
    destruct Hmeta as [Hall Hflag].
    { split; [constructor|left; reflexivity]. }
    destruct (select_variable_spec vn s1) as (d' & s2' & Hrun & Hl & Ht & _).
    rewrite Hrun in Hsel. inversion Hsel; subst d' s2'; clear Hsel.
    rewrite Hl in Hlv. rewrite Ht.
    rewrite Forall_forall in Hall.
    destruct (Hall lv Hlv) as (sh & b & a & Hkey & Hmat & Hrank & Heq).
    destruct (inspect_h5_variables _ _ _ _ Hf Hvi) as (obj & Hobj & Hvi_eq).
    rewrite Hname, Hkey in Hobj. inversion Hobj; subst obj; clear Hobj.
    assert (Hshape : vi_shape vi = Some sh) by (rewrite Hvi_eq; reflexivity).
    split; [rewrite Heq; reflexivity|]. split.
    + destruct Hflag as [Hnil|Htrue]; [rewrite Hnil in Hlv; destruct Hlv|exact Htrue].
    + exists f, sh, b, a. repeat split; try assumption.
      * rewrite Heq. reflexivity.
      * intros Hb. rewrite (materialized_inline f _ sh b Hb) in Hmat.
        rewrite Hshape. f_equal. rewrite Heq. cbn [lv_shape].
        unfold read_dataset in Hmat. destruct sh; inversion Hmat; [|reflexivity].
        destruct b as [[|x xs]|[|z zs]|[|o os]]; cbn in H0; try discriminate.
        contradiction.
  - (* scipy *)
    left. destruct (detect_legacy _ _ _ Hleg) as [_ Hmat].
    unfold load_mat_correctly, load_body in Hload.
    unfold bind at 1 in Hload. unfold lift at 1 in Hload.
    rewrite Hd in Hload.
    unfold bind at 1 in Hload. unfold modify at 1 in Hload.
    cbn [String.eqb Ascii.eqb Bool.eqb] in Hload. cbv iota in Hload.
    unfold bind at 1 in Hload. unfold lift at 1 in Hload.
    rewrite Hmat in Hload.
    unfold bind at 1 in Hload.
    match type of Hload with context [for_each ?kvs load_mat_key ?s0] =>
      destruct (load_mat_loop kvs s0) as (s1 & Hrun & Hl & Ht) end.
    rewrite Hrun in Hload.
    destruct (select_variable_spec vn s1) as (d' & s2 & Hsel & Hl2 & Ht2 & _).
    rewrite Hsel in Hload. inversion Hload; subst d' meta; clear Hload.
    rewrite Hl2, Hl in Hlv. rewrite Ht2, Ht. cbn in Hlv.
    apply in_flat_map in Hlv as ([k v] & Hkv & Hentry).
    apply filter_In in Hkv as [Hkv _].
    unfold mat_entry in Hentry. cbn [fst snd] in Hentry.
    destruct v as [a|n|r|d|ssh sdt|t]; cbn in Hentry; try contradiction.
    destruct Hentry as [<-|[]]. cbn [lv_name lv_key lv_shape] in *.
    (* the inspected record of the same name *)
    unfold inspect_mat_file_deep, inspect_body in Hvi.
    unfold try_catch in Hvi. unfold bind at 1 in Hvi. unfold lift at 1 in Hvi.
    rewrite Hd in Hvi.
    unfold bind at 1 in Hvi. unfold modify at 1 in Hvi.
    cbn [String.eqb Ascii.eqb Bool.eqb] in Hvi. cbv iota in Hvi.
    unfold bind at 1 in Hvi. unfold lift at 1 in Hvi.
    rewrite Hmat in Hvi.
    rewrite inspect_mat_loop in Hvi. cbn [snd variables app] in Hvi.
    apply in_map_iff in Hvi as ([k' v'] & Hvi_eq & Hkv').
    apply filter_In in Hkv' as [Hkv' _]. cbn [fst snd] in Hvi_eq.
    assert (Hk : k' = k).
    { rewrite <- Hname, <- Hvi_eq. destruct v' as [a'|[x|z]|r|d|ssh sdt|t]; reflexivity. }
    subst k'.
    destruct (Forall2_In_left _ _ _ _ (loadmat_dict_same_entries m) Hkv)
      as ([k2 v2] & Hin2 & Hk2 & Hsame).
    cbn [fst snd] in Hk2, Hsame. subst k2.
    assert (v2 = v') by (eapply NoDup_keys_unique; [apply loadmat_dict_NoDup| |]; eassumption).
    subst v2. destruct v' as [a'|n|r|d|ssh sdt|t]; cbn in Hsame; try contradiction.
    repeat split. rewrite <- Hvi_eq. cbn. f_equal. symmetry. exact Hsame.
  - (* neither reader accepts the file: the loader raises *)
    unfold load_mat_correctly, load_body in Hload.
    unfold bind at 1 in Hload. unfold lift at 1 in Hload.
    rewrite Hd in Hload.
    cbn in Hload. rewrite Hl in Hload. discriminate.
  - (* the detection itself raises *)
    unfold load_mat_correctly, load_body in Hload.
    unfold bind at 1 in Hload. unfold lift at 1 in Hload.
    rewrite Hd in Hload. discriminate.
Qed.

(* ================================================================== *)
(** * Properties of [compare_matrices]                                 *)
(* ================================================================== *)

Lemma shape_eqb_eq : forall s t, shape_eqb s t = true <-> s = t.
Proof.
  intros s t. unfold shape_eqb. destruct (list_eq_dec Nat.eq_dec s t); split; congruence.
Qed.

Lemma all2_Zeqb_eq : forall xs ys,
  length xs = length ys -> (all2 Z.eqb xs ys = true <-> xs = ys).
Proof.
  unfold all2. induction xs as [|x xs IH]; destruct ys as [|y ys]; cbn; try discriminate.
  - intros _. split; reflexivity.
  - intros Hlen. injection Hlen as Hlen. rewrite andb_true_iff, Z.eqb_eq, (IH ys Hlen).
    split; [intros [-> ->]; reflexivity|intros H; inversion H; split; reflexivity].
Qed.

(** *** [np.max] against a bound

    A maximum is below a bound exactly when every element is; with IEEE
    comparisons this needs NaN (which [np.maximum] propagates and which is
    below nothing) and the order of the remaining floats. *)

Ltac cmp_cases :=
  repeat match goal with
  | |- context [Z.compare ?a ?b] => destruct (Z.compare_spec a b)
  | |- context [Pos.compare_cont Eq ?a ?b] =>
      change (Pos.compare_cont Eq a b) with (Pos.compare a b); destruct (Pos.compare_spec a b)
  end.

Ltac float_cases a b c :=
  destruct a as [?|?| |? ? ?], b as [?|?| |? ? ?], c as [?|?| |? ? ?];
  cbn; try discriminate; try reflexivity; try congruence;
  repeat match goal with s : bool |- _ => destruct s end;
  cbn; try discriminate; try reflexivity; try congruence;
  cmp_cases; cbn; intros; try discriminate; try reflexivity; subst; try lia.

Lemma SFleb_ltb_trans : forall b a c,
  SFleb b a = true -> SFltb a c = true -> SFltb b c = true.
Proof. intros b a c. unfold SFleb, SFltb. float_cases a b c. Qed.

Lemma SFltb_of_not_leb : forall b a c,
  SFleb b a = false -> a <> S754_nan -> SFltb b c = true -> SFltb a c = true.
Proof. intros b a c. unfold SFleb, SFltb. float_cases a b c. Qed.

Lemma SFeqb_refl_nan : forall a, SFeqb a a = false -> a = S754_nan.
Proof.
  intros a. unfold SFeqb. destruct a as [s|s| |s m e]; cbn; try discriminate; try reflexivity.
  - destruct s; discriminate.
  - destruct s; rewrite Z.compare_refl;
      change (Pos.compare_cont Eq m m) with (Pos.compare m m);
      rewrite Pos.compare_refl; discriminate.
Qed.

Lemma np_maximum_below : forall a b c,
  PrimFloat.ltb (np_maximum a b) c = (PrimFloat.ltb a c && PrimFloat.ltb b c)%bool.
Proof.
  intros a b c. unfold np_maximum, PrimFloat.is_nan.
  rewrite FloatAxioms.leb_spec, FloatAxioms.eqb_spec, !FloatAxioms.ltb_spec.
  destruct (SFleb (Prim2SF b) (Prim2SF a)) eqn:Hle; cbn [orb].
  - destruct (SFltb (Prim2SF a) (Prim2SF c)) eqn:Hac; [|reflexivity].
    rewrite (SFleb_ltb_trans _ _ _ Hle Hac). reflexivity.
  - destruct (SFeqb (Prim2SF a) (Prim2SF a)) eqn:Hnan; cbn [negb].
    + destruct (SFltb (Prim2SF b) (Prim2SF c)) eqn:Hbc; [|apply eq_sym, andb_false_r].
      assert (Ha : Prim2SF a <> S754_nan).
      { intros Hn. rewrite Hn in Hnan. discriminate. }
      rewrite (SFltb_of_not_leb _ _ _ Hle Ha Hbc). reflexivity.
    + apply SFeqb_refl_nan in Hnan. rewrite Hnan. reflexivity.
Qed.

Lemma np_max_below : forall xs c,
  (exists m, np_max xs = Ok m /\ PrimFloat.ltb m c = true)
  <-> xs <> [] /\ Forall (fun r => PrimFloat.ltb r c = true) xs.
Proof.
  intros xs c. destruct xs as [|x rest].
  - split; [intros (m & H & _); discriminate|intros [H _]; contradiction].
  - cbn [np_max].
    assert (Hfold : forall rest x,
      PrimFloat.ltb (fold_left np_maximum rest x) c
      = forallb (fun r => PrimFloat.ltb r c) (x :: rest)).
    { clear. induction rest as [|y rest IH]; intros x; cbn [fold_left forallb].
      - rewrite andb_true_r. reflexivity.
      - rewrite IH. cbn [forallb]. rewrite np_maximum_below, andb_assoc. reflexivity. }
    split.
    + intros (m & Hm & Hlt). injection Hm as <-. split; [discriminate|].
      rewrite Hfold in Hlt. apply Forall_forall. rewrite forallb_forall in Hlt. exact Hlt.
    + intros [_ Hall]. eexists. split; [reflexivity|].
      rewrite Hfold. apply forallb_forall. apply Forall_forall. exact Hall.
Qed.

(** [np.isfinite] as a comparison: a float is finite when its magnitude
    is below infinity. *)
Lemma is_finite_ltb : forall y,
  F64.is_finite y = PrimFloat.ltb (abs y) infinity.
Proof.
  intros y. unfold F64.is_finite.
  rewrite classify_spec, FloatAxioms.ltb_spec, FloatAxioms.abs_spec.
  change (Prim2SF infinity) with (S754_infinity false).
  destruct (Prim2SF y) as [s|s| |s m e]; cbn.
  - destruct s; reflexivity.
  - destruct s; reflexivity.
  - reflexivity.
  - destruct s; match goal with |- context [if ?c then _ else _] => destruct c end;
      reflexivity.
Qed.

Lemma all2_ext : forall {A B} (f g : A -> B -> bool) xs ys,
  (forall x y, f x y = g x y) -> all2 f xs ys = all2 g xs ys.
Proof.
  intros A B f g xs ys H. unfold all2.
  induction (combine xs ys) as [|q l IH]; [reflexivity|].
  cbn [forallb]. now rewrite H, IH.
Qed.


End Properties.

(* ================================================================== *)
(** * Properties of [compute_array_hash]                               *)
(* ================================================================== *)

(** ** Rounding never produces a NaN *)

Lemma shr_1_nonneg : forall r, 0 <= shr_m r -> 0 <= shr_m (shr_1 r).
Proof. intros [m r s] H. cbn in *. destruct m as [|[p|p|]|[p|p|]]; cbn; lia. Qed.

Lemma iter_shr_1_nonneg : forall p r,
  0 <= shr_m r -> 0 <= shr_m (iter_pos shr_1 p r).
Proof.
  induction p as [p IH|p IH|]; intros r H; cbn [iter_pos].
  - apply IH, IH, shr_1_nonneg, H.
  - apply IH, IH, H.
  - apply shr_1_nonneg, H.
Qed.

Lemma shr_fexp_nonneg : forall m e l,
  0 <= m -> 0 <= shr_m (fst (shr_fexp prec emax m e l)).
Proof.
  intros m e l H. unfold shr_fexp, shr.
  assert (H0 : 0 <= shr_m (shr_record_of_loc m l)) by (destruct l as [|[| |]]; exact H).
  destruct (fexp prec emax (Zdigits2 m + e) - e); cbn [fst]; try exact H0.
  apply iter_shr_1_nonneg, H0.
Qed.

Lemma round_nearest_even_nonneg : forall m l,
  0 <= m -> 0 <= round_nearest_even m l.
Proof.
  intros m l H. destruct l as [|[| |]]; cbn [round_nearest_even]; try lia.
  destruct (Z.even m); lia.
Qed.

Lemma binary_round_aux_not_nan : forall sx m e l,
  0 <= m -> binary_round_aux prec emax sx m e l <> S754_nan.
Proof.
  intros sx m e l H. unfold binary_round_aux.
  pose proof (shr_fexp_nonneg m e l H) as H1.
  destruct (shr_fexp prec emax m e l) as [mrs1 e1]. cbn [fst] in H1.
  pose proof (shr_fexp_nonneg _ e1 loc_Exact
                (round_nearest_even_nonneg _ (loc_of_shr_record mrs1) H1)) as H2.
  destruct (shr_fexp prec emax _ e1 loc_Exact) as [mrs2 e2]. cbn [fst] in H2.
  destruct (shr_m mrs2) as [|p|p]; [discriminate| |lia].
  destruct (Z.leb e2 (emax - prec)); discriminate.
Qed.

Lemma binary_normalize_not_nan : forall m e b,
  binary_normalize prec emax m e b <> S754_nan.
Proof.
  intros m e b. unfold binary_normalize, binary_round.
  destruct m as [|p|p]; [discriminate| |];
    destruct (shl_align _ _ _) as [mz ez]; apply binary_round_aux_not_nan; lia.
Qed.

Lemma SFmul_not_nan : forall a s m e,
  a <> S754_nan -> SF64mul a (S754_finite s m e) <> S754_nan.
Proof.
  intros a s m e Ha. unfold SF64mul, SFmul.
  destruct a as [sa|sa| |sa ma ea]; try discriminate; [contradiction|].
  apply binary_round_aux_not_nan. lia.
Qed.

Lemma SFadd_not_nan : forall a b,
  SFfinite a -> SFfinite b -> SF64add a b <> S754_nan.
Proof.
  intros a b Ha Hb. unfold SF64add, SFadd.
  destruct a as [sa|sa| |sa ma ea], b as [sb|sb| |sb mb eb]; try contradiction;
    try discriminate.
  - destruct sa, sb; discriminate.
  - apply binary_normalize_not_nan.
Qed.

Lemma SFsub_not_nan : forall a b,
  a <> S754_nan -> SFfinite b -> SF64sub a b <> S754_nan.
Proof.
  intros a b Ha Hb. unfold SF64sub, SFsub.
  destruct a as [sa|sa| |sa ma ea], b as [sb|sb| |sb mb eb]; try contradiction;
    try discriminate.
  - destruct sa, sb; discriminate.
  - apply binary_normalize_not_nan.
Qed.

Lemma SFdiv_not_nan : forall a s m e,
  a <> S754_nan -> SF64div a (S754_finite s m e) <> S754_nan.
Proof.
  intros a s m e Ha. unfold SF64div, SFdiv.
  destruct a as [sa|sa| |sa ma ea]; try discriminate; [contradiction|].
  unfold SFdiv_core_binary.
  match goal with |- context [Z.div_eucl ?a ?b] =>
    pose proof (Z.div_eucl_eq a b ltac:(discriminate)) as Heq;
    pose proof (Z.mod_pos_bound a b ltac:(lia)) as Hmod;
    assert (Ha0 : 0 <= a);
    [|unfold Z.modulo in Hmod; destruct (Z.div_eucl a b) as [q r]]
  end.
  - destruct (_ - _ - _) as [|p|p]; [lia| |lia]. apply Z.shiftl_nonneg. lia.
  - apply binary_round_aux_not_nan. nia.
Qed.

Lemma SFopp_not_nan : forall a, a <> S754_nan -> SFopp a <> S754_nan.
Proof. intros [s|s| |s m e] H; cbn; congruence. Qed.

Lemma SFabs_not_nan : forall a, a <> S754_nan -> SFabs a <> S754_nan.
Proof. intros [s|s| |s m e] H; cbn; congruence. Qed.

Lemma is_nan_spec : forall x, PrimFloat.is_nan x = false <-> Prim2SF x <> S754_nan.
Proof.
  intros x. unfold PrimFloat.is_nan. rewrite FloatAxioms.eqb_spec.
  destruct (Prim2SF x) as [s|s| |s m e]; cbn.
  - split; [discriminate|reflexivity].
  - destruct s; (split; [discriminate|reflexivity]).
  - split; [discriminate|intros H; now destruct H].
  - unfold SFeqb, SFcompare. rewrite Z.compare_refl.
    change (Pos.compare_cont Eq m m) with (Pos.compare m m). rewrite Pos.compare_refl.
    destruct s; (split; [discriminate|reflexivity]).
Qed.

(** [np.rint] and the rounding to six decimals keep a number a number. *)
Lemma rint_not_nan : forall y,
  Prim2SF y <> S754_nan -> Prim2SF (F64.rint y) <> S754_nan.
Proof.
  intros y Hy. unfold F64.rint.
  destruct (PrimFloat.ltb (abs y) F64.two52) eqn:Hlt; [|exact Hy].
  rewrite FloatAxioms.ltb_spec, FloatAxioms.abs_spec in Hlt.
  assert (H52 : exists m e, Prim2SF F64.two52 = S754_finite false m e)
    by (eexists _, _; vm_compute; reflexivity).
  destruct H52 as (m52 & e52 & H52). rewrite H52 in Hlt.
  assert (Hfin : SFfinite (SFabs (Prim2SF y))).
  { destruct (Prim2SF y) as [s|s| |s m e]; cbn in *; try exact I; discriminate. }
  assert (Hr : Prim2SF (abs y + F64.two52 - F64.two52) <> S754_nan).
  { rewrite FloatAxioms.sub_spec, FloatAxioms.add_spec, FloatAxioms.abs_spec, H52.
    apply SFsub_not_nan; [|exact I]. apply SFadd_not_nan; [exact Hfin|exact I]. }
  destruct (F64.signbit y); [|exact Hr].
  rewrite FloatAxioms.opp_spec. apply SFopp_not_nan, Hr.
Qed.

Lemma round6_not_nan : forall x,
  PrimFloat.is_nan x = false -> PrimFloat.is_nan (F64.round6 x) = false.
Proof.
  intros x Hx. apply is_nan_spec in Hx. apply is_nan_spec. unfold F64.round6.
  assert (H6 : exists m e, Prim2SF 1e6 = S754_finite false m e)
    by (eexists _, _; vm_compute; reflexivity).
  destruct H6 as (m6 & e6 & H6).
  rewrite FloatAxioms.div_spec, H6. apply SFdiv_not_nan. apply rint_not_nan.
  rewrite FloatAxioms.mul_spec, H6. apply SFmul_not_nan, Hx.
Qed.

(** ** The 64 bits determine a number *)

Lemma digits2_pos_size : forall m, digits2_pos m = Pos.size m.
Proof. induction m as [m IH|m IH|]; cbn; now rewrite ?IH. Qed.

Lemma digits2_bounds : forall m,
  2 ^ (Zpos (digits2_pos m) - 1) <= Zpos m < 2 ^ Zpos (digits2_pos m).
Proof.
  intros m. rewrite digits2_pos_size.
  pose proof (Pos.size_gt m) as Hgt. pose proof (Pos.size_le m) as Hle.
  apply Pos2Z.pos_lt_pos in Hgt. apply Pos2Z.pos_le_pos in Hle.
  rewrite Pos2Z.inj_pow in Hgt, Hle. change (Z.pos m~0) with (2 * Z.pos m) in Hle.
  split; [|exact Hgt].
  replace (Zpos (Pos.size m)) with (Z.succ (Zpos (Pos.size m) - 1)) in Hle by lia.
  rewrite Z.pow_succ_r in Hle by lia. lia.
Qed.

(** The mantissa and the exponent of a binary64 number: normal numbers
    have 53 digits, the others the smallest exponent. *)
Lemma valid_finite_range : forall s m e,
  valid_binary (S754_finite s m e) = true ->
  -1074 <= e <= 971
  /\ ((4503599627370496 <= Zpos m < 9007199254740992)
      \/ (e = -1074 /\ Zpos m < 4503599627370496)).
Proof.
  intros s m e H. unfold valid_binary, bounded, canonical_mantissa in H.
  apply andb_true_iff in H as [Hc He]. apply Z.eqb_eq in Hc. apply Z.leb_le in He.
  unfold fexp, SpecFloat.emin, prec, emax in *.
  pose proof (digits2_bounds m) as [Hlo Hhi].
  assert (Hd : Zpos (digits2_pos m) = 53 \/ (e = -1074 /\ Zpos (digits2_pos m) <= 52)) by lia.
  split; [lia|].
  destruct Hd as [Hd|[He' Hd]].
  - left. rewrite Hd in Hlo, Hhi. change (2 ^ (53 - 1)) with 4503599627370496 in Hlo.
    change (2 ^ 53) with 9007199254740992 in Hhi. lia.
  - right. split; [exact He'|].
    assert (2 ^ Zpos (digits2_pos m) <= 2 ^ 52) by (apply Z.pow_le_mono_r; lia).
    change (2 ^ 52) with 4503599627370496 in *. lia.
Qed.

Lemma bits_range : forall x, 0 <= F64.bits x < 18446744073709551616.
Proof.
  intros x. unfold F64.bits. pose proof (Prim2SF_valid x) as Hv.
  destruct (Prim2SF x) as [s|s| |s m e].
  - destruct s; lia.
  - destruct s; lia.
  - lia.
  - apply valid_finite_range in Hv. destruct s; lia.
Qed.

Lemma bits_inj : forall x y,
  PrimFloat.is_nan x = false -> PrimFloat.is_nan y = false ->
  F64.bits x = F64.bits y -> x = y.
Proof.
  intros x y Hx Hy H. apply Prim2SF_inj.
  assert (Hnx : Prim2SF x <> S754_nan).
  { intros E. unfold PrimFloat.is_nan in Hx. rewrite FloatAxioms.eqb_spec, E in Hx.
    discriminate. }
  assert (Hny : Prim2SF y <> S754_nan).
  { intros E. unfold PrimFloat.is_nan in Hy. rewrite FloatAxioms.eqb_spec, E in Hy.
    discriminate. }
  unfold F64.bits in H.
  pose proof (Prim2SF_valid x) as Hvx. pose proof (Prim2SF_valid y) as Hvy.
  destruct (Prim2SF x) as [s|s| |s m e], (Prim2SF y) as [s'|s'| |s' m' e'];
    try contradiction;
    try apply valid_finite_range in Hvx; try apply valid_finite_range in Hvy;
    destruct s, s'; try reflexivity; try lia.
  - assert (e = e' /\ Zpos m = Zpos m') as [-> Hm] by lia. now inversion Hm.
  - assert (e = e' /\ Zpos m = Zpos m') as [-> Hm] by lia. now inversion Hm.
Qed.

(** Little-endian bytes determine a number below [256^n]. *)
Lemma le_bytes_inj : forall n x y,
  0 <= x < 256 ^ Z.of_nat n -> 0 <= y < 256 ^ Z.of_nat n ->
  MD5.le_bytes n x = MD5.le_bytes n y -> x = y.
Proof.
  induction n as [|n IH]; intros x y Hx Hy H.
  - cbn in Hx, Hy. lia.
  - cbn [MD5.le_bytes] in H. injection H as H0 H1.
    change 255 with (Z.ones 8) in H0. rewrite !Z.land_ones in H0 by lia.
    rewrite !Z.shiftr_div_pow2 in H1 by lia. change (2 ^ 8) with 256 in *.
    rewrite Nat2Z.inj_succ, Z.pow_succ_r in Hx, Hy by lia.
    assert (Hq : x / 256 = y / 256).
    { apply IH; [| |exact H1]; split;
        try (apply Z.div_pos; lia); apply Z.div_lt_upper_bound; lia. }
    rewrite (Z.div_mod x 256), (Z.div_mod y 256) by lia. now rewrite Hq, H0.
Qed.

Lemma to_bytes_inj : forall x y,
  PrimFloat.is_nan x = false -> PrimFloat.is_nan y = false ->
  F64.to_bytes x = F64.to_bytes y -> x = y.
Proof.
  intros x y Hx Hy H. apply bits_inj; try assumption.
  apply (le_bytes_inj 8); [apply bits_range|apply bits_range|exact H].
Qed.

Lemma app_eq_length : forall {A} (a a' b b' : list A),
  length a = length a' -> (a ++ b = a' ++ b')%list -> a = a' /\ b = b'.
Proof.
  induction a as [|x a IH]; destruct a' as [|x' a']; cbn; intros b b' Hl H;
    try discriminate; [now split|].
  injection H as -> H. injection Hl as Hl. destruct (IH _ _ _ Hl H) as [-> ->]. now split.
Qed.

(** The bytes of two arrays of numbers agree exactly when the arrays
    do. *)
Lemma tobytes_inj : forall xs ys,
  Forall (fun x => PrimFloat.is_nan x = false) xs ->
  Forall (fun y => PrimFloat.is_nan y = false) ys ->
  length xs = length ys ->
  flat_map F64.to_bytes xs = flat_map F64.to_bytes ys -> xs = ys.
Proof.
  induction xs as [|x xs IH]; destruct ys as [|y ys]; intros Hx Hy Hl H;
    try discriminate; [reflexivity|].
  inversion Hx; inversion Hy; subst. cbn [flat_map] in H.
  apply app_eq_length in H as [H0 H1]; [|reflexivity].
  f_equal; [now apply to_bytes_inj|]. apply IH; try assumption. now injection Hl.
Qed.


Lemma existsb_nan_rounded : forall xs,
  Forall (fun x => PrimFloat.is_nan x = false) xs ->
  existsb PrimFloat.is_nan (map F64.round6 xs) = false.
Proof.
  intros xs H. induction H as [|x xs Hx H IH]; [reflexivity|].
  cbn [map existsb]. now rewrite (round6_not_nan x Hx), IH.
Qed.

Lemma Forall2_map_eq : forall {A B} (f : A -> B) xs ys,
  Forall2 (fun x y => f x = f y) xs ys <-> map f xs = map f ys.
Proof.
  intros A B f xs ys. split.
  - intros H. induction H as [|x y xs ys Hxy H IH]; [reflexivity|].
    cbn [map]. now rewrite Hxy, IH.
  - revert ys. induction xs as [|x xs IH]; destruct ys as [|y ys]; cbn; intros H;
      try discriminate; [constructor|].
    injection H as H0 H. constructor; [exact H0|now apply IH].
Qed.



(* ================================================================== *)
(** * Transposition reverses the axes                                  *)
(* ================================================================== *)

Lemma ravel_C_fold : forall sh idx, ravel_C sh idx = fold_left ravel_step (combine sh idx) 0%nat.
Proof. reflexivity. Qed.

Lemma fold_ravel_snoc : forall sh idx d i acc,
  length sh = length idx ->
  fold_left ravel_step (combine (sh ++ [d]) (idx ++ [i])) acc
  = (fold_left ravel_step (combine sh idx) acc * d + i)%nat.
Proof.
  induction sh as [|d0 sh IH]; destruct idx as [|i0 idx]; cbn; intros d i acc Hlen;
    try discriminate; [reflexivity|].
  apply IH. injection Hlen as Hlen. exact Hlen.
Qed.

(** Unravelling in Fortran order undoes ravelling the reversed index over
    the reversed shape. *)
Lemma unravel_F_ravel_rev : forall sh ridx,
  Forall2 lt ridx sh ->
  unravel_F sh (ravel_C (rev sh) (rev ridx)) = ridx.
Proof.
  intros sh ridx H. induction H as [|i d ridx sh Hlt H IH]; [reflexivity|].
  cbn [rev]. rewrite ravel_C_fold, fold_ravel_snoc
    by (rewrite !length_rev; symmetry; eapply Forall2_length; exact H).
  rewrite <- ravel_C_fold. cbn [unravel_F].
  assert (Hd : d <> 0%nat) by lia.
  rewrite Nat.add_comm, Nat.Div0.mod_add, Nat.mod_small by lia.
  rewrite Nat.div_add by exact Hd. rewrite Nat.div_small by lia. cbn [Nat.add].
  rewrite IH. reflexivity.
Qed.

Lemma fold_ravel_bound : forall sh idx acc bound,
  Forall2 lt idx sh -> (acc < bound)%nat ->
  (fold_left ravel_step (combine sh idx) acc < bound * size_of sh)%nat.
Proof.
  intros sh idx acc bound H. revert acc bound.
  induction H as [|i d idx sh Hlt H IH]; intros acc bound Hacc.
  - cbn. lia.
  - cbn [combine fold_left size_of fold_right]. fold (size_of sh).
    replace (bound * (d * size_of sh))%nat with ((bound * d) * size_of sh)%nat by lia.
    apply IH. unfold ravel_step. cbn [fst snd].
    assert (Hmul : ((acc + 1) * d <= bound * d)%nat) by (apply Nat.mul_le_mono_r; lia).
    lia.
Qed.

Lemma ravel_C_bound : forall sh idx,
  Forall2 lt idx sh -> (ravel_C sh idx < size_of sh)%nat.
Proof.
  intros sh idx H. rewrite ravel_C_fold.
  pose proof (fold_ravel_bound sh idx 0 1 H) as Hb. lia.
Qed.

Lemma size_of_app : forall s t, size_of (s ++ t) = (size_of s * size_of t)%nat.
Proof.
  intros s t. unfold size_of. induction s as [|d s IH]; cbn [app fold_right].
  - lia.
  - rewrite IH. lia.
Qed.

Lemma size_of_rev : forall sh, size_of (rev sh) = size_of sh.
Proof.
  induction sh as [|d sh IH]; [reflexivity|].
  cbn [rev]. rewrite size_of_app, IH. unfold size_of. cbn [fold_right]. lia.
Qed.

Lemma Forall2_rev : forall {A B} (R : A -> B -> Prop) l1 l2,
  Forall2 R l1 l2 -> Forall2 R (rev l1) (rev l2).
Proof.
  intros A B R l1 l2 H. induction H as [|a b l1 l2 Hab H IH]; [constructor|].
  cbn. apply Forall2_app; [exact IH|]. constructor; [exact Hab|constructor].
Qed.

Lemma transpose_list_nth : forall {A} sh (xs : list A) k,
  (k < length xs)%nat ->
  (ravel_C sh (unravel_F sh k) < length xs)%nat ->
  nth_error (transpose_list sh xs) k = nth_error xs (ravel_C sh (unravel_F sh k)).
Proof.
  intros A sh xs k Hk Hj. unfold transpose_list.
  destruct xs as [|x0 xs']; [cbn in Hk; lia|].
  set (xs := x0 :: xs') in *.
  rewrite nth_error_map, nth_error_seq.
  destruct (Nat.ltb_spec k (length xs)) as [_|Hge]; [|lia].
  cbn [option_map Nat.add]. symmetry. apply nth_error_nth'. exact Hj.
Qed.

(** The element of [a.T] at a multi-index is the element of [a] at the
    reversed multi-index, for arrays of any rank. *)
Theorem transpose_reverses_axes : forall {A} sh (xs : list A) idx,
  length xs = size_of sh ->
  Forall2 lt idx (rev sh) ->
  get (rev sh) (transpose_list sh xs) idx = get sh xs (rev idx).
Proof.
  intros A sh xs idx Hwf Hidx. unfold get.
  assert (Hridx : Forall2 lt (rev idx) sh).
  { apply Forall2_rev in Hidx. rewrite rev_involutive in Hidx. exact Hidx. }
  pose proof (ravel_C_bound _ _ Hidx) as Hk. rewrite size_of_rev, <- Hwf in Hk.
  pose proof (unravel_F_ravel_rev sh (rev idx) Hridx) as Hun.
  rewrite rev_involutive in Hun.
  pose proof (ravel_C_bound _ _ Hridx) as Hj. rewrite <- Hwf in Hj.
  rewrite transpose_list_nth; rewrite ?Hun; [reflexivity|exact Hk|exact Hj].
Qed.

(** Transposition keeps an array well formed. *)
Lemma transpose_wf : forall a, wf_array a -> wf_array (transpose a).
Proof.
  intros [sh b] H. unfold wf_array, transpose in *. cbn [shape buf] in *.
  rewrite size_of_rev, <- H.
  assert (Hlen : forall (A : Type) (xs : list A), length (transpose_list sh xs) = length xs).
  { intros A xs. unfold transpose_list. destruct xs as [|x0 xs']; [reflexivity|].
    rewrite length_map, length_seq. reflexivity. }
  destruct b; cbn [transpose_buf buf_length]; apply Hlen.
Qed.

(** For a matrix: [a.T[i, j] = a[j, i]]. *)
Corollary transpose_matrix : forall {A} rows cols (xs : list A) i j,
  length xs = (rows * cols)%nat -> (i < cols)%nat -> (j < rows)%nat ->
  get [cols; rows] (transpose_list [rows; cols] xs) [i; j] = get [rows; cols] xs [j; i].
Proof.
  intros A rows cols xs i j Hlen Hi Hj.
  apply (transpose_reverses_axes [rows; cols] xs [i; j]).
  - cbn. lia.
  - cbn. repeat constructor; assumption.
Qed.

(* ================================================================== *)
(** * The specification's scenarios, evaluated                         *)
(* ================================================================== *)

Example scenario_1 :
  let r := fst (convert legacy_fs ["bm"; "data.mat"] None) in
  success r = true /\ output_file r = Some "bm_npy/data.npy"
  /\ fs_lookup (snd (convert legacy_fs ["bm"; "data.mat"] None)) ["bm_npy"; "data.npy"]
     = Some (NPY (np := example_numpy) matrix_2x3)
  /\ load_meta r = Some legacy_meta.
Proof. vm_compute. repeat split. Qed.

Example scenario_2 :
  let r := fst (convert hdf5_fs ["bm"; "data.mat"] None) in
  success r = true
  /\ fs_lookup (snd (convert hdf5_fs ["bm"; "data.mat"] None)) ["bm_npy"; "data.npy"]
     = Some (NPY (np := example_numpy) matrix_2x3)
  /\ load_meta r = Some hdf5_meta.
Proof. vm_compute. repeat split. Qed.

(** ** Instances of the theorems above *)

(** C1 on scenario 1: the array is read back unchanged and the result is a
    success. *)
Lemma C1_array_outcome_classification_witness :
  load_mat_correctly (np := example_numpy) legacy_fs ["bm"; "data.mat"] None
  = Ok (PArr matrix_2x3, legacy_meta)
  /\ derive_npy_path bm ["bm"; "data.mat"] None = Ok ["bm_npy"; "data.npy"]
  /\ np_save (np := example_numpy) legacy_fs ["bm_npy"; "data.npy"] (PArr matrix_2x3)
     = Ok (legacy_fs ++ [(["bm_npy"; "data.npy"], NPY (np := example_numpy) matrix_2x3)])%list
  /\ np_load (legacy_fs ++ [(["bm_npy"; "data.npy"], NPY (np := example_numpy) matrix_2x3)])%list ["bm_npy"; "data.npy"]
     = Ok (PArr matrix_2x3)
  /\ (let r := fst (convert legacy_fs ["bm"; "data.mat"] None) in
      let c := compare_matrices (np := example_numpy) matrix_2x3 matrix_2x3 "data.mat" in
      verification r = ArrayVerification c
      /\ ((values_equal c = true
           /\ success r = true /\ warnings r = [] /\ errors r = [])
          \/ (values_equal c = false /\ transposed_equal c = true
              /\ success r = false /\ errors r = []
              /\ warnings r = ["Arrays differ but one is transposed of the other"])
          \/ (values_equal c = false /\ transposed_equal c = false
              /\ success r = false /\ warnings r = []
              /\ errors r = ["Arrays are different (not just transposed)"]))).
Proof.
  assert (H1 : load_mat_correctly (np := example_numpy) legacy_fs ["bm"; "data.mat"] None
               = Ok (PArr matrix_2x3, legacy_meta)) by reflexivity.
  assert (H2 : derive_npy_path bm ["bm"; "data.mat"] None = Ok ["bm_npy"; "data.npy"])
    by reflexivity.
  assert (H3 : np_save (np := example_numpy) legacy_fs ["bm_npy"; "data.npy"] (PArr matrix_2x3)
               = Ok (legacy_fs ++ [(["bm_npy"; "data.npy"], NPY (np := example_numpy) matrix_2x3)])%list)
    by reflexivity.
  assert (H4 : np_load (legacy_fs ++ [(["bm_npy"; "data.npy"], NPY (np := example_numpy) matrix_2x3)])%list
                 ["bm_npy"; "data.npy"] = Ok (PArr matrix_2x3)) by reflexivity.
  split; [exact H1|]. split; [exact H2|]. split; [exact H3|]. split; [exact H4|].
  exact (C1_array_outcome_classification (np := example_numpy) bm legacy_fs ["bm"; "data.mat"] None matrix_2x3 legacy_meta
           ["bm_npy"; "data.npy"] _ matrix_2x3 H1 H2 H3 H4).
Defined.

(** C2 on scenario 2: the 3x2 stored array comes back as the 2x3 matrix. *)
Lemma C2_h5_rank2_transposed_witness :
  h5py_File hdf5_fs ["bm"; "data.mat"] = Ok hdf5_file
  /\ dict_get (h5_members hdf5_file) "data" = Some column_major
  /\ load_mat_correctly (np := example_numpy) hdf5_fs ["bm"; "data.mat"] None
     = Ok (PArr matrix_2x3, hdf5_meta)
  /\ exists v loaded,
       materialized (np := example_numpy) hdf5_file "data" [3; 2]%nat (F64buf [1; 4; 2; 5; 3; 6]%float)
       = Ok v
       /\ (buf_dtype (F64buf (O := pyvalue) [1; 4; 2; 5; 3; 6]%float) <> object ->
           v = read_dataset [3; 2]%nat (F64buf [1; 4; 2; 5; 3; 6]%float))
       /\ match v with
          | PArr a =>
              if (2 <=? ndim a)%nat then
                loaded = PArr (transpose a)
                /\ In (LoadedVariable "data" original_shape (shape a) (str_dtype (arr_dtype a)))
                      (loaded_variables hdf5_meta)
                /\ transpose_applied hdf5_meta = true
              else loaded = v
          | _ => loaded = v
          end
       /\ (PArr matrix_2x3 = loaded
           \/ (exists d, PArr matrix_2x3 = PDict d /\ dict_get d "data" = Some loaded)
           \/ (exists name, @None string = Some name /\ name <> "data"))
       /\ ((@None string = Some "data" /\ "data" <> "")
           \/ dict_keys (h5_members hdf5_file) = ["data"] -> PArr matrix_2x3 = loaded).
Proof.
  assert (H1 : h5py_File hdf5_fs ["bm"; "data.mat"] = Ok hdf5_file) by reflexivity.
  assert (H2 : dict_get (h5_members hdf5_file) "data" = Some column_major) by reflexivity.
  assert (H3 : load_mat_correctly (np := example_numpy) hdf5_fs ["bm"; "data.mat"] None
               = Ok (PArr matrix_2x3, hdf5_meta)) by reflexivity.
  split; [exact H1|]. split; [exact H2|]. split; [exact H3|].
  exact (C2_h5_rank2_transposed (np := example_numpy) hdf5_fs ["bm"; "data.mat"] None hdf5_file
           "data" _ _ _ _ H1 H2 H3).
Defined.



(** C4, where detection is stated never to raise: a path that
    names no file and whose name holds the lone surrogate U+D800.
    [h5py.File] hands the name to [os.fsencode] before it opens anything;
    the [UnicodeEncodeError] it raises is no [OSError], so the first
    [except] clause does not apply and the exception leaves
    [detect_mat_version].  A missing file with an ordinary name gives
    ['unknown']. *)
Lemma C4_detection_raises_on_unencodable_path :
  fs_lookup [] ["bm"; surrogate_name] = None
  /\ detect_mat_version [] ["bm"; surrogate_name]
     = Raise (Exn UnicodeEncodeError
                "'utf-8' codec can't encode character '\ud800' in position 3: surrogates not allowed")
  /\ detect_mat_version [] ["bm"; "data.mat"] = Ok "unknown".
Proof. split; [reflexivity|]. split; vm_compute; reflexivity. Qed.

(** The order of the two readers can be observed: a file with a MAT
    header of version 5 in its first bytes and an HDF5 container behind
    it is read by both, and the answer is that of h5py. *)
Example detection_prefers_hdf5 :
  loadmat both_fs ["bm"; "both.mat"] true
  = Ok (loadmat_dict true
          [MatVariable "data" true false [2; 3]%nat (F64buf [1; 2; 3; 4; 5; 6]%float)])
  /\ detect_mat_version both_fs ["bm"; "both.mat"] = Ok "v7.3".
Proof. split; reflexivity. Qed.


(** The same file system stops the batch run before any conversion: the
    [mkdir] of the first loop raises outside every handler. *)
Example batch_aborts_on_occupied_root :
  fst (batch_convert_with_verification (np := example_numpy) bm occupied_fs)
  = Raise (file_exists ["bm_npy"]).
Proof. reflexivity. Qed.

(** The batch run over a good file, a dictionary payload and a broken file
    reports all three. *)
Example batch_reports_every_file :
  let fs := (legacy_fs ++ two_variables_fs ++ broken_fs)%list in
  match fst (batch_convert_with_verification (np := example_numpy) bm fs) with
  | Ok results =>
      map (fun kr => (fst kr, success (snd kr))) results
      = [("bm/data.mat", true); ("bm/pair.mat", false); ("bm/broken.mat", false)]
  | Raise _ => False
  end.
Proof. vm_compute. reflexivity. Qed.

(** C6, on a legacy file with two variables.  The loader returns the
    dictionary [{a, b}]; [np.save] pickles it inside a zero-dimensional
    object array and [np.load] returns that array, not a dictionary.  The
    key sets before and after are the same, yet the result is a failure
    with a type error: the key comparison is never reached. *)
Lemma C6_dict_payload_rejected_after_round_trip :
  let p := ["bm"; "pair.mat"] in
  let d := [("a", PArr (NdArray [1; 1]%nat (F64buf [1%float])));
            ("b", PArr (NdArray [1; 1]%nat (F64buf [2%float])))] in
  let r := fst (convert two_variables_fs p None) in
  let fs' := snd (convert two_variables_fs p None) in
  fmap_fst (load_mat_correctly (np := example_numpy) two_variables_fs p None) = Ok (PDict d)
  /\ np_load fs' ["bm_npy"; "pair.npy"] = Ok (PArr (NdArray [] (Objbuf [PDict d])))
  /\ set_eqb (key_set d) (key_set d) = true
  /\ success r = false
  /\ verification r = NoVerification
  /\ errors r = ["Types differ: <class 'dict'> vs <class 'numpy.ndarray'>"].
Proof. vm_compute. repeat split. Qed.

(** C7, on scenario 1: the first pass succeeds and writes
    [bm_npy/data.npy]; the second pass, given that file, compares nothing,
    so there is no [values_equal] to be true. *)
Lemma C7_second_pass_counterexample :
  let first := convert legacy_fs ["bm"; "data.mat"] None in
  let second := fst (convert (snd first) ["bm_npy"; "data.npy"] None) in
  success (fst first) = true
  /\ output_file (fst first) = Some "bm_npy/data.npy"
  /\ success second = false
  /\ load_meta second = None
  /\ errors second = ["Unknown mat file type, version 32, 32"]
  /\ ~ (exists c, verification second = ArrayVerification c /\ values_equal c = true).
Proof.
  cbv zeta. split; [vm_compute; reflexivity|]. split; [vm_compute; reflexivity|].
  split; [vm_compute; reflexivity|]. split; [vm_compute; reflexivity|].
  split; [vm_compute; reflexivity|].
  intros (c & Hc & _). vm_compute in Hc. discriminate.
Qed.

(** C7 on scenario 1 and its output file, for a numpy whose files
    neither h5py nor scipy can read. *)
Lemma C7_second_pass_rejects_output_witness :
  derive_npy_path bm ["bm"; "data.mat"] None = Ok ["bm_npy"; "data.npy"]
  /\ success (fst (convert legacy_fs ["bm"; "data.mat"] None)) = true
  /\ (let fs1 := snd (convert legacy_fs ["bm"; "data.mat"] None) in
      let out := npy_filename ["bm_npy"; "data.npy"] in
      exists v meta,
        load_mat_correctly (np := example_numpy) legacy_fs ["bm"; "data.mat"] None = Ok (v, meta)
        /\ fs_lookup fs1 out = Some (NPY (np := example_numpy) (asanyarray v))
        /\ forall e,
             npy_as_hdf5 (Numpy := example_numpy) (asanyarray v) = None ->
             npy_as_mat (Numpy := example_numpy) (asanyarray v) = Raise e ->
             detect_mat_version fs1 out = Ok "unknown"
             /\ forall self2 npy2,
                  let r2 := fst (convert_and_verify (np := example_numpy) self2 fs1 out npy2) in
                  success r2 = false
                  /\ verification r2 = NoVerification
                  /\ load_meta r2 = None
                  /\ errors r2 = [str_exn e]
                  /\ snd (convert_and_verify (np := example_numpy) self2 fs1 out npy2) = fs1).
Proof.
  assert (H1 : derive_npy_path bm ["bm"; "data.mat"] None = Ok ["bm_npy"; "data.npy"])
    by reflexivity.
  assert (H2 : success (fst (convert legacy_fs ["bm"; "data.mat"] None)) = true)
    by reflexivity.
  split; [exact H1|]. split; [exact H2|].
  exact (C7_second_pass_rejects_output (np := example_numpy) bm legacy_fs ["bm"; "data.mat"] None _ H1 H2).
Defined.

(** The hypothesis on the bytes matters: with a numpy whose array files
    carry an HDF5 image of their data, the output of scenario 1 is opened
    by h5py on the second pass, which then succeeds - after a
    transposition. *)
Example second_pass_on_embedded_container :
  let first := convert_and_verify (np := image_numpy) bm legacy_fs ["bm"; "data.mat"] None in
  let second := fst (convert_and_verify (np := image_numpy) bm (snd first)
                       ["bm_npy"; "data.npy"] (Some ["again.npy"])) in
  success (fst first) = true
  /\ detect_mat_version (snd first) ["bm_npy"; "data.npy"] = Ok "v7.3"
  /\ success second = true
  /\ option_map transpose_applied (load_meta second) = Some true.
Proof. vm_compute. repeat split. Qed.

(** C9 on scenario 1: inspected and loaded shape are both (2, 3). *)
Lemma C9_inspected_shape_matches_meta_witness :
  let vi := VarInfo "data" "ndarray" (Some [2; 3]%nat) (Some "float64") false None in
  let lv := LoadedVariable "data" plain_shape [2; 3]%nat "float64" in
  load_mat_correctly (np := example_numpy) legacy_fs ["bm"; "data.mat"] None
  = Ok (PArr matrix_2x3, legacy_meta)
  /\ In vi (variables (inspect_mat_file_deep legacy_fs ["bm"; "data.mat"]))
  /\ In lv (loaded_variables legacy_meta)
  /\ vi_name vi = lv_name lv
  /\ ((lv_key lv = plain_shape /\ transpose_applied legacy_meta = false
       /\ vi_shape vi = Some (lv_shape lv))
      \/ (lv_key lv = original_shape /\ transpose_applied legacy_meta = true
          /\ exists f sh b a,
               h5py_File legacy_fs ["bm"; "data.mat"] = Ok f
               /\ dict_get (h5_members f) (lv_name lv) = Some (H5Dataset sh b)
               /\ materialized (np := example_numpy) f (lv_name lv) sh b = Ok (PArr a)
               /\ (2 <=? ndim a)%nat = true
               /\ lv_shape lv = shape a
               /\ vi_shape vi = Some sh
               /\ (buf_dtype b <> object -> vi_shape vi = Some (lv_shape lv)))).
Proof.
  cbv zeta.
  assert (H1 : load_mat_correctly (np := example_numpy) legacy_fs ["bm"; "data.mat"] None
               = Ok (PArr matrix_2x3, legacy_meta)) by reflexivity.
  assert (H2 : In (VarInfo "data" "ndarray" (Some [2; 3]%nat) (Some "float64") false None)
                 (variables (inspect_mat_file_deep legacy_fs ["bm"; "data.mat"])))
    by (left; reflexivity).
  assert (H3 : In (LoadedVariable "data" plain_shape [2; 3]%nat "float64")
                 (loaded_variables legacy_meta)) by (left; reflexivity).
  split; [exact H1|]. split; [exact H2|]. split; [exact H3|]. split; [reflexivity|].
  exact (C9_inspected_shape_matches_meta (np := example_numpy) legacy_fs ["bm"; "data.mat"] None
           _ _ _ _ H1 H2 H3 eq_refl).
Defined.

(* ================================================================== *)
(** * Finite floats pass the relative test against themselves          *)
(* ================================================================== *)

(** One right shift of a mantissa of at least two digits. *)
Lemma shr_1_pos : forall m r s,
  1 < Zpos (digits2_pos m) ->
  exists m' r' s',
    shr_1 (Build_shr_record (Zpos m) r s) = Build_shr_record (Zpos m') r' s'
    /\ Zpos (digits2_pos m') = Zpos (digits2_pos m) - 1.
Proof.
  intros m r s Hm. destruct m as [p|p|]; cbn [shr_1 digits2_pos] in *.
  - eexists _, _, _. split; [reflexivity | lia].
  - eexists _, _, _. split; [reflexivity | lia].
  - lia.
Qed.

(** Shifting by fewer digits than the mantissa has leaves it positive. *)
Lemma iter_shr_1_pos : forall p m r s,
  Zpos p < Zpos (digits2_pos m) ->
  exists m' r' s',
    iter_pos shr_1 p (Build_shr_record (Zpos m) r s) = Build_shr_record (Zpos m') r' s'
    /\ Zpos (digits2_pos m') = Zpos (digits2_pos m) - Zpos p.
Proof.
  induction p as [p IH|p IH|]; intros m r s Hp; cbn [iter_pos].
  - destruct (shr_1_pos m r s) as (m1 & r1 & s1 & -> & H1); [lia|].
    destruct (IH m1 r1 s1) as (m2 & r2 & s2 & -> & H2); [lia|].
    destruct (IH m2 r2 s2) as (m3 & r3 & s3 & -> & H3); [lia|].
    eexists _, _, _. split; [reflexivity | lia].
  - destruct (IH m r s) as (m2 & r2 & s2 & -> & H2); [lia|].
    destruct (IH m2 r2 s2) as (m3 & r3 & s3 & -> & H3); [lia|].
    eexists _, _, _. split; [reflexivity | lia].
  - apply shr_1_pos. lia.
Qed.

(** Above the smallest exponent, the shift to the working precision keeps
    a positive mantissa positive. *)
Lemma shr_fexp_pos : forall m e l,
  emin <= e ->
  exists m' r' s' e',
    shr_fexp prec emax (Zpos m) e l = (Build_shr_record (Zpos m') r' s', e')
    /\ emin <= e'.
Proof.
  intros m e l He. unfold shr_fexp, shr. cbn [Zdigits2].
  assert (Hrec : exists r s, shr_record_of_loc (Zpos m) l = Build_shr_record (Zpos m) r s).
  { destruct l as [|[| |]]; eexists _, _; reflexivity. }
  destruct Hrec as (r & s & ->).
  destruct (fexp prec emax (Zpos (digits2_pos m) + e) - e) as [|p|p] eqn:Hn.
  - eexists _, _, _, _. split; [reflexivity | exact He].
  - destruct (iter_shr_1_pos p m r s) as (m' & r' & s' & -> & _).
    + unfold fexp, SpecFloat.emin, prec, emax in *. lia.
    + eexists _, _, _, _. split; [reflexivity | lia].
  - eexists _, _, _, _. split; [reflexivity | exact He].
Qed.

(** Rounding a positive mantissa above the smallest exponent gives a
    number that is neither zero nor a NaN. *)
Lemma binary_round_aux_pos : forall sx m e l,
  emin <= e ->
  (exists m' e', binary_round_aux prec emax sx (Zpos m) e l = S754_finite sx m' e')
  \/ binary_round_aux prec emax sx (Zpos m) e l = S754_infinity sx.
Proof.
  intros sx m e l He. unfold binary_round_aux.
  destruct (shr_fexp_pos m e l He) as (m1 & r1 & s1 & e1 & -> & He1).
  cbn [shr_m].
  assert (Hround : exists m2,
    round_nearest_even (Zpos m1) (loc_of_shr_record (Build_shr_record (Zpos m1) r1 s1))
    = Zpos m2).
  { destruct r1, s1; cbn [loc_of_shr_record round_nearest_even];
      first [eexists; reflexivity | destruct (Z.even (Zpos m1)); eexists; reflexivity]. }
  destruct Hround as (m2 & ->).
  destruct (shr_fexp_pos m2 e1 loc_Exact He1) as (m3 & r3 & s3 & e3 & -> & _).
  cbn [shr_m]. destruct (Z.leb e3 (emax - prec)).
  - left. eexists _, _. reflexivity.
  - right. reflexivity.
Qed.

Lemma binary_round_pos : forall sx m e,
  emin <= e ->
  (exists m' e', binary_round prec emax sx m e = S754_finite sx m' e')
  \/ binary_round prec emax sx m e = S754_infinity sx.
Proof.
  intros sx m e He. unfold binary_round, shl_align.
  destruct (fexp prec emax (Zpos (digits2_pos m) + e) - e) as [|p|p] eqn:Hn;
    apply binary_round_aux_pos; try exact He.
  unfold fexp, SpecFloat.emin, prec, emax in *. lia.
Qed.

(** The exponent of a float is at least the smallest one. *)
Lemma valid_binary_emin : forall s m e,
  valid_binary (S754_finite s m e) = true -> emin <= e.
Proof.
  intros s m e H. unfold valid_binary, bounded, canonical_mantissa in H.
  apply andb_true_iff in H as [H _]. apply Z.eqb_eq in H.
  unfold fexp, SpecFloat.emin, prec, emax in *. lia.
Qed.

(** The sum of two positive floats is positive or infinite. *)
Lemma SFadd_pos : forall m1 e1 m2 e2,
  emin <= e1 -> emin <= e2 ->
  (exists m e, SF64add (S754_finite false m1 e1) (S754_finite false m2 e2)
               = S754_finite false m e)
  \/ SF64add (S754_finite false m1 e1) (S754_finite false m2 e2) = S754_infinity false.
Proof.
  intros m1 e1 m2 e2 H1 H2. unfold SF64add, SFadd. cbn [cond_Zopp].
  cbn [Z.add binary_normalize]. apply binary_round_pos. lia.
Qed.

(** A finite float passes the relative test against itself. *)
Lemma rel_diff_finite : forall x,
  F64.is_finite x = true -> PrimFloat.ltb (rel_diff x x) 1e-10%float = true.
Proof.
  intros x Hx. unfold F64.is_finite in Hx. rewrite classify_spec in Hx.
  rewrite FloatAxioms.ltb_spec. unfold rel_diff.
  rewrite FloatAxioms.div_spec, FloatAxioms.abs_spec, FloatAxioms.sub_spec,
    FloatAxioms.add_spec, FloatAxioms.abs_spec.
  pose proof (Prim2SF_valid x) as Hvalid.
  assert (H10 : Prim2SF 1e-10%float = S754_finite false 7737125245533627 (-86))
    by (vm_compute; reflexivity).
  rewrite H10.
  destruct (Prim2SF x) as [s|s| |s m e]; cbn [SF64classify SFclassify] in Hx.
  - destruct s; reflexivity.
  - destruct s; discriminate.
  - discriminate.
  - assert (Hsub : SF64sub (S754_finite s m e) (S754_finite s m e) = S754_zero false).
    { unfold SF64sub, SFsub. now rewrite Z.sub_diag. }
    rewrite Hsub. cbn [SFabs].
    apply valid_binary_emin in Hvalid.
    destruct (SFadd_pos m e 7737125245533627 (-86) Hvalid) as [(m' & e' & ->)| ->];
      [unfold SpecFloat.emin, prec, emax; lia | reflexivity | reflexivity].
Qed.
(* ================================================================== *)
(** * Further properties of the converter                              *)
(* ================================================================== *)

Section Pipeline.

Context {np : Numpy}.

Ltac se_run :=
  unfold bind, lift, gets, modify, ret, try_catch, on_result, set_fs in *;
  cbn [fst snd cv_fs cv_result] in *.

(** The only file [convert_and_verify] can change is the one [np.save]
    writes. *)
Lemma convert_and_verify_fs : forall self fs p npy,
  snd (convert_and_verify self fs p npy) = fs
  \/ exists q loaded c,
       load_mat_correctly fs p None = Ok loaded
       /\ derive_npy_path self p npy = Ok q
       /\ snd (convert_and_verify self fs p npy) = fs_write fs (npy_filename q) c.
Proof.
  intros self fs p npy. rewrite convert_and_verify_unfold.
  destruct (load_mat_correctly fs p None) as [loaded|e]; [|now left].
  destruct (derive_npy_path self p npy) as [q|e]; [|now left]. cbn zeta.
  destruct (np_save fs q (fst loaded)) as [fs'|e] eqn:Hsave.
  - apply np_save_writes in Hsave. right. exists q, loaded, (NPY (asanyarray (fst loaded))).
    split; [reflexivity|]. split; [reflexivity|].
    destruct (np_load fs' q) as [npy_data|e]; [|exact Hsave].
    cbn [snd].
    match goal with |- context [verify ?a ?b ?c ?s] =>
      pose proof (verify_ok a b c s) as [_ Hv] end.
    rewrite Hv. exact Hsave.
  - destruct (mkdir_parents fs (parent q)) as [[]|e']; [|now left].
    cbn [snd]. unfold np_save_failed.
    destruct (open_for_writing fs (npy_filename q)); [|now left].
    right. exists q, loaded, (npy_truncated (asanyarray (fst loaded))). now repeat split.
Qed.

(** X1. [convert_and_verify] changes at most one file: every path other
    than the one [np.save] writes to (the output path, with [.npy] appended
    when it lacks it) holds after the call what it held before - the
    input file included, unless it is that very path. *)
Theorem convert_and_verify_frame : forall self fs p npy q',
  (forall q, derive_npy_path self p npy = Ok q -> q' <> npy_filename q) ->
  fs_lookup (snd (convert_and_verify self fs p npy)) q' = fs_lookup fs q'.
Proof.
  intros self fs p npy q' Hq'.
  destruct (convert_and_verify_fs self fs p npy) as [->|(q & loaded & c & _ & Hq & ->)];
    [reflexivity|].
  apply fs_lookup_write_other. now apply Hq'.
Qed.

(** X2. With the default output path ([npy_file_path] left [None]) the
    path step 3 derives already ends in [.npy], so [np.save] writes under
    exactly that name and the [np.load] of step 5 reads back the array that
    was saved: the load-back cannot fail once the save succeeded. *)
Theorem default_output_read_back : forall self fs p q v fs',
  derive_npy_path self p None = Ok q ->
  np_save fs q v = Ok fs' ->
  npy_filename q = q /\ np_load fs' q = Ok (PArr (asanyarray v)).
Proof.
  intros self fs p q v fs' Hq Hsave.
  destruct (derived_path_endswith self p q Hq) as [_ Hend]. split.
  - now apply npy_filename_fixed.
  - now apply np_load_saved with (fs := fs).
Qed.


(** X4. With an explicit output path that does not end in [.npy] but
    names an array file already there, the check compares the loaded data
    with that older file, not with what was just written: the verdict is
    the comparison with the old array, the old file is untouched and the
    new data lies under the name with [.npy] appended. *)
Theorem stale_file_is_compared : forall self fs p q mat_arr meta old fs',
  load_mat_correctly fs p None = Ok (PArr mat_arr, meta) ->
  q <> [] ->
  endswith (str_path q) ".npy" = false ->
  fs_lookup fs q = Some (NPY old) ->
  np_save fs q (PArr mat_arr) = Ok fs' ->
  let r := fst (convert_and_verify self fs p (Some q)) in
  let fs1 := snd (convert_and_verify self fs p (Some q)) in
  verification r = ArrayVerification (compare_matrices mat_arr old (path_name p))
  /\ success r = values_equal (compare_matrices mat_arr old (path_name p))
  /\ fs_lookup fs1 q = Some (NPY old)
  /\ fs_lookup fs1 (npy_filename q) = Some (NPY mat_arr).
Proof.
  intros self fs p q mat_arr meta old fs' Hload Hq Hend Hold Hsave.
  rewrite convert_and_verify_unfold, Hload. cbn [derive_npy_path fst snd]. cbn zeta.
  rewrite Hsave. apply np_save_writes in Hsave. cbn [asanyarray] in Hsave.
  assert (Hq' : fs_lookup fs' q = Some (NPY old)).
  { subst fs'. rewrite fs_lookup_write_other; [exact Hold|].
    intros H. now apply (npy_filename_moves q Hq Hend). }
  assert (Hback : np_load fs' q = Ok (PArr old))
    by (unfold np_load; rewrite Hq'; reflexivity).
  rewrite Hback. cbn [fst snd].
  match goal with |- context [verify ?a ?b ?c ?s] =>
    pose proof (verify_ok a b c s) as [_ Hv];
    pose proof (verify_arrays mat_arr old c s) as Ha end.
  cbn zeta in Ha. destruct Ha as (Hver & _ & _ & _ & Hcase).
  rewrite Hv. cbn [cv_fs]. split; [exact Hver|]. split.
  - destruct (values_equal _).
    + now destruct Hcase.
    + destruct (transposed_equal _); now destruct Hcase.
  - split; [exact Hq'|]. subst fs'. apply fs_lookup_write_same.
Qed.

(** ** Arrays of numbers through the pipeline *)

(** With an output name that carries the extension, an array of numbers is
    compared with itself. *)
Lemma round_trip_result : forall self fs p npy a meta q fs',
  load_mat_correctly fs p None = Ok (PArr a, meta) ->
  derive_npy_path self p npy = Ok q ->
  endswith (str_path q) ".npy" = true ->
  np_save fs q (PArr a) = Ok fs' ->
  let r := fst (convert_and_verify self fs p npy) in
  let c := compare_matrices a a (path_name p) in
  verification r = ArrayVerification c
  /\ (if values_equal c
      then success r = true /\ warnings r = [] /\ errors r = []
      else if transposed_equal c
      then success r = false /\ errors r = []
           /\ warnings r = ["Arrays differ but one is transposed of the other"]
      else success r = false /\ warnings r = []
           /\ errors r = ["Arrays are different (not just transposed)"])
  /\ fs_lookup (snd (convert_and_verify self fs p npy)) q = Some (NPY a).
Proof.
  intros self fs p npy a meta q fs' Hload Hq Hend Hsave.
  rewrite convert_and_verify_unfold, Hload, Hq. cbn [fst snd]. cbn zeta.
  rewrite Hsave, (np_load_saved fs q (PArr a) _ Hend Hsave).
  apply np_save_writes in Hsave. subst fs'.
  cbn [asanyarray fst snd].
  match goal with |- context [verify ?x ?y ?c ?s] =>
    pose proof (verify_ok x y c s) as [_ Hv];
    pose proof (verify_arrays a a c s) as Ha end.
  cbn zeta in Ha. destruct Ha as (Hver & _ & _ & _ & Hcase).
  rewrite Hv. cbn [cv_fs cv_result] in *. split; [exact Hver|]. split.
  - destruct (values_equal _); [exact Hcase|].
    destruct (transposed_equal _); exact Hcase.
  - rewrite (npy_filename_fixed q Hend). apply fs_lookup_write_same.
Qed.

Lemma shape_eqb_refl : forall sh, shape_eqb sh sh = true.
Proof. intros sh. now apply shape_eqb_eq. Qed.

Lemma all2_Zeqb_refl : forall zs, all2 Z.eqb zs zs = true.
Proof.
  intros zs. unfold all2. induction zs as [|z zs IH]; cbn; [reflexivity|].
  now rewrite Z.eqb_refl, IH.
Qed.

Lemma zip_with_diag : forall {A B} (f : A -> A -> B) xs,
  zip_with f xs xs = map (fun x => f x x) xs.
Proof.
  intros A B f xs. unfold zip_with. induction xs as [|x xs IH]; cbn; [reflexivity|].
  now rewrite IH.
Qed.

(** An integer array always equals itself. *)
Lemma self_compare_int : forall sh zs name,
  values_equal (compare_matrices (NdArray sh (I64buf zs)) (NdArray sh (I64buf zs)) name) = true.
Proof.
  intros sh zs name. unfold compare_matrices, values_check. cbn [values_equal shape buf].
  rewrite shape_eqb_refl. cbn. unfold np_array_equal. cbn [shape buf].
  rewrite shape_eqb_refl. cbn. apply all2_Zeqb_refl.
Qed.

(** A floating array equals itself when it is not empty and every element
    passes the relative test against itself. *)
Lemma self_compare_float : forall sh xs name,
  values_equal (compare_matrices (NdArray sh (F64buf xs)) (NdArray sh (F64buf xs)) name) = true
  <-> xs <> [] /\ Forall (fun x => PrimFloat.ltb (rel_diff x x) 1e-10%float = true) xs.
Proof.
  intros sh xs name. unfold compare_matrices, values_check. cbn [values_equal shape buf].
  rewrite shape_eqb_refl. cbn [arr_dtype buf buf_dtype is_floating].
  unfold max_rel_diff_check. cbn [buf as_floats]. rewrite zip_with_diag.
  pose proof (np_max_below (map (fun x => rel_diff x x) xs) 1e-10%float) as H.
  rewrite Forall_map in H.
  assert (Hmap : map (fun x => rel_diff x x) xs <> [] <-> xs <> []).
  { destruct xs; cbn; split; intros; congruence. }
  rewrite Hmap in H. rewrite <- H. clear H Hmap.
  destruct (np_max _) as [m|e]; cbn.
  - split.
    + intros Hm. now exists m.
    + intros (m' & Hm' & Hlt). injection Hm' as ->. exact Hlt.
  - split; [discriminate|]. intros (m' & Hm' & _). discriminate.
Qed.

(** A NaN or an infinity fails the relative test against itself. *)
Lemma rel_diff_not_finite : forall x,
  F64.is_finite x = false -> PrimFloat.ltb (rel_diff x x) 1e-10%float = false.
Proof.
  intros x Hx. unfold F64.is_finite in Hx. rewrite classify_spec in Hx.
  rewrite FloatAxioms.ltb_spec. unfold rel_diff.
  rewrite FloatAxioms.div_spec, FloatAxioms.abs_spec, FloatAxioms.sub_spec, FloatAxioms.add_spec, FloatAxioms.abs_spec.
  destruct (Prim2SF x) as [s|s| |s m e]; cbn [SF64classify SFclassify] in Hx.
  - destruct s; discriminate.
  - destruct s; reflexivity.
  - reflexivity.
  - destruct s; destruct (Z.eqb _ _); discriminate.
Qed.

(** Nothing is close to a NaN. *)
Lemma np_isclose_nan : forall rtol atol x y,
  PrimFloat.is_nan y = true -> np_isclose rtol atol x y = false.
Proof.
  intros rtol atol x y Hy. unfold np_isclose.
  unfold PrimFloat.is_nan in Hy. rewrite FloatAxioms.eqb_spec in Hy.
  apply negb_true_iff in Hy. apply SFeqb_refl_nan in Hy.
  unfold F64.is_finite. rewrite classify_spec, Hy. cbn.
  rewrite andb_false_r. cbn. rewrite FloatAxioms.eqb_spec, Hy.
  destruct (Prim2SF x) as [s|s| |s m e]; reflexivity.
Qed.

Lemma nan_not_finite : forall x, PrimFloat.is_nan x = true -> F64.is_finite x = false.
Proof.
  intros x Hx. unfold PrimFloat.is_nan in Hx. rewrite FloatAxioms.eqb_spec in Hx.
  apply negb_true_iff in Hx. apply SFeqb_refl_nan in Hx.
  unfold F64.is_finite. now rewrite classify_spec, Hx.
Qed.

Lemma transpose_list_length : forall {A} sh (xs : list A),
  length (transpose_list sh xs) = length xs.
Proof.
  intros A sh xs. unfold transpose_list. destruct xs as [|x0 t]; [reflexivity|].
  now rewrite length_map, length_seq.
Qed.

(** A list with a NaN is close to no list of its length. *)
Lemma all2_isclose_nan : forall rtol atol xs ys y,
  length xs = length ys -> In y ys -> PrimFloat.is_nan y = true ->
  all2 (np_isclose rtol atol) xs ys = false.
Proof.
  intros rtol atol xs ys y Hlen Hin Hnan. unfold all2.
  revert xs Hlen. induction ys as [|y0 ys IH]; intros xs Hlen; [destruct Hin|].
  destruct xs as [|x xs]; [discriminate|]. cbn.
  destruct Hin as [->|Hin].
  - now rewrite np_isclose_nan.
  - rewrite IH; [apply andb_false_r | exact Hin | now injection Hlen].
Qed.

(** X5. An integer array that can be written is always certified: when
    the loader returns an [int64] array, the output name ends in [.npy]
    and [np.save] succeeds, the result has [success = True] with no
    warning and no error, and the output file holds that array. *)
Theorem integer_array_certified : forall self fs p npy sh zs meta q fs',
  load_mat_correctly fs p None = Ok (PArr (NdArray sh (I64buf zs)), meta) ->
  derive_npy_path self p npy = Ok q ->
  endswith (str_path q) ".npy" = true ->
  np_save fs q (PArr (NdArray sh (I64buf zs))) = Ok fs' ->
  let r := fst (convert_and_verify self fs p npy) in
  success r = true /\ warnings r = [] /\ errors r = []
  /\ fs_lookup (snd (convert_and_verify self fs p npy)) q = Some (NPY (NdArray sh (I64buf zs))).
Proof.
  intros self fs p npy sh zs meta q fs' Hload Hq Hend Hsave.
  destruct (round_trip_result self fs p npy _ meta q fs' Hload Hq Hend Hsave)
    as (_ & Hcase & Hfs).
  rewrite self_compare_int in Hcase. cbn zeta. tauto.
Qed.

(** X6. A [float64] array that can be written is certified exactly when
    it is not empty and holds no NaN and no infinity: with an output name
    ending in [.npy] and a successful [np.save], [success] is [True] if
    and only if the array has an element and all its elements are finite
    (the relative difference of a finite number with itself is 0, of a NaN
    or an infinity it is NaN); a certified result has no warning and no
    error. *)
Theorem float_array_certified_iff_finite : forall self fs p npy sh xs meta q fs',
  load_mat_correctly fs p None = Ok (PArr (NdArray sh (F64buf xs)), meta) ->
  derive_npy_path self p npy = Ok q ->
  endswith (str_path q) ".npy" = true ->
  np_save fs q (PArr (NdArray sh (F64buf xs))) = Ok fs' ->
  let r := fst (convert_and_verify self fs p npy) in
  (success r = true <-> xs <> [] /\ Forall (fun x => F64.is_finite x = true) xs)
  /\ (success r = true -> warnings r = [] /\ errors r = []).
Proof.
  intros self fs p npy sh xs meta q fs' Hload Hq Hend Hsave.
  destruct (round_trip_result self fs p npy _ meta q fs' Hload Hq Hend Hsave)
    as (_ & Hcase & _).
  cbn zeta in *.
  pose proof (self_compare_float sh xs (path_name p)) as Hself.
  assert (Hfin : Forall (fun x => PrimFloat.ltb (rel_diff x x) 1e-10%float = true) xs
                 <-> Forall (fun x => F64.is_finite x = true) xs).
  { rewrite !Forall_forall. split; intros H x Hx; specialize (H x Hx).
    - destruct (F64.is_finite x) eqn:E; [reflexivity|].
      rewrite (rel_diff_not_finite x E) in H. discriminate.
    - now apply rel_diff_finite. }
  rewrite Hfin in Hself.
  destruct (values_equal _).
  - destruct Hcase as (Hs & Hw & He). split; [|tauto].
    rewrite Hs. split; [intros _; now apply Hself | reflexivity].
  - assert (Hs : success (fst (convert_and_verify self fs p npy)) = false)
      by (destruct (transposed_equal _); tauto).
    rewrite Hs. split; [|discriminate].
    split; [discriminate|]. intros H. apply Hself in H. discriminate.
Qed.

(** X7. A [float64] array that holds a NaN is reported as corrupted
    although the file written is faithful: when [np.save] succeeds under a
    name ending in [.npy], the result has [success = False], no warning
    and the single error [Arrays are different (not just transposed)],
    because a NaN is close to nothing, itself included, in both the direct
    and the transposed comparison. *)
Theorem nan_payload_rejected : forall self fs p npy sh xs meta q fs' x,
  load_mat_correctly fs p None = Ok (PArr (NdArray sh (F64buf xs)), meta) ->
  derive_npy_path self p npy = Ok q ->
  endswith (str_path q) ".npy" = true ->
  np_save fs q (PArr (NdArray sh (F64buf xs))) = Ok fs' ->
  In x xs ->
  PrimFloat.is_nan x = true ->
  let r := fst (convert_and_verify self fs p npy) in
  success r = false /\ warnings r = []
  /\ errors r = ["Arrays are different (not just transposed)"].
Proof.
  intros self fs p npy sh xs meta q fs' x Hload Hq Hend Hsave Hin Hnan.
  destruct (round_trip_result self fs p npy _ meta q fs' Hload Hq Hend Hsave)
    as (_ & Hcase & _).
  cbn zeta in *.
  assert (Hv : values_equal (compare_matrices (NdArray sh (F64buf xs))
                               (NdArray sh (F64buf xs)) (path_name p)) = false).
  { destruct (values_equal _) eqn:E; [|reflexivity].
    apply self_compare_float in E. destruct E as [_ E].
    rewrite Forall_forall in E. specialize (E x Hin).
    rewrite (rel_diff_not_finite x (nan_not_finite x Hnan)) in E. discriminate. }
  assert (Ht : transposed_equal (compare_matrices (NdArray sh (F64buf xs))
                                   (NdArray sh (F64buf xs)) (path_name p)) = false).
  { unfold compare_matrices, transposed_check. cbn [transposed_equal].
    destruct (_ && _)%bool; [|reflexivity].
    destruct (shape_eqb _ _); [|reflexivity].
    cbn [arr_dtype buf buf_dtype is_floating transpose transpose_buf shape].
    unfold allclose_check. cbn [buf as_floats try_except]. unfold np_allclose.
    apply all2_isclose_nan with (y := x); [apply transpose_list_length | exact Hin | exact Hnan]. }
  rewrite Hv, Ht in Hcase. exact Hcase.
Qed.

(** X8. Under an output name that ends in [.npy] - the default one
    always does - only arrays are certified: [success = True] implies that
    the loader returned an [ndarray]; and for any other payload (the
    dictionary of several variables, a scalar, a reference, a sparse
    matrix) that [np.save] writes, the result has [success = False], no
    comparison and the error [Types differ: <its type> vs <class
    'numpy.ndarray'>], since [np.load] returns the array [np.save]
    wrapped the value in. *)
Theorem only_arrays_certified :
  (forall self fs p npy q,
     derive_npy_path self p npy = Ok q ->
     endswith (str_path q) ".npy" = true ->
     success (fst (convert_and_verify self fs p npy)) = true ->
     exists v meta,
       load_mat_correctly fs p None = Ok (v, meta) /\ type_name v = "numpy.ndarray")
  /\ (forall self fs p npy v meta q fs',
        load_mat_correctly fs p None = Ok (v, meta) ->
        type_name v <> "numpy.ndarray" ->
        derive_npy_path self p npy = Ok q ->
        endswith (str_path q) ".npy" = true ->
        np_save fs q v = Ok fs' ->
        let r := fst (convert_and_verify self fs p npy) in
        success r = false
        /\ verification r = NoVerification
        /\ errors r = ["Types differ: " ++ repr_type v ++ " vs <class 'numpy.ndarray'>"]).
Proof.
  split.
  - intros self fs p npy q Hq Hend. rewrite convert_and_verify_unfold.
    destruct (load_mat_correctly fs p None) as [[v meta]|e]; [|discriminate].
    intros H. exists v, meta. split; [reflexivity|]. revert H. cbn [fst snd]. cbn zeta.
    rewrite Hq.
    destruct (np_save fs q v) as [fs'|e] eqn:Hsave;
      [|destruct (mkdir_parents fs (parent q)) as [[]|e']; discriminate].
    rewrite (np_load_saved _ _ _ _ Hend Hsave). cbn [fst].
    destruct v as [m|[x|z]|r|d|ssh sdt|t]; try reflexivity; cbn [verify type_name];
      try (se_run; cbn; discriminate).
    destruct (String.eqb t "numpy.ndarray") eqn:E.
    + intros _. now apply String.eqb_eq.
    + se_run. cbn. discriminate.
  - intros self fs p npy v meta q fs' Hload Hv Hq Hend Hsave.
    rewrite convert_and_verify_unfold, Hload, Hq. cbn [fst snd]. cbn zeta.
    rewrite Hsave, (np_load_saved _ _ _ _ Hend Hsave).
    destruct v as [m|[x|z]|r|d|ssh sdt|t]; try (now destruct Hv); cbn [verify type_name];
      try (se_run; cbn; repeat split; reflexivity).
    destruct (String.eqb t "numpy.ndarray") eqn:E.
    + apply String.eqb_eq in E. now destruct Hv.
    + se_run. cbn. repeat split; reflexivity.
Qed.

(** X9. In the pipeline the warning [Arrays differ but one is transposed
    of the other] can only arise for a square matrix of floating type
    without NaN that is empty or holds an infinity: for an array of
    numbers that [np.save] writes under a name ending in [.npy], a
    non-empty list of warnings implies all of that. *)
Theorem transposed_warning_is_rare : forall self fs p npy a meta q fs',
  load_mat_correctly fs p None = Ok (PArr a, meta) ->
  derive_npy_path self p npy = Ok q ->
  endswith (str_path q) ".npy" = true ->
  buf_dtype (buf a) <> object ->
  np_save fs q (PArr a) = Ok fs' ->
  warnings (fst (convert_and_verify self fs p npy)) <> [] ->
  exists n xs,
    shape a = [n; n] /\ is_floating (arr_dtype a) = true
    /\ as_floats (buf a) = Some xs
    /\ Forall (fun x => PrimFloat.is_nan x = false) xs
    /\ (xs = [] \/ exists x, In x xs /\ F64.is_finite x = false).
Proof.
  intros self fs p npy a meta q fs' Hload Hq Hend Hnum Hsave Hwarn.
  destruct (round_trip_result self fs p npy a meta q fs' Hload Hq Hend Hsave)
    as (_ & Hcase & _).
  cbn zeta in Hcase.
  destruct (values_equal (compare_matrices a a (path_name p))) eqn:Hv;
    [destruct Hcase as (_ & Hw & _); congruence|].
  destruct (transposed_equal (compare_matrices a a (path_name p))) eqn:Ht;
    [|destruct Hcase as (_ & Hw & _); congruence].
  clear Hcase Hwarn. destruct a as [sh b]. cbn [buf] in Hnum.
  unfold compare_matrices, transposed_check in Ht. cbn [transposed_equal] in Ht.
  unfold ndim in Ht. cbn [shape transpose] in Ht.
  destruct (length sh =? 2)%nat eqn:Hlen; [|discriminate]. cbn [andb] in Ht.
  destruct (shape_eqb sh (rev sh)) eqn:Hsq; [|discriminate].
  apply shape_eqb_eq in Hsq. apply Nat.eqb_eq in Hlen.
  destruct sh as [|n [|n' [|]]]; try discriminate. cbn in Hsq. injection Hsq as Hn _.
  subst n'. exists n.
  destruct b as [xs|zs|os]; [| |now destruct Hnum].
  - exists xs. split; [reflexivity|]. split; [reflexivity|]. split; [reflexivity|].
    cbn [arr_dtype buf buf_dtype is_floating] in Ht.
    unfold allclose_check, transpose in Ht.
    cbn [shape buf transpose_buf as_floats try_except] in Ht.
    unfold np_allclose in Ht. split.
    + apply Forall_forall. intros x Hx. destruct (PrimFloat.is_nan x) eqn:E; [|reflexivity].
      rewrite (all2_isclose_nan _ _ _ xs x (transpose_list_length _ xs) Hx E) in Ht.
      discriminate.
    + destruct xs as [|x0 xs']; [now left|]. right.
      destruct (existsb (fun x => negb (F64.is_finite x)) (x0 :: xs')) eqn:E.
      * apply existsb_exists in E. destruct E as (x & Hx & Hfin).
        exists x. split; [exact Hx | now apply negb_true_iff].
      * exfalso.
        assert (H : values_equal (compare_matrices (NdArray [n; n] (F64buf (x0 :: xs')))
                       (NdArray [n; n] (F64buf (x0 :: xs'))) (path_name p)) = true).
        { apply self_compare_float. split; [discriminate|].
          apply Forall_forall. intros x Hx. apply rel_diff_finite.
          destruct (F64.is_finite x) eqn:Hfin; [reflexivity|].
          assert (Hex : existsb (fun x => negb (F64.is_finite x)) (x0 :: xs') = true).
          { apply existsb_exists. exists x. split; [exact Hx | now rewrite Hfin]. }
          congruence. }
        congruence.
  - exfalso. rewrite self_compare_int in Hv. discriminate.
Qed.

End Pipeline.

(* ================================================================== *)
(** * Further properties of the loader                                 *)
(* ================================================================== *)

Section Loader.

Context {np : Numpy}.

(** The two branches of [load_mat_correctly], after the version test. *)
Lemma load_body_h5 : forall fs p vn f s,
  h5py_File fs p = Ok f ->
  load_body fs p vn s =
  bind (for_each (dict_keys (h5_members f)) (load_h5_key f)) (fun _ => select_variable vn)
       (on_meta (meta_set_version "v7.3") s).
Proof.
  intros fs p vn f s Hf. unfold load_body.
  unfold bind at 1. unfold lift at 1.
  rewrite (detect_v73 _ _ _ Hf).
  unfold bind at 1. unfold modify at 1.
  cbn [String.eqb Ascii.eqb Bool.eqb]. cbv iota.
  unfold bind at 1. unfold lift at 1. rewrite Hf. reflexivity.
Qed.

Lemma load_body_mat : forall fs p vn m s,
  legacy_file fs p m ->
  load_body fs p vn s =
  bind (for_each (filter (fun kv => negb (is_dunder (fst kv))) (loadmat_dict true m)) load_mat_key)
       (fun _ => select_variable vn)
       (on_meta (meta_set_version "v7.0_or_older") s).
Proof.
  intros fs p vn m s Hf. destruct (detect_legacy _ _ _ Hf) as [Hd Hm]. unfold load_body.
  unfold bind at 1. unfold lift at 1.
  rewrite Hd.
  unfold bind at 1. unfold modify at 1.
  cbn [String.eqb Ascii.eqb Bool.eqb]. cbv iota.
  unfold bind at 1. unfold lift at 1. rewrite Hm. reflexivity.
Qed.

(** A file neither reader accepts: the loader raises what scipy raised. *)
Lemma load_body_unreadable : forall fs p vn s e,
  detect_mat_version fs p = Ok "unknown" ->
  loadmat fs p true = Raise e ->
  fst (load_body fs p vn s) = Raise e.
Proof.
  intros fs p vn s e Hd Hm. unfold load_body.
  unfold bind at 1. unfold lift at 1. rewrite Hd.
  unfold bind at 1. unfold modify at 1.
  cbn [String.eqb Ascii.eqb Bool.eqb]. cbv iota.
  unfold bind at 1. unfold lift at 1. rewrite Hm. reflexivity.
Qed.

(** What the detection raises leaves the loader. *)
Lemma load_body_undetected : forall fs p vn s e,
  detect_mat_version fs p = Raise e ->
  fst (load_body fs p vn s) = Raise e.
Proof.
  intros fs p vn s e Hd. unfold load_body.
  unfold bind at 1. unfold lift at 1. now rewrite Hd.
Qed.

(** A loop raises when the body raises on one of its elements. *)
Lemma for_each_raises : forall {S X} (body : X -> SE S unit) xs x,
  In x xs ->
  (forall s, exists e s', body x s = (Raise e, s')) ->
  forall s, exists e s', for_each xs body s = (Raise e, s').
Proof.
  intros S X body xs x Hin Hbody. induction xs as [|y xs IH]; intros s; [destruct Hin|].
  cbn [for_each]. unfold bind.
  destruct Hin as [->|Hin].
  - destruct (Hbody s) as (e & s' & ->). now exists e, s'.
  - destruct (body y s) as [[[]|e] s1]; [apply (IH Hin)|now exists e, s1].
Qed.

(** When a dataset fails to materialise, with a numpy that has
    [np.object]. *)
Lemma materialized_raises : forall f key sh b,
  np_object_alias = Ok tt ->
  (exists e, materialized f key sh b = Raise e)
  <-> exists r rest e,
        sh = [] /\ b = Objbuf (PRef r :: rest) /\ h5_deref f r = Raise e.
Proof.
  intros f key sh b Hnp. unfold materialized, materialize.
  assert (Harr : forall raw (s : load_state),
    ~ exists e,
        fst (bind (lift np_object_alias) (fun _ =>
               match buf raw with
               | Objbuf items =>
                   try_catch
                     (bind (lift (dereference_all f items)) (fun dereferenced =>
                      bind (lift (np_array dereferenced)) (fun stacked =>
                      bind (lift (reshape stacked (shape raw))) (fun reshaped =>
                      ret (PArr reshaped)))))
                     (fun _ =>
                        bind (modify (on_meta (meta_add_warning
                                ("Could not dereference object array for '" ++ key ++ "'"))))
                             (fun _ => ret (PArr raw)))
               | _ => ret (PArr raw)
               end) s) = Raise e).
  { intros raw s [e H]. revert H. unfold bind at 1. unfold lift at 1. rewrite Hnp.
    destruct (buf raw) as [xs|zs|its]; try discriminate.
    unfold try_catch, bind, lift, ret, modify.
    destruct (dereference_all f its) as [l|]; [|discriminate].
    destruct (np_array l) as [a|]; [|discriminate].
    destruct (reshape a (shape raw)); discriminate. }
  destruct b as [xs|zs|items]; cbn [buf_dtype dtype_eqb].
  - split; [intros [e H]; discriminate | intros (r & rest & e & _ & H & _); discriminate].
  - split; [intros [e H]; discriminate | intros (r & rest & e & _ & H & _); discriminate].
  - destruct sh as [|d sh]; cbn [read_dataset].
    + destruct items as [|v rest]; cbn [scalar_of_buf].
      * split; [intros [e H]; discriminate | intros (r & rest & e & _ & H & _); discriminate].
      * destruct v as [a| | r | | |];
          try (split; [intros [e H]; discriminate
                      | intros (r' & rest' & e & _ & H & _); discriminate]).
        -- split; [|intros (r' & rest' & e & _ & H & _); discriminate].
           intros H. exfalso. exact (Harr a _ H).
        -- unfold bind, lift, ret, modify. split.
           ++ intros [e H]. destruct (h5_deref f r) as [[sh' b'|]|e'] eqn:Hd; try discriminate.
              exists r, rest, e'. repeat split. exact Hd.
           ++ intros (r' & rest' & e & _ & H & Hd). injection H as <- <-.
              rewrite Hd. exists e. reflexivity.
    + split; [|intros (r' & rest' & e & H & _); discriminate].
      intros H. exfalso. exact (Harr (NdArray (d :: sh) (Objbuf items)) _ H).
Qed.

(** With a numpy that has no [np.object], every array of object type
    stops the loader. *)
Lemma materialize_without_alias : forall f key d sh items s e,
  np_object_alias = Raise e ->
  materialize f key (d :: sh) (Objbuf items) s = (Raise e, s).
Proof.
  intros f key d sh items s e Hnp. unfold materialize.
  cbn [buf_dtype dtype_eqb read_dataset].
  unfold bind at 1. unfold lift at 1. now rewrite Hnp.
Qed.

(** One key of the loop: it raises exactly on a dangling reference. *)
Lemma load_h5_key_dataset : forall f key s sh b,
  dict_get (h5_members f) key = Some (H5Dataset sh b) ->
  load_h5_key f key s =
  match materialize f key sh b s with
  | (Ok v, s1) => (Ok tt, data_dict_set key (layout v) (snd (layout_step key v s1)))
  | (Raise e, s1) => (Raise e, s1)
  end.
Proof.
  intros f key s sh b Hget. unfold load_h5_key, h5_getitem. rewrite Hget.
  unfold bind at 1. unfold lift at 1. unfold bind at 1.
  destruct (materialize f key sh b s) as [[v|e] s1]; [|reflexivity].
  unfold bind. rewrite layout_step_spec. reflexivity.
Qed.

Lemma load_h5_key_outcome : forall f key s,
  np_object_alias = Ok tt ->
  dict_get (h5_members f) key <> None ->
  (exists s', load_h5_key f key s = (Ok tt, s') /\ ~ dangling f key)
  \/ (exists e s', load_h5_key f key s = (Raise e, s') /\ dangling f key).
Proof.
  intros f key s Hnp Hkey.
  destruct (dict_get (h5_members f) key) as [[sh b|]|] eqn:Hget; [| |now destruct Hkey].
  - rewrite (load_h5_key_dataset f key s sh b Hget).
    pose proof (materialize_spec f key sh b s) as (Hm & _).
    pose proof (materialized_raises f key sh b Hnp) as Hr.
    destruct (materialize f key sh b s) as [[v|e] s1]; cbn [fst] in Hm.
    + left. eexists. split; [reflexivity|].
      intros (r & rest & e & Hd & He). rewrite Hget in Hd. injection Hd as -> ->.
      assert (H : exists e, materialized f key [] (Objbuf (PRef r :: rest)) = Raise e).
      { apply (materialized_raises f key [] _ Hnp). exists r, rest, e. repeat split. exact He. }
      destruct H as [e' H]. congruence.
    + right. exists e, s1. split; [reflexivity|].
      assert (H : exists e, materialized f key sh b = Raise e) by (exists e; congruence).
      apply Hr in H. destruct H as (r & rest & e' & -> & -> & Hd).
      exists r, rest, e'. split; [exact Hget | exact Hd].
  - left. unfold load_h5_key, h5_getitem. rewrite Hget. unfold bind, lift, ret.
    eexists. split; [reflexivity|].
    intros (r & rest & e & Hd & _). rewrite Hget in Hd. discriminate.
Qed.

Lemma load_h5_loop_outcome : forall f keys s,
  np_object_alias = Ok tt ->
  (forall k, In k keys -> dict_get (h5_members f) k <> None) ->
  (exists s', for_each keys (load_h5_key f) s = (Ok tt, s')
              /\ forall k, In k keys -> ~ dangling f k)
  \/ (exists e s' k, for_each keys (load_h5_key f) s = (Raise e, s')
                     /\ In k keys /\ dangling f k).
Proof.
  intros f keys s Hnp. revert s. induction keys as [|key keys IH]; intros s Hkeys.
  - left. exists s. split; [reflexivity | intros k []].
  - assert (Hstep : for_each (key :: keys) (load_h5_key f) s =
                    match load_h5_key f key s with
                    | (Ok _, s') => for_each keys (load_h5_key f) s'
                    | (Raise e, s') => (Raise e, s')
                    end) by reflexivity.
    rewrite Hstep. clear Hstep.
    destruct (load_h5_key_outcome f key s Hnp (Hkeys key (or_introl eq_refl)))
      as [(s1 & Hrun & Hnd)|(e & s1 & Hrun & Hd)]; rewrite Hrun.
    + destruct (IH s1 (fun k Hk => Hkeys k (or_intror Hk)))
        as [(s2 & Hrun2 & Hnd2)|(e & s2 & k & Hrun2 & Hk & Hd)].
      * left. exists s2. split; [exact Hrun2|]. intros k [<-|Hk]; [exact Hnd | now apply Hnd2].
      * right. exists e, s2, k. split; [exact Hrun2|]. split; [now right | exact Hd].
    + right. exists e, s1, key. split; [reflexivity|]. split; [now left | exact Hd].
Qed.

(** X10. When [load_mat_correctly] raises.
    - Never on a MAT file of version 7 or older.
    - On a file h5py opens, with a numpy that still has [np.object]:
      exactly when some member is a scalar dataset of object type whose
      reference cannot be resolved (every other failure inside the loop
      is caught).
    - On a file h5py opens, with a numpy from 1.24 on: as soon as a
      member is a dataset of object type that is read as an array, since
      [np.object] is evaluated outside the [try].
    - On a file neither reader accepts: with what scipy raised, the
      version being [unknown].
    - And with what the format detection raises, if it does. *)
Theorem load_mat_correctly_outcome : forall fs p vn,
  (forall m, legacy_file fs p m ->
     exists data meta, load_mat_correctly fs p vn = Ok (data, meta))
  /\ (forall f,
        h5py_File fs p = Ok f -> np_object_alias = Ok tt ->
        (exists data meta, load_mat_correctly fs p vn = Ok (data, meta)
                           /\ forall key, In key (dict_keys (h5_members f)) -> ~ dangling f key)
        \/ (exists e key, load_mat_correctly fs p vn = Raise e
                          /\ In key (dict_keys (h5_members f)) /\ dangling f key))
  /\ (forall f e key d sh items,
        h5py_File fs p = Ok f -> np_object_alias = Raise e ->
        dict_get (h5_members f) key = Some (H5Dataset (d :: sh) (Objbuf items)) ->
        exists e', load_mat_correctly fs p vn = Raise e')
  /\ (forall e,
        detect_mat_version fs p = Ok "unknown" -> loadmat fs p true = Raise e ->
        load_mat_correctly fs p vn = Raise e)
  /\ (forall e,
        detect_mat_version fs p = Raise e -> load_mat_correctly fs p vn = Raise e).
Proof.
  intros fs p vn. unfold load_mat_correctly. repeat split.
  - intros m Hf. rewrite (load_body_mat fs p vn m _ Hf). unfold bind.
    destruct (load_mat_loop (filter (fun kv => negb (is_dunder (fst kv))) (loadmat_dict true m))
                (on_meta (meta_set_version "v7.0_or_older") (initial_load_state p)))
      as (s1 & Hrun & _). rewrite Hrun.
    destruct (select_variable_spec vn s1) as (data & s2 & Hsel & _).
    rewrite Hsel. exists data, (ls_meta s2). reflexivity.
  - intros f Hf Hnp. rewrite (load_body_h5 fs p vn f _ Hf). unfold bind.
    destruct (load_h5_loop_outcome f (dict_keys (h5_members f))
                (on_meta (meta_set_version "v7.3") (initial_load_state p)) Hnp
                (fun k Hk => dict_keys_get _ k Hk))
      as [(s1 & Hrun & Hnd)|(e & s1 & k & Hrun & Hk & Hd)]; rewrite Hrun.
    + left. destruct (select_variable_spec vn s1) as (data & s2 & Hsel & _).
      rewrite Hsel. exists data, (ls_meta s2). split; [reflexivity | exact Hnd].
    + right. exists e, k. repeat split; assumption.
  - intros f e key d sh items Hf Hnp Hkey.
    rewrite (load_body_h5 fs p vn f _ Hf). unfold bind.
    destruct (for_each_raises (load_h5_key f) (dict_keys (h5_members f)) key)
      with (s := on_meta (meta_set_version "v7.3") (initial_load_state p))
      as (e' & s' & Hrun).
    + apply dict_get_In in Hkey. unfold dict_keys.
      change key with (fst (key, H5Dataset (d :: sh) (Objbuf items))). now apply in_map.
    + intros s. rewrite (load_h5_key_dataset f key s _ _ Hkey).
      rewrite (materialize_without_alias f key d sh items s e Hnp). now exists e, s.
    + rewrite Hrun. now exists e'.
  - intros e Hd Hm.
    pose proof (load_body_unreadable fs p vn (initial_load_state p) e Hd Hm) as Hu.
    destruct (load_body _ _ _ _) as [[d|e'] s]; cbn [fst] in Hu; [discriminate|].
    now injection Hu as ->.
  - intros e Hd.
    pose proof (load_body_undetected fs p vn (initial_load_state p) e Hd) as Hu.
    destruct (load_body _ _ _ _) as [[d|e'] s]; cbn [fst] in Hu; [discriminate|].
    now injection Hu as ->.
Qed.

(** X11. A [variable_name] the file does not offer is ignored without
    any error: when the call with a name returns and the name is not the
    one recorded as [selected_variable], the call returns exactly what the
    call without a name returns. *)
Theorem absent_variable_name_ignored : forall fs p name data meta,
  load_mat_correctly fs p (Some name) = Ok (data, meta) ->
  selected_variable meta <> Some name ->
  load_mat_correctly fs p None = Ok (data, meta).
Proof.
  intros fs p name data meta Hload Hsel.
  assert (Hselect : forall s d s',
    select_variable (Some name) s = (Ok d, s') ->
    selected_variable (ls_meta s') <> Some name ->
    select_variable None s = (Ok d, s')).
  { intros s d s'. unfold select_variable. unfold bind at 1 3. unfold gets.
    destruct (negb (String.eqb name "") && dict_contains (ls_dict s) name)%bool.
    - unfold bind, modify, ret. intros [= <- <-]. cbn. congruence.
    - intros H _. exact H. }
  unfold load_mat_correctly in *.
  destruct (detect_cases fs p)
    as [(f & Hf & _) | [(m & Hf & _) | [(e & Hd & Hl) | (e & Hd & _)]]].
  - rewrite (load_body_h5 fs p (Some name) f _ Hf) in Hload.
    rewrite (load_body_h5 fs p None f _ Hf). unfold bind in *.
    destruct (for_each _ _ _) as [[[]|e] s1]; [|discriminate].
    destruct (select_variable (Some name) s1) as [[d|e] s2] eqn:Hs; [|discriminate].
    injection Hload as <- <-. now rewrite (Hselect s1 d s2 Hs Hsel).
  - rewrite (load_body_mat fs p (Some name) m _ Hf) in Hload.
    rewrite (load_body_mat fs p None m _ Hf). unfold bind in *.
    destruct (for_each _ _ _) as [[[]|e] s1]; [|discriminate].
    destruct (select_variable (Some name) s1) as [[d|e] s2] eqn:Hs; [|discriminate].
    injection Hload as <- <-. now rewrite (Hselect s1 d s2 Hs Hsel).
  - pose proof (load_body_unreadable fs p (Some name) (initial_load_state p) e Hd (Hl true))
      as Hu.
    destruct (load_body fs p (Some name) _) as [[d|e'] s]; cbn [fst] in Hu; discriminate.
  - pose proof (load_body_undetected fs p (Some name) (initial_load_state p) e Hd) as Hu.
    destruct (load_body fs p (Some name) _) as [[d|e'] s]; cbn [fst] in Hu; discriminate.
Qed.

(** ** Failures the loader turns into warnings *)

(** The loop only ever adds warnings. *)
Lemma materialize_warnings : forall f key sh b s,
  exists extra,
    meta_warnings (ls_meta (snd (materialize f key sh b s)))
    = (meta_warnings (ls_meta s) ++ extra)%list.
Proof.
  intros f key sh b s. unfold materialize.
  assert (Hsame : forall v, exists extra,
            meta_warnings (ls_meta (snd (ret (S := load_state) (A := pyvalue) v s)))
            = (meta_warnings (ls_meta s) ++ extra)%list).
  { intros v. exists []. cbn. now rewrite app_nil_r. }
  destruct (dtype_eqb (buf_dtype b) object); [|apply Hsame].
  destruct (read_dataset sh b) as [[rsh rb]|n|r|d|ssh sdt|t]; try apply Hsame.
  - unfold bind at 1. unfold lift at 1.
    destruct np_object_alias as [[]|e0]; [|exists []; cbn; now rewrite app_nil_r].
    cbn [buf shape]. destruct rb as [xs|zs|items]; try apply Hsame.
    unfold try_catch, bind, lift, ret, modify.
    destruct (dereference_all f items) as [l|e];
      [destruct (np_array l) as [a|e]; [destruct (reshape a rsh) as [a'|e]|]|];
      cbn [snd ls_meta on_meta meta_add_warning meta_warnings];
      first [exists []; now rewrite app_nil_r | eexists; reflexivity].
  - unfold bind, lift, ret, modify.
    destruct (h5_deref f r) as [[sh' b'|]|e]; cbn [snd];
      first [exists []; now rewrite app_nil_r | eexists; reflexivity].
Qed.

Lemma load_h5_key_warnings : forall f key s s' w,
  load_h5_key f key s = (Ok tt, s') ->
  In w (meta_warnings (ls_meta s)) -> In w (meta_warnings (ls_meta s')).
Proof.
  intros f key s s' w Hrun Hin.
  destruct (dict_get (h5_members f) key) as [[sh b|]|] eqn:Hget.
  - rewrite (load_h5_key_dataset f key s sh b Hget) in Hrun.
    destruct (materialize_warnings f key sh b s) as [extra Hw].
    destruct (materialize f key sh b s) as [[v|e] s1]; [|discriminate].
    injection Hrun as <-. rewrite layout_step_spec. cbn [snd] in *.
    assert (H1 : In w (meta_warnings (ls_meta s1))).
    { rewrite Hw. apply in_or_app. now left. }
    destruct (is_rank2 v); exact H1.
  - unfold load_h5_key, h5_getitem in Hrun. rewrite Hget in Hrun.
    unfold bind, lift, ret in Hrun. now injection Hrun as <-.
  - unfold load_h5_key, h5_getitem in Hrun. rewrite Hget in Hrun.
    unfold bind, lift in Hrun. discriminate.
Qed.

Lemma load_h5_loop_warnings : forall f keys s s' w,
  for_each keys (load_h5_key f) s = (Ok tt, s') ->
  In w (meta_warnings (ls_meta s)) -> In w (meta_warnings (ls_meta s')).
Proof.
  intros f keys. induction keys as [|key keys IH]; intros s s' w Hrun Hin.
  - now injection Hrun as <-.
  - cbn [for_each] in Hrun. unfold bind at 1 in Hrun.
    destruct (load_h5_key f key s) as [[[]|e] s1] eqn:Hkey; [|discriminate].
    eapply IH; [exact Hrun|]. eapply load_h5_key_warnings; eassumption.
Qed.

Lemma select_variable_warnings : forall vn s data s',
  select_variable vn s = (Ok data, s') ->
  meta_warnings (ls_meta s') = meta_warnings (ls_meta s).
Proof.
  intros vn s data s'. unfold select_variable. unfold bind at 1. unfold gets.
  assert (Hfallback :
    match ls_dict s with
    | [(k, v)] => bind (modify (on_meta (meta_set_selected k))) (fun _ => ret v)
    | _ => bind (modify (on_meta (meta_set_selected "dict")))
             (fun _ => ret (PDict (ls_dict s)))
    end s = (Ok data, s') ->
    meta_warnings (ls_meta s') = meta_warnings (ls_meta s)).
  { destruct (ls_dict s) as [|[k v] [|kv rest]]; unfold bind, modify, ret;
      intros [= _ <-]; reflexivity. }
  destruct vn as [name|]; [|exact Hfallback].
  destruct (negb (String.eqb name "") && dict_contains (ls_dict s) name)%bool;
    [|exact Hfallback].
  unfold bind, modify, ret. intros [= _ <-]. reflexivity.
Qed.

(** An array of references that cannot be resolved, stacked or reshaped
    is kept as it was read, with a warning. *)
Lemma materialize_object_array_failure : forall f key d sh items e s,
  np_object_alias = Ok tt ->
  (vs <- dereference_all f items ;;
   stacked <- np_array vs ;;
   reshape stacked (d :: sh))%outcome = Raise e ->
  materialize f key (d :: sh) (Objbuf items) s
  = (Ok (PArr (NdArray (d :: sh) (Objbuf items))),
     on_meta (meta_add_warning ("Could not dereference object array for '" ++ key ++ "'")) s).
Proof.
  intros f key d sh items e s Hnp Hfail. unfold materialize.
  cbn [buf_dtype dtype_eqb read_dataset]. unfold bind at 1. unfold lift at 1. rewrite Hnp.
  cbn [buf shape]. unfold try_catch, bind, lift, ret, modify.
  unfold obind in Hfail.
  destruct (dereference_all f items) as [l|e1]; [|reflexivity].
  destruct (np_array l) as [a|e2]; [|reflexivity].
  destruct (reshape a (d :: sh)) as [a'|e3]; [discriminate | reflexivity].
Qed.

Lemma load_h5_loop_object_array : forall f keys key d sh items e s s',
  np_object_alias = Ok tt ->
  dict_get (h5_members f) key = Some (H5Dataset (d :: sh) (Objbuf items)) ->
  (vs <- dereference_all f items ;;
   stacked <- np_array vs ;;
   reshape stacked (d :: sh))%outcome = Raise e ->
  In key keys ->
  for_each keys (load_h5_key f) s = (Ok tt, s') ->
  In ("Could not dereference object array for '" ++ key ++ "'") (meta_warnings (ls_meta s')).
Proof.
  intros f keys key d sh items e.
  induction keys as [|k keys IH]; intros s s' Hnp Hget Hfail Hin Hrun; [destruct Hin|].
  cbn [for_each] in Hrun. unfold bind at 1 in Hrun.
  destruct (load_h5_key f k s) as [[[]|e'] s1] eqn:Hkey; [|discriminate].
  destruct (string_dec k key) as [->|Hne].
  - eapply load_h5_loop_warnings; [exact Hrun|].
    rewrite (load_h5_key_dataset f key s _ _ Hget) in Hkey.
    rewrite (materialize_object_array_failure f key d sh items e s Hnp Hfail) in Hkey.
    rewrite layout_step_spec in Hkey. cbn [snd] in Hkey.
    assert (Hs1 : meta_warnings (ls_meta s1)
                  = List.app (meta_warnings (ls_meta s))
                      ["Could not dereference object array for '" ++ key ++ "'"]).
    { revert Hkey. destruct (is_rank2 _); intros [= <-]; reflexivity. }
    rewrite Hs1. apply in_or_app. right. now left.
  - destruct Hin as [->|Hin]; [now destruct Hne|].
    eapply IH; eassumption.
Qed.

(** X12. An array of references that cannot be resolved, stacked or
    reshaped does not by itself make the loader fail: when the call
    returns - which it does only with a numpy that still has [np.object]
    - the dataset materialises to the raw object array and
    [meta['warnings']] holds [Could not dereference object array for
    '<key>']. *)
Theorem unresolved_object_array_kept : forall fs p vn f key d sh items e data meta,
  h5py_File fs p = Ok f ->
  dict_get (h5_members f) key = Some (H5Dataset (d :: sh) (Objbuf items)) ->
  (vs <- dereference_all f items ;;
   stacked <- np_array vs ;;
   reshape stacked (d :: sh))%outcome = Raise e ->
  load_mat_correctly fs p vn = Ok (data, meta) ->
  np_object_alias = Ok tt
  /\ materialized f key (d :: sh) (Objbuf items) = Ok (PArr (NdArray (d :: sh) (Objbuf items)))
  /\ In ("Could not dereference object array for '" ++ key ++ "'") (meta_warnings meta).
Proof.
  intros fs p vn f key d sh items e data meta Hf Hget Hfail Hload.
  assert (Hkeys : In key (dict_keys (h5_members f))).
  { apply dict_get_In in Hget. change key with (fst (key, H5Dataset (d :: sh) (Objbuf items))).
    now apply in_map. }
  unfold load_mat_correctly in Hload. rewrite (load_body_h5 fs p vn f _ Hf) in Hload.
  unfold bind in Hload.
  assert (Hnp : np_object_alias = Ok tt).
  { destruct np_object_alias as [[]|e0] eqn:Hnp; [reflexivity|]. exfalso.
    destruct (for_each_raises (load_h5_key f) (dict_keys (h5_members f)) key Hkeys)
      with (s := on_meta (meta_set_version "v7.3") (initial_load_state p))
      as (e' & s' & Hrun).
    - intros s. rewrite (load_h5_key_dataset f key s _ _ Hget).
      rewrite (materialize_without_alias f key d sh items s e0 Hnp). now exists e0, s.
    - rewrite Hrun in Hload. discriminate. }
  split; [exact Hnp|]. split.
  - unfold materialized.
    now rewrite (materialize_object_array_failure f key d sh items e _ Hnp Hfail).
  - destruct (for_each _ _ _) as [[[]|e'] s1] eqn:Hrun; [|discriminate].
    destruct (select_variable vn s1) as [[v|e'] s2] eqn:Hsel; [|discriminate].
    injection Hload as <- <-. rewrite (select_variable_warnings vn s1 v s2 Hsel).
    eapply load_h5_loop_object_array; eassumption.
Qed.

End Loader.

(* ================================================================== *)
(** * The layout step against column-major storage                     *)
(* ================================================================== *)

Lemma unravel_F_length : forall sh k, length (unravel_F sh k) = length sh.
Proof. induction sh as [|d sh IH]; intros k; cbn; [reflexivity | now rewrite IH]. Qed.

Lemma unravel_F_bound : forall sh k,
  (k < size_of sh)%nat -> Forall2 lt (unravel_F sh k) sh.
Proof.
  induction sh as [|d sh IH]; intros k Hk; cbn [unravel_F]; [constructor|].
  unfold size_of in Hk. cbn [fold_right] in Hk. fold (size_of sh) in Hk.
  assert (Hd : d <> 0%nat) by (intros ->; cbn in Hk; lia).
  constructor.
  - now apply Nat.mod_upper_bound.
  - apply IH. apply Nat.Div0.div_lt_upper_bound. exact Hk.
Qed.

(** Ravelling in C order over the reversed shape undoes unravelling in
    Fortran order. *)
Lemma ravel_rev_unravel : forall sh k,
  (k < size_of sh)%nat -> ravel_C (rev sh) (rev (unravel_F sh k)) = k.
Proof.
  induction sh as [|d sh IH]; intros k Hk.
  - cbn in *. lia.
  - unfold size_of in Hk. cbn [fold_right] in Hk. fold (size_of sh) in Hk.
    assert (Hd : d <> 0%nat) by (intros ->; cbn in Hk; lia).
    cbn [unravel_F rev].
    rewrite ravel_C_fold, fold_ravel_snoc
      by (now rewrite !length_rev, unravel_F_length).
    rewrite <- ravel_C_fold, IH by (apply Nat.Div0.div_lt_upper_bound; exact Hk).
    pose proof (Nat.div_mod_eq k d). lia.
Qed.

Lemma transpose_list_involutive : forall {A} sh (xs : list A),
  length xs = size_of sh ->
  transpose_list (rev sh) (transpose_list sh xs) = xs.
Proof.
  intros A sh xs Hwf. apply nth_error_ext. intros k.
  destruct (Nat.lt_ge_cases k (length xs)) as [Hk|Hk].
  - assert (Hk' : (k < size_of (rev sh))%nat) by (rewrite size_of_rev; lia).
    pose proof (unravel_F_bound (rev sh) k Hk') as Hidx.
    set (idx := unravel_F (rev sh) k) in *.
    assert (Hridx : Forall2 lt (rev idx) sh).
    { apply Forall2_rev in Hidx. now rewrite rev_involutive in Hidx. }
    pose proof (ravel_C_bound _ _ Hidx) as Hk1. rewrite size_of_rev, <- Hwf in Hk1.
    pose proof (unravel_F_ravel_rev sh (rev idx) Hridx) as Hun.
    rewrite rev_involutive in Hun.
    pose proof (ravel_rev_unravel (rev sh) k Hk') as Hback.
    rewrite rev_involutive in Hback. fold idx in Hback.
    rewrite transpose_list_nth; fold idx.
    + rewrite transpose_list_nth; rewrite ?Hun, ?Hback; [reflexivity | exact Hk1 | exact Hk].
    + now rewrite transpose_list_length.
    + now rewrite transpose_list_length.
  - rewrite (proj2 (nth_error_None xs k) Hk). apply nth_error_None.
    now rewrite !transpose_list_length.
Qed.

(** [a.T.T] is [a]. *)
Lemma transpose_involutive : forall a, wf_array a -> transpose (transpose a) = a.
Proof.
  intros [sh b] H. unfold wf_array, transpose in *. cbn [shape buf] in *.
  rewrite rev_involutive. f_equal.
  destruct b; cbn [transpose_buf buf_length] in *; now rewrite transpose_list_involutive.
Qed.

Section ColumnMajor.

Context {np : Numpy}.

(** The loader on a file with one dataset of numbers. *)
Lemma load_single_dataset : forall fs p vn f key sh b,
  h5py_File fs p = Ok f ->
  h5_members f = [(key, H5Dataset sh b)] ->
  buf_dtype b <> object ->
  exists meta,
    load_mat_correctly fs p vn = Ok (layout (read_dataset sh b), meta)
    /\ transpose_applied meta = is_rank2 (read_dataset sh b).
Proof.
  intros fs p vn f key sh b Hf Hmembers Hnum. unfold load_mat_correctly.
  rewrite (load_body_h5 fs p vn f _ Hf). rewrite Hmembers. cbn [dict_keys map fst for_each].
  unfold bind at 1. unfold bind at 1.
  assert (Hget : dict_get (h5_members f) key = Some (H5Dataset sh b)).
  { rewrite Hmembers. cbn. now rewrite String.eqb_refl. }
  rewrite (load_h5_key_dataset f key _ sh b Hget).
  pose proof (materialize_spec f key sh b
                (on_meta (meta_set_version "v7.3") (initial_load_state p)))
    as (Hm & Hd & _ & Ht).
  rewrite (materialized_inline f key sh b Hnum) in Hm.
  destruct (materialize f key sh b _) as [[v|e] s1]; cbn [fst snd] in *; [|discriminate].
  injection Hm as ->. rewrite layout_step_spec. cbn [snd]. unfold ret at 1.
  set (v := read_dataset sh b) in *.
  set (s2 := data_dict_set key (layout v) _).
  assert (Hdict : ls_dict s2 = [(key, layout v)]).
  { subst s2. unfold data_dict_set. cbn [ls_dict].
    destruct (is_rank2 v); cbn [on_meta ls_dict]; now rewrite Hd. }
  assert (Htr : transpose_applied (ls_meta s2) = is_rank2 v).
  { subst s2. unfold data_dict_set. cbn [ls_meta].
    destruct (is_rank2 v); cbn [on_meta ls_meta meta_set_transpose meta_add_loaded
                                  transpose_applied]; [reflexivity | exact Ht]. }
  destruct (select_variable_spec vn s2) as (data & s3 & Hsel & _ & Ht3 & _ & Hone & _).
  rewrite Hsel. rewrite (Hone key (layout v) Hdict). exists (ls_meta s3).
  split; [reflexivity | now rewrite Ht3].
Qed.

(** X13. The layout step undoes column-major storage: for a well-formed
    array [a] of numbers of rank 2 or more, a v7.3 file whose only dataset
    stores [a.T] (the shape reversed, the elements in MATLAB's order) loads
    to [a] itself, whatever variable name is asked for, and
    [transpose_applied] is [True].  It rests on [a.T.T = a]. *)
Theorem layout_undoes_column_major : forall fs p vn f key a,
  wf_array a ->
  (2 <= ndim a)%nat ->
  buf_dtype (buf a) <> object ->
  h5py_File fs p = Ok f ->
  h5_members f = [(key, H5Dataset (shape (transpose a)) (buf (transpose a)))] ->
  exists meta,
    load_mat_correctly fs p vn = Ok (PArr a, meta) /\ transpose_applied meta = true.
Proof.
  intros fs p vn f key a Hwf Hrank Hnum Hf Hmembers.
  assert (Hnum' : buf_dtype (buf (transpose a)) <> object).
  { destruct a as [sh [xs|zs|os]]; cbn in *; congruence. }
  destruct (load_single_dataset fs p vn f key _ _ Hf Hmembers Hnum') as (meta & Hload & Ht).
  assert (Hread : read_dataset (shape (transpose a)) (buf (transpose a)) = PArr (transpose a)).
  { destruct a as [sh b]. unfold transpose, ndim in *. cbn [shape buf] in *.
    destruct (rev sh) eqn:E; [|reflexivity].
    apply (f_equal (@length nat)) in E. rewrite length_rev in E. cbn in E. lia. }
  rewrite Hread in Hload, Ht. cbn [layout is_rank2] in Hload, Ht.
  assert (Hrank' : (2 <=? ndim (transpose a))%nat = true).
  { apply Nat.leb_le. unfold ndim, transpose in *. cbn [shape]. now rewrite length_rev. }
  rewrite Hrank' in Hload, Ht. rewrite (transpose_involutive a Hwf) in Hload.
  exists meta. split; assumption.
Qed.

End ColumnMajor.

(* ================================================================== *)
(** * Properties of the inspection                                     *)
(* ================================================================== *)

Section Inspection.

Context {np : Numpy}.

Lemma h5_var_info_name : forall f key obj, vi_name (h5_var_info f key obj) = key.
Proof. intros f key obj. now destruct obj. Qed.

(** One turn of the HDF5 loop of the inspection. *)
Lemma inspect_h5_key_step : forall f key obj i,
  dict_get (h5_members f) key = Some obj ->
  inspect_h5_key f key i =
  (Ok tt,
   Info (info_file i) (info_version i)
     (variables i ++ [h5_var_info f key obj])%list
     (issues i ++ map (fun vi => reference_issue (vi_name vi))
                      (filter vi_is_reference [h5_var_info f key obj]))%list).
Proof.
  intros f key obj i Hget. unfold inspect_h5_key, h5_getitem. rewrite Hget.
  unfold bind at 1. unfold lift at 1. fold (h5_var_info f key obj).
  unfold bind at 1. unfold modify at 1. cbn [filter].
  destruct (vi_is_reference (h5_var_info f key obj)) eqn:E.
  - unfold modify, add_issue, add_variable. cbn [map]. rewrite h5_var_info_name. reflexivity.
  - unfold ret, add_variable. cbn [map]. rewrite app_nil_r. reflexivity.
Qed.

Lemma inspect_h5_loop_exact : forall f kvs i,
  (forall kv, In kv kvs -> dict_get (h5_members f) (fst kv) = Some (snd kv)) ->
  for_each (map fst kvs) (inspect_h5_key f) i =
  (Ok tt,
   Info (info_file i) (info_version i)
     (variables i ++ map (fun kv => h5_var_info f (fst kv) (snd kv)) kvs)%list
     (issues i ++ map (fun vi => reference_issue (vi_name vi))
                      (filter vi_is_reference
                         (map (fun kv => h5_var_info f (fst kv) (snd kv)) kvs)))%list).
Proof.
  intros f kvs. induction kvs as [|[key obj] kvs IH]; intros i Hkvs.
  - cbn. rewrite !app_nil_r. now destruct i.
  - cbn [map for_each fst snd]. unfold bind at 1.
    rewrite (inspect_h5_key_step f key obj i (Hkvs (key, obj) (or_introl eq_refl))).
    rewrite IH by (intros kv Hkv; apply Hkvs; now right).
    cbn [info_file info_version variables issues filter].
    destruct (vi_is_reference (h5_var_info f key obj)); cbn [map];
      rewrite <- !app_assoc; reflexivity.
Qed.

(** What the inspection returns for a file neither reader accepts, and
    when the format detection raises. *)
Lemma inspect_unreadable : forall fs p e,
  detect_mat_version fs p = Ok "unknown" ->
  loadmat fs p false = Raise e ->
  inspect_mat_file_deep fs p
  = Info (str_path p) (Some "unknown") [] ["Error inspecting file: " ++ str_exn e].
Proof.
  intros fs p e Hd Hm. unfold inspect_mat_file_deep, inspect_body, try_catch.
  unfold bind at 1. unfold lift at 1. rewrite Hd.
  unfold bind at 1. unfold modify at 1.
  cbn [String.eqb Ascii.eqb Bool.eqb]. cbv iota.
  unfold bind at 1. unfold lift at 1. rewrite Hm. reflexivity.
Qed.

Lemma inspect_undetected : forall fs p e,
  detect_mat_version fs p = Raise e ->
  inspect_mat_file_deep fs p
  = Info (str_path p) None [] ["Error inspecting file: " ++ str_exn e].
Proof.
  intros fs p e Hd. unfold inspect_mat_file_deep, inspect_body, try_catch.
  unfold bind at 1. unfold lift at 1. rewrite Hd. reflexivity.
Qed.

Lemma inspect_h5 : forall fs p f,
  h5py_File fs p = Ok f ->
  NoDup (dict_keys (h5_members f)) ->
  inspect_mat_file_deep fs p
  = Info (str_path p) (Some "v7.3")
      (map (fun kv => h5_var_info f (fst kv) (snd kv)) (h5_members f))
      (map (fun vi => reference_issue (vi_name vi))
           (filter vi_is_reference
              (map (fun kv => h5_var_info f (fst kv) (snd kv)) (h5_members f)))).
Proof.
  intros fs p f Hf Hnd. unfold inspect_mat_file_deep, inspect_body, try_catch.
  unfold bind at 1. unfold lift at 1. rewrite (detect_v73 _ _ _ Hf).
  unfold bind at 1. unfold modify at 1.
  cbn [String.eqb Ascii.eqb Bool.eqb]. cbv iota.
  unfold bind at 1. unfold lift at 1. rewrite Hf.
  unfold dict_keys. rewrite inspect_h5_loop_exact; [reflexivity|].
  intros [k obj] Hin. now apply In_dict_get.
Qed.

Lemma inspect_mat : forall fs p m,
  legacy_file fs p m ->
  inspect_mat_file_deep fs p
  = Info (str_path p) (Some "v7.0_or_older")
      (map (fun kv => inspect_mat_var (fst kv) (snd kv))
           (filter is_variable (loadmat_dict false m)))
      [].
Proof.
  intros fs p m Hf. destruct (detect_legacy _ _ _ Hf) as [Hd Hm].
  unfold inspect_mat_file_deep, inspect_body, try_catch.
  unfold bind at 1. unfold lift at 1. rewrite Hd.
  unfold bind at 1. unfold modify at 1.
  cbn [String.eqb Ascii.eqb Bool.eqb]. cbv iota.
  unfold bind at 1. unfold lift at 1. rewrite Hm.
  rewrite inspect_mat_loop. reflexivity.
Qed.

(** X14. What [inspect_mat_file_deep] returns, by what the readers make
    of the file; it never raises.  A file h5py opens (its member names
    distinct, as HDF5 has them): version [v7.3], one record per member, in
    order, and one issue per dataset of object type, in the same order,
    and nothing else.  A MAT file of version 7 or older: the variables
    that are not bookkeeping keys and no issue.  A file neither reader
    accepts, or no file: version [unknown], no variable and the single
    issue [Error inspecting file: <what scipy raised>].  When the format
    detection itself raises: no version, no variable and the issue with
    its message. *)
Theorem inspect_mat_file_deep_outcome : forall fs p,
  let info := inspect_mat_file_deep fs p in
  (forall f,
     h5py_File fs p = Ok f ->
     NoDup (dict_keys (h5_members f)) ->
     info_version info = Some "v7.3"
     /\ variables info = map (fun kv => h5_var_info f (fst kv) (snd kv)) (h5_members f)
     /\ issues info = map (fun vi => reference_issue (vi_name vi))
                          (filter vi_is_reference (variables info)))
  /\ (forall m,
        legacy_file fs p m ->
        info_version info = Some "v7.0_or_older"
        /\ map vi_name (variables info)
           = map fst (filter is_variable (loadmat_dict false m))
        /\ issues info = [])
  /\ (forall e,
        detect_mat_version fs p = Ok "unknown" ->
        loadmat fs p false = Raise e ->
        info = Info (str_path p) (Some "unknown") []
                 ["Error inspecting file: " ++ str_exn e])
  /\ (forall e,
        detect_mat_version fs p = Raise e ->
        info = Info (str_path p) None [] ["Error inspecting file: " ++ str_exn e]).
Proof.
  intros fs p info. subst info. split; [|split; [|split]].
  - intros f Hf Hnd. rewrite (inspect_h5 fs p f Hf Hnd). repeat split.
  - intros m Hf. rewrite (inspect_mat fs p m Hf). cbn [info_version variables issues].
    repeat split. rewrite map_map. apply map_ext. now intros [k [a|[x|z]|r|d|ssh sdt|t]].
  - apply inspect_unreadable.
  - apply inspect_undetected.
Qed.

(** ** The inspection against the loader *)

Lemma dict_set_entries : forall {V} (P : string * V -> Prop) (d : list (string * V)) k v,
  Forall P d -> P (k, v) -> Forall P (dict_set d k v).
Proof.
  intros V P d k v Hd Hv. induction d as [|[k' v'] d IH]; cbn.
  - constructor; [exact Hv | constructor].
  - inversion Hd; subst. destruct (String.eqb k k') eqn:E.
    + apply String.eqb_eq in E. subst k'. now constructor.
    + constructor; auto.
Qed.

Lemma loadmat_dict_arrays : forall b m, Forall array_or_sparse (loadmat_dict b m).
Proof.
  intros b m. unfold loadmat_dict.
  assert (H0 : Forall array_or_sparse loadmat_header).
  { unfold loadmat_header.
    repeat (apply Forall_cons; [intros H; cbn in H; discriminate|]). apply Forall_nil. }
  revert H0. generalize loadmat_header.
  induction m as [|v m IH]; intros d H; [exact H|].
  cbn [fold_left]. apply IH. apply dict_set_entries; [exact H|].
  intros _. unfold loadmat_value. cbn [snd].
  destruct (mv_sparse v); [right|left]; eexists; try eexists; reflexivity.
Qed.

Lemma legacy_entries : forall d1 d2,
  Forall2 same_entry d1 d2 ->
  Forall array_or_sparse d1 ->
  map (fun vi => (vi_name vi, vi_shape vi))
      (filter is_ndarray
         (map (fun kv => inspect_mat_var (fst kv) (snd kv)) (filter is_variable d2)))
  = map (fun lv => (lv_name lv, Some (lv_shape lv)))
        (flat_map mat_entry (filter is_variable d1)).
Proof.
  intros d1 d2 H. induction H as [|[k1 v1] [k2 v2] d1 d2 [Hk Hv] H IH]; intros Harr.
  - reflexivity.
  - inversion Harr as [|? ? Hv1 Harr']; subst. cbn [fst snd] in *. subst k2.
    assert (Hvar : is_variable (k1, v2) = is_variable (k1, v1)) by reflexivity.
    cbn [filter]. rewrite Hvar. destruct (is_variable (k1, v1)) eqn:E; [|now apply IH].
    destruct (Hv1 E) as [[a1 Ha]|(sh1 & dt1 & Ha)]; cbn [snd] in Ha; subst v1.
    + destruct v2 as [a2| | | | |]; try contradiction.
      cbn in Hv. cbn [map filter flat_map mat_entry snd fst app inspect_mat_var].
      change (is_ndarray (VarInfo k1 "ndarray" (Some (shape a2))
                            (Some (str_dtype (arr_dtype a2))) false None)) with true.
      cbn [map vi_name vi_shape lv_name lv_shape].
      rewrite Hv. f_equal. now apply IH.
    + destruct v2 as [| | | |sh2 dt2|]; try contradiction.
      cbn [map filter flat_map mat_entry snd fst app inspect_mat_var].
      change (is_ndarray (VarInfo k1 "csc_matrix" (Some sh2) (Some (str_dtype dt2))
                            false None)) with false.
      now apply IH.
Qed.

Lemma select_variable_version : forall vn s data s',
  select_variable vn s = (Ok data, s') ->
  meta_version (ls_meta s') = meta_version (ls_meta s).
Proof.
  intros vn s data s'. unfold select_variable. unfold bind at 1. unfold gets.
  assert (Hfallback :
    match ls_dict s with
    | [(k, v)] => bind (modify (on_meta (meta_set_selected k))) (fun _ => ret v)
    | _ => bind (modify (on_meta (meta_set_selected "dict")))
             (fun _ => ret (PDict (ls_dict s)))
    end s = (Ok data, s') ->
    meta_version (ls_meta s') = meta_version (ls_meta s)).
  { destruct (ls_dict s) as [|[k v] [|kv rest]]; unfold bind, modify, ret;
      intros [= _ <-]; reflexivity. }
  destruct vn as [name|]; [|exact Hfallback].
  destruct (negb (String.eqb name "") && dict_contains (ls_dict s) name)%bool;
    [|exact Hfallback].
  unfold bind, modify, ret. intros [= _ <-]. reflexivity.
Qed.

Lemma load_mat_loop_version : forall kvs s s',
  for_each kvs load_mat_key s = (Ok tt, s') ->
  meta_version (ls_meta s') = meta_version (ls_meta s).
Proof.
  induction kvs as [|[key data] kvs IH]; intros s s' Hrun.
  - now injection Hrun as <-.
  - cbn [for_each] in Hrun. unfold bind at 1 in Hrun. unfold load_mat_key at 1 in Hrun.
    destruct data as [a|n|r|d|ssh sdt|t]; unfold bind, modify, ret in Hrun;
      fold (@bind load_state unit unit) in Hrun; apply IH in Hrun; exact Hrun.
Qed.

(** The meta dictionary of the scipy branch. *)
Lemma load_mat_meta : forall fs p vn m data meta,
  legacy_file fs p m ->
  load_mat_correctly fs p vn = Ok (data, meta) ->
  loaded_variables meta = flat_map mat_entry (filter is_variable (loadmat_dict true m))
  /\ transpose_applied meta = false
  /\ meta_version meta = Some "v7.0_or_older".
Proof.
  intros fs p vn m data meta Hf Hload. unfold load_mat_correctly in Hload.
  rewrite (load_body_mat fs p vn m _ Hf) in Hload. unfold bind in Hload.
  destruct (load_mat_loop (filter (fun kv => negb (is_dunder (fst kv))) (loadmat_dict true m))
              (on_meta (meta_set_version "v7.0_or_older") (initial_load_state p)))
    as (s1 & Hrun & Hl & Ht).
  rewrite Hrun in Hload. pose proof (load_mat_loop_version _ _ _ Hrun) as Hv.
  destruct (select_variable_spec vn s1) as (d & s2 & Hsel & Hl2 & Ht2 & _).
  rewrite Hsel in Hload. injection Hload as <- <-.
  rewrite Hl2, Ht2, Hl, Ht, (select_variable_version vn s1 d s2 Hsel), Hv. repeat split.
Qed.


End Inspection.

(* ================================================================== *)
(** * Properties of the report                                         *)
(* ================================================================== *)

(** ** [Counter] and [most_common] *)

Lemma counter_step_count : forall counts x k,
  count_of (dict_set counts x (S (count_of counts x))) k
  = ((if string_dec x k then 1 else 0) + count_of counts k)%nat.
Proof.
  intros counts x k. unfold count_of at 1 3.
  destruct (string_dec x k) as [->|Hne].
  - now rewrite dict_get_set_same.
  - rewrite dict_get_set_other by congruence. reflexivity.
Qed.

Lemma counter_fold_count : forall items counts k,
  count_of (fold_left (fun counts x => dict_set counts x (S (count_of counts x))) items counts) k
  = (count_occ string_dec items k + count_of counts k)%nat.
Proof.
  induction items as [|x items IH]; intros counts k; cbn [fold_left count_occ].
  - reflexivity.
  - rewrite IH, counter_step_count. destruct (string_dec x k); lia.
Qed.

Lemma dict_set_values : forall {V} (P : V -> Prop) (d : list (string * V)) k v,
  Forall (fun kv => P (snd kv)) d -> P v -> Forall (fun kv => P (snd kv)) (dict_set d k v).
Proof.
  intros V P d k v Hd Hv. induction d as [|[k' v'] d IH]; cbn.
  - constructor; [exact Hv | constructor].
  - inversion Hd; subst. destruct (String.eqb k k'); constructor; auto.
Qed.

Lemma counter_fold_invariant : forall items counts,
  NoDup (dict_keys counts) -> Forall (fun kv => (1 <= snd kv)%nat) counts ->
  let result := fold_left (fun counts x => dict_set counts x (S (count_of counts x))) items counts in
  NoDup (dict_keys result) /\ Forall (fun kv => (1 <= snd kv)%nat) result.
Proof.
  induction items as [|x items IH]; intros counts Hnd Hpos; cbn [fold_left].
  - split; assumption.
  - apply IH.
    + now apply dict_set_keys_NoDup.
    + apply (dict_set_values (fun n => (1 <= n)%nat)); [exact Hpos | lia].
Qed.

(** [Counter(items)] holds each distinct item once, with the number of
    its occurrences. *)
Lemma counter_spec : forall items,
  NoDup (dict_keys (counter items))
  /\ (forall k n, In (k, n) (counter items) <->
                  n = count_occ string_dec items k /\ (1 <= n)%nat).
Proof.
  intros items.
  assert (Hfold : counter items
                  = fold_left (fun counts x => dict_set counts x (S (count_of counts x))) items [])
    by reflexivity.
  destruct (counter_fold_invariant items [] (NoDup_nil _) (Forall_nil _)) as [Hnd Hpos].
  cbn zeta in Hnd, Hpos. rewrite <- Hfold in Hnd, Hpos.
  assert (Hcount : forall k, count_of (counter items) k = count_occ string_dec items k).
  { intros k. rewrite Hfold, counter_fold_count. cbn. lia. }
  split; [exact Hnd|]. intros k n. split.
  - intros Hin. split.
    + rewrite <- Hcount. unfold count_of. now rewrite (In_dict_get _ k n Hnd Hin).
    + rewrite Forall_forall in Hpos. exact (Hpos (k, n) Hin).
  - intros [-> Hn]. apply dict_get_In. specialize (Hcount k). unfold count_of in Hcount.
    destruct (dict_get (counter items) k) as [n|]; [congruence | lia].
Qed.

Lemma insert_by_count_perm : forall kv sorted,
  Permutation (insert_by_count kv sorted) (kv :: sorted).
Proof.
  intros kv sorted. induction sorted as [|h t IH]; cbn [insert_by_count]; [reflexivity|].
  destruct (snd kv <? snd h)%nat; [|reflexivity].
  rewrite IH. apply perm_swap.
Qed.

Lemma insert_by_count_sorted : forall kv sorted,
  StronglySorted by_count sorted -> StronglySorted by_count (insert_by_count kv sorted).
Proof.
  intros kv sorted Hs. induction Hs as [|h t Ht IH Hh]; cbn [insert_by_count].
  - constructor; constructor.
  - destruct (snd kv <? snd h)%nat eqn:E.
    + apply Nat.ltb_lt in E. constructor; [exact IH|].
      rewrite Forall_forall in *. intros x Hx.
      apply (Permutation_in _ (insert_by_count_perm kv t)) in Hx.
      destruct Hx as [<-|Hx]; [unfold by_count; lia | now apply Hh].
    + apply Nat.ltb_ge in E. constructor; [now constructor|].
      constructor; [exact E|].
      rewrite Forall_forall in *. intros x Hx. specialize (Hh x Hx).
      unfold by_count in *. lia.
Qed.

Lemma sort_by_count_spec : forall items,
  Permutation (sort_by_count items) items /\ StronglySorted by_count (sort_by_count items).
Proof.
  induction items as [|kv items [IHp IHs]]; cbn.
  - split; constructor.
  - split.
    + rewrite insert_by_count_perm. now constructor.
    + now apply insert_by_count_sorted.
Qed.

Lemma firstn_In : forall {A} n (l : list A) x, In x (firstn n l) -> In x l.
Proof.
  intros A n l x H. rewrite <- (firstn_skipn n l). apply in_or_app. now left.
Qed.

Lemma StronglySorted_firstn : forall {A} (R : A -> A -> Prop) n l,
  StronglySorted R l -> StronglySorted R (firstn n l).
Proof.
  intros A R n l Hs. revert n. induction Hs as [|h t Ht IH Hh]; intros [|n]; cbn;
    try constructor.
  - apply IH.
  - rewrite Forall_forall in *. intros x Hx. apply Hh. eapply firstn_In; eauto.
Qed.

Lemma StronglySorted_split : forall {A} (R : A -> A -> Prop) l1 l2 a b,
  StronglySorted R (l1 ++ l2)%list -> In a l1 -> In b l2 -> R a b.
Proof.
  intros A R l1 l2 a b. induction l1 as [|h t IH]; cbn; intros Hs Ha Hb; [destruct Ha|].
  inversion Hs as [|? ? Ht Hh]; subst. destruct Ha as [->|Ha].
  - rewrite Forall_forall in Hh. apply Hh. apply in_or_app. now right.
  - now apply IH.
Qed.


Lemma NoDup_firstn : forall {A} n (l : list A), NoDup l -> NoDup (firstn n l).
Proof.
  intros A n l H. rewrite <- (firstn_skipn n l) in H. now apply NoDup_app_remove_r in H.
Qed.

(** X16. [common_issues] of the report: at most 10 entries with distinct
    keys; each count is the number of times the message occurs among the
    errors of all results, and is at least 1; the counts are in decreasing
    order; and a message that is left out is left out only because 10
    messages with counts at least as large are listed. *)
Theorem common_issues_spec : forall results,
  let issues := all_issues results in
  let top := common_issues (report_summary results) in
  (length top <= 10)%nat
  /\ NoDup (map fst top)
  /\ (forall k n, In (k, n) top -> n = count_occ string_dec issues k /\ (1 <= n)%nat)
  /\ StronglySorted by_count top
  /\ (forall k, In k issues -> ~ In k (map fst top) ->
        length top = 10%nat
        /\ forall k' n', In (k', n') top -> (count_occ string_dec issues k <= n')%nat).
Proof.
  intros results issues top.
  assert (Htop : top = firstn 10 (sort_by_count (counter issues))) by reflexivity.
  destruct (counter_spec issues) as [Hnd Hcount].
  destruct (sort_by_count_spec (counter issues)) as [Hperm Hsorted].
  set (sorted := sort_by_count (counter issues)) in *.
  assert (Hin : forall kv, In kv top -> In kv (counter issues)).
  { intros kv H. rewrite Htop in H. apply firstn_In in H.
    now apply (Permutation_in _ Hperm). }
  split; [rewrite Htop; apply firstn_le_length|].
  split.
  { rewrite Htop, <- firstn_map. apply NoDup_firstn.
    apply (Permutation_NoDup (l := dict_keys (counter issues))); [|exact Hnd].
    apply Permutation_map. now symmetry. }
  split; [intros k n H; apply Hcount, Hin, H|].
  split; [rewrite Htop; now apply StronglySorted_firstn|].
  intros k Hk Hnot.
  assert (Hentry : In (k, count_occ string_dec issues k) sorted).
  { apply (Permutation_in _ (Permutation_sym Hperm)). apply Hcount. split; [reflexivity|].
    now apply (count_occ_In string_dec). }
  rewrite <- (firstn_skipn 10 sorted) in Hentry, Hsorted. rewrite <- Htop in Hentry, Hsorted.
  apply in_app_or in Hentry. destruct Hentry as [Hentry|Hentry].
  { destruct Hnot. change k with (fst (k, count_occ string_dec issues k)).
    now apply in_map. }
  split.
  - rewrite Htop, length_firstn.
    destruct (Nat.le_gt_cases (length sorted) 10) as [Hle|Hgt]; [|lia].
    rewrite skipn_all2 in Hentry by exact Hle. destruct Hentry.
  - intros k' n' H'.
    exact (StronglySorted_split by_count _ _ (k', n') (k, _) Hsorted H' Hentry).
Qed.

(** ** The batch run and its report *)

Section Batch.

Context {np : Numpy}.

Ltac se_run :=
  unfold bind, lift, gets, modify, ret, try_catch, on_result, set_fs in *;
  cbn [fst snd cv_fs cv_result] in *.

(** A certified result carries no error. *)
Lemma certified_no_errors : forall self fs p npy,
  success (fst (convert_and_verify self fs p npy)) = true ->
  errors (fst (convert_and_verify self fs p npy)) = [].
Proof.
  intros self fs p npy. rewrite convert_and_verify_unfold.
  destruct (load_mat_correctly fs p None) as [loaded|e]; [|discriminate]. cbn zeta.
  destruct (derive_npy_path self p npy) as [q|e]; [|discriminate].
  destruct (np_save fs q (fst loaded)) as [fs'|e];
    [|destruct (mkdir_parents fs (parent q)) as [[]|e']; discriminate].
  destruct (np_load fs' q) as [npy_data|e]; [|discriminate].
  cbn [fst].
  pose proof (verify_cases (fst loaded) npy_data (path_name p)
                (CvState fs' (set_output_file (str_path q)
                   (set_load_meta (snd loaded) (initial_result p))))) as H.
  cbn zeta in H. cbn [cv_result] in H.
  destruct H as (_ & _ & [(Hs & He & _) | [(Hs & He & _) | (Hs & _ & e & He)]]);
    intros Hsucc.
  - exact He.
  - exact He.
  - rewrite Hs in Hsucc. discriminate.
Qed.

(** One turn of the second loop. *)
Lemma batch_file_step : forall self p s,
  batch_file self p s =
  match relative_to p (input_root self) with
  | Ok _ =>
      (Ok tt, BatchState (snd (convert_and_verify self (b_fs s) p None))
                (dict_set (b_results s) (str_path p)
                   (fst (convert_and_verify self (b_fs s) p None))))
  | Raise e => (Raise e, s)
  end.
Proof.
  intros self p s. unfold batch_file. se_run.
  destruct (relative_to p (input_root self)); [|reflexivity].
  now destruct (convert_and_verify self (b_fs s) p None).
Qed.

Lemma dict_set_length : forall {V} (d : list (string * V)) k v,
  (length (dict_set d k v) <= S (length d))%nat.
Proof.
  intros V d k v. induction d as [|[k' v'] d IH]; cbn; [lia|].
  destruct (String.eqb k k'); cbn; lia.
Qed.

Lemma batch_loop_keys : forall self files s s',
  for_each files (batch_file self) s = (Ok tt, s') ->
  NoDup (dict_keys (b_results s)) ->
  NoDup (dict_keys (b_results s'))
  /\ (length (b_results s') <= length (b_results s) + length files)%nat.
Proof.
  intros self files. induction files as [|p files IH]; intros s s' Hrun Hnd.
  - injection Hrun as <-. split; [exact Hnd | cbn; lia].
  - cbn [for_each] in Hrun. unfold bind at 1 in Hrun. rewrite batch_file_step in Hrun.
    destruct (relative_to p (input_root self)); [|discriminate].
    apply IH in Hrun.
    + cbn [b_results length] in *. destruct Hrun as [Hnd' Hlen]. split; [exact Hnd'|].
      pose proof (dict_set_length (b_results s) (str_path p)
                    (fst (convert_and_verify self (b_fs s) p None))). lia.
    + cbn [b_results]. now apply dict_set_keys_NoDup.
Qed.

(** The run when files were found: the [mkdir] loop, the conversion loop,
    then the report. *)
Lemma batch_run : forall self fs,
  find_mat_files self fs <> [] ->
  exists s',
    for_each (find_mat_files self fs) (batch_file self) (BatchState fs []) = (Ok tt, s')
    /\ (forall k r, dict_get (b_results s') k = Some r ->
          result_of self (find_mat_files self fs) k r)
    /\ batch_convert_with_verification self fs =
       match fst (for_each (find_mat_files self fs) (mirror_directory self)
                    (BatchState fs [])) with
       | Raise e => (Raise e, fs)
       | Ok _ =>
           match save_detailed_report self s' with
           | (Ok _, s'') => (Ok (b_results s''), b_fs s'')
           | (Raise e, s'') => (Raise e, b_fs s'')
           end
       end.
Proof.
  intros self fs Hfiles.
  pose proof (batch_unfold self fs) as Hrun. cbn zeta in Hrun.
  set (files := find_mat_files self fs) in *.
  assert (Hrel : forall p, In p files -> exists rel, relative_to p (input_root self) = Ok rel)
    by (intros p Hin; eapply found_files_relative; exact Hin).
  destruct (batch_loop self files files (BatchState fs []) Hrel (incl_refl _))
    as (s' & Hloop & Hinv & _ & _).
  { intros k r H. discriminate. }
  exists s'. split; [exact Hloop|]. split; [exact Hinv|].
  rewrite Hrun, Hloop. cbn [snd].
  destruct files; [now destruct Hfiles | reflexivity].
Qed.

(** What the report step does to the file system and what it returns. *)
Lemma save_detailed_report_unfold : forall self s,
  let report := List.app (output_root self) ["conversion_report.json"] in
  save_detailed_report self s =
  match open_for_writing (b_fs s) report with
  | Raise e => (Raise e, s)
  | Ok _ =>
      (snd (json_dump (b_results s)),
       BatchState (fs_write (b_fs s) report (fst (json_dump (b_results s)))) (b_results s))
  end.
Proof.
  intros self s report. unfold save_detailed_report. se_run. fold report.
  destruct (open_for_writing (b_fs s) report) as [[]|e]; [|reflexivity].
  cbn [b_fs b_results]. now destruct (snd (json_dump (b_results s))) as [[]|e].
Qed.


Lemma filter_disjoint_length : forall {A} (f g : A -> bool) l,
  (forall x, In x l -> f x = true -> g x = false) ->
  (length (filter f l) + length (filter g l) <= length l)%nat.
Proof.
  intros A f g l. induction l as [|x l IH]; intros H; cbn; [lia|].
  assert (IH' := IH (fun y Hy => H y (or_intror Hy))).
  pose proof (H x (or_introl eq_refl)) as Hx.
  destruct (f x); destruct (g x); cbn; try lia.
Qed.

(** X18. In the summary of a batch run no file is counted both as
    successful and as having errors - [successful + with_errors <=
    total_files] - and [total_files], the number of distinct path strings,
    is at most the number of files found. *)
Theorem report_counts_consistent : forall self fs results,
  fst (batch_convert_with_verification self fs) = Ok results ->
  let stats := report_summary results in
  (successful stats + with_errors stats <= total_files stats)%nat
  /\ (total_files stats <= length (find_mat_files self fs))%nat
  /\ NoDup (dict_keys results).
Proof.
  intros self fs results Hrun.
  destruct (find_mat_files self fs) as [|p0 files'] eqn:Hfiles.
  - rewrite batch_unfold in Hrun. cbn zeta in Hrun. rewrite Hfiles in Hrun.
    injection Hrun as <-. cbn. repeat split; try lia. constructor.
  - rewrite <- Hfiles in *.
    assert (Hne : find_mat_files self fs <> []) by (rewrite Hfiles; discriminate).
    destruct (batch_run self fs Hne) as (s' & Hloop & Hinv & Hbatch).
    rewrite Hbatch in Hrun.
    destruct (fst (for_each _ (mirror_directory self) _)); [|discriminate].
    pose proof (save_detailed_report_results self s') as Hres.
    destruct (save_detailed_report self s') as [[[]|e] s'']; [|discriminate].
    cbn [fst snd] in *. injection Hrun as <-. rewrite Hres.
    destruct (batch_loop_keys self _ _ _ Hloop (NoDup_nil _)) as [Hnd Hlen].
    cbn [b_results length] in Hlen. cbn zeta.
    cbn [report_summary successful with_errors total_files].
    split; [|split; [lia | exact Hnd]].
    unfold count_results. apply filter_disjoint_length.
    intros [k r] Hin Hsucc. cbn [snd] in *.
    destruct (Hinv k r (In_dict_get _ k r Hnd Hin)) as (p & fs0 & _ & _ & ->).
    now rewrite (certified_no_errors self fs0 p None Hsucc).
Qed.

(** ** What the run writes is never taken for an input *)

Lemma lower_append : forall a b, lower (a ++ b) = lower a ++ lower b.
Proof. induction a as [|c a IH]; intros b; cbn; [reflexivity | now rewrite IH]. Qed.

Lemma npy_name_not_mat : forall stem, endswith (lower (stem ++ ".npy")) ".mat" = false.
Proof.
  intros stem. rewrite lower_append. change (lower ".npy") with ".npy".
  unfold endswith. rewrite length_append.
  replace (String.length (lower stem) + String.length ".npy" - String.length ".mat")%nat
    with (String.length (lower stem)) by (cbn; lia).
  change (String.length ".mat") with (String.length ".npy") at 2.
  rewrite substring_append_right. apply andb_false_r.
Qed.

Lemma derived_path_not_mat : forall self p q,
  derive_npy_path self p None = Ok q ->
  endswith (lower (path_name q)) ".mat" = false.
Proof.
  intros self p q. unfold derive_npy_path, relative_to, with_suffix.
  destruct (strip_prefix p (input_root self)) as [rel|]; cbn; [|discriminate].
  destruct (rev rel) as [|name parents]; cbn; [discriminate|].
  intros [= <-]. unfold path_name. rewrite app_assoc, last_last.
  apply npy_name_not_mat.
Qed.

Lemma fs_write_paths : forall fs p c,
  map fst (fs_write fs p c) = map fst fs
  \/ map fst (fs_write fs p c) = (map fst fs ++ [p])%list.
Proof.
  induction fs as [|[q c'] fs IH]; intros p c; cbn.
  - now right.
  - destruct (path_eqb p q); cbn; [now left|].
    destruct (IH p c) as [-> | ->]; [now left | now right].
Qed.

Lemma find_mat_files_write : forall self fs p c,
  endswith (lower (path_name p)) ".mat" = false ->
  find_mat_files self (fs_write fs p c) = find_mat_files self fs.
Proof.
  intros self fs p c Hp. unfold find_mat_files, os_walk.
  destruct (fs_write_paths fs p c) as [-> | ->]; [reflexivity|].
  rewrite !filter_app. cbn [filter].
  destruct (strip_prefix p (input_root self)) as [[|x rel]|]; cbn [filter];
    rewrite ?Hp; now rewrite app_nil_r.
Qed.

Lemma convert_keeps_inputs : forall self self' fs p,
  find_mat_files self' (snd (convert_and_verify self fs p None)) = find_mat_files self' fs.
Proof.
  intros self self' fs p.
  destruct (convert_and_verify_fs self fs p None) as [->|(q & loaded & c & _ & Hq & ->)];
    [reflexivity|].
  destruct (derived_path_endswith self p q Hq) as [_ Hend].
  rewrite (npy_filename_fixed q Hend). apply find_mat_files_write.
  now apply (derived_path_not_mat self p).
Qed.

Lemma batch_loop_inputs : forall self self' files s s',
  for_each files (batch_file self) s = (Ok tt, s') ->
  find_mat_files self' (b_fs s') = find_mat_files self' (b_fs s).
Proof.
  intros self self' files. induction files as [|p files IH]; intros s s' Hrun.
  - now injection Hrun as <-.
  - cbn [for_each] in Hrun. unfold bind at 1 in Hrun. rewrite batch_file_step in Hrun.
    destruct (relative_to p (input_root self)); [|discriminate].
    apply IH in Hrun. rewrite Hrun. cbn [b_fs]. apply convert_keeps_inputs.
Qed.

(** X19. Nothing the batch run writes is taken for an input: after the
    run, the search for [.mat] files (of any converter, so also when the
    output root lies below the input root) finds exactly the files it
    found before. *)
Theorem batch_outputs_are_not_inputs : forall self self' fs,
  find_mat_files self' (snd (batch_convert_with_verification self fs))
  = find_mat_files self' fs.
Proof.
  intros self self' fs.
  destruct (find_mat_files self fs) as [|p0 files] eqn:Hfiles.
  - rewrite batch_unfold. cbn zeta. now rewrite Hfiles.
  - assert (Hne : find_mat_files self fs <> []) by (rewrite Hfiles; discriminate).
    destruct (batch_run self fs Hne) as (s' & Hloop & _ & Hrun).
    rewrite Hrun.
    destruct (fst (for_each _ (mirror_directory self) _)); [|reflexivity].
    rewrite save_detailed_report_unfold. cbn zeta.
    apply (batch_loop_inputs self self') in Hloop. cbn [b_fs] in Hloop.
    destruct (open_for_writing (b_fs s') _) as [[]|e].
    + assert (Hfs : forall o : outcome unit,
                snd (let '(o', s'') :=
                       (o, BatchState (fs_write (b_fs s')
                                         (List.app (output_root self) ["conversion_report.json"])
                                         (fst (json_dump (b_results s')))) (b_results s'))
                     in match o' with
                        | Ok _ => (Ok (b_results s''), b_fs s'')
                        | Raise e => (Raise e, b_fs s'')
                        end)
                = fs_write (b_fs s') (List.app (output_root self) ["conversion_report.json"])
                    (fst (json_dump (b_results s'))))
        by (intros [[]|e]; reflexivity).
      rewrite Hfs.
      rewrite find_mat_files_write by (unfold path_name; now rewrite last_last).
      exact Hloop.
    + exact Hloop.
Qed.

End Batch.

(* ================================================================== *)
(** * The scripts around the converter                                 *)
(* ================================================================== *)

Section ScriptProperties.

Context {np : Numpy}.

(** X20. [test_single_file] calls the loader outside any [try]: when
    [test.mat] exists and the loader raises, the exception leaves
    [test_single_file] and nothing is written, whereas [convert_and_verify]
    on the same file returns a result that records it. *)
Theorem test_single_file_propagates : forall fs e,
  fs_lookup fs ["test.mat"] <> None ->
  load_mat_correctly fs ["test.mat"] None = Raise e ->
  test_single_file fs = (Raise e, fs)
  /\ forall self npy,
       convert_and_verify self fs ["test.mat"] npy
       = (failed e (initial_result ["test.mat"]), fs).
Proof.
  intros fs e Hfile Hload. split.
  - unfold test_single_file.
    destruct (fs_lookup fs ["test.mat"]); [|now destruct Hfile].
    now rewrite Hload.
  - intros self npy. now rewrite convert_and_verify_unfold, Hload.
Qed.

(** What [test_single_file] leaves on disk. *)
Lemma test_single_file_fs : forall fs q',
  q' <> ["test_output.npy"] ->
  fs_lookup (snd (test_single_file fs)) q' = fs_lookup fs q'.
Proof.
  intros fs q' Hq'. unfold test_single_file.
  destruct (fs_lookup fs ["test.mat"]); [|reflexivity].
  destruct (load_mat_correctly fs ["test.mat"] None) as [loaded|e]; [|reflexivity].
  destruct (convert_and_verify_fs (Converter ["bm"] ["bm_npy"]) fs ["test.mat"]
              (Some ["test_output.npy"])) as [H|(q & l & c & _ & Hq & H)];
    destruct (convert_and_verify _ fs ["test.mat"] _) as [r fs1]; cbn [snd] in *; subst fs1.
  - reflexivity.
  - injection Hq as <-. now apply fs_lookup_write_other.
Qed.


End ScriptProperties.

(* ================================================================== *)
(** * The further properties on the scenarios                          *)
(* ================================================================== *)

Lemma convert_and_verify_frame_witness :
  (forall q, derive_npy_path bm ["bm"; "data.mat"] None = Ok q ->
             ["bm"; "data.mat"] <> npy_filename q)
  /\ fs_lookup (snd (convert legacy_fs ["bm"; "data.mat"] None)) ["bm"; "data.mat"]
     = fs_lookup legacy_fs ["bm"; "data.mat"].
Proof.
  assert (H : forall q, derive_npy_path bm ["bm"; "data.mat"] None = Ok q ->
                        ["bm"; "data.mat"] <> npy_filename q).
  { intros q Hq. injection Hq as <-. discriminate. }
  split; [exact H|].
  exact (convert_and_verify_frame (np := example_numpy) bm legacy_fs ["bm"; "data.mat"] None
           ["bm"; "data.mat"] H).
Defined.

Lemma default_output_read_back_witness :
  derive_npy_path bm ["bm"; "data.mat"] None = Ok ["bm_npy"; "data.npy"]
  /\ np_save (np := example_numpy) legacy_fs ["bm_npy"; "data.npy"] (PArr matrix_2x3)
     = Ok (legacy_fs ++ [(["bm_npy"; "data.npy"], NPY (np := example_numpy) matrix_2x3)])%list
  /\ npy_filename ["bm_npy"; "data.npy"] = ["bm_npy"; "data.npy"]
  /\ np_load (legacy_fs ++ [(["bm_npy"; "data.npy"], NPY (np := example_numpy) matrix_2x3)])%list
       ["bm_npy"; "data.npy"]
     = Ok (PArr (asanyarray (PArr matrix_2x3))).
Proof.
  assert (H1 : derive_npy_path bm ["bm"; "data.mat"] None = Ok ["bm_npy"; "data.npy"])
    by reflexivity.
  assert (H2 : np_save (np := example_numpy) legacy_fs ["bm_npy"; "data.npy"] (PArr matrix_2x3)
               = Ok (legacy_fs ++ [(["bm_npy"; "data.npy"], NPY (np := example_numpy) matrix_2x3)])%list)
    by reflexivity.
  split; [exact H1|]. split; [exact H2|].
  exact (default_output_read_back (np := example_numpy) bm legacy_fs ["bm"; "data.mat"]
           _ _ _ H1 H2).
Defined.


Lemma stale_file_is_compared_witness :
  load_mat_correctly (np := example_numpy) stale_fs ["bm"; "data.mat"] None
  = Ok (PArr matrix_2x3, legacy_meta)
  /\ ["out"] <> ([] : path)
  /\ endswith (str_path ["out"]) ".npy" = false
  /\ fs_lookup stale_fs ["out"] = Some (NPY (np := example_numpy) old_array)
  /\ np_save (np := example_numpy) stale_fs ["out"] (PArr matrix_2x3)
     = Ok (stale_fs ++ [(["out.npy"], NPY (np := example_numpy) matrix_2x3)])%list
  /\ (let r := fst (convert stale_fs ["bm"; "data.mat"] (Some ["out"])) in
      let fs1 := snd (convert stale_fs ["bm"; "data.mat"] (Some ["out"])) in
      verification r
      = ArrayVerification (compare_matrices (np := example_numpy) matrix_2x3 old_array "data.mat")
      /\ success r
         = values_equal (compare_matrices (np := example_numpy) matrix_2x3 old_array "data.mat")
      /\ fs_lookup fs1 ["out"] = Some (NPY (np := example_numpy) old_array)
      /\ fs_lookup fs1 ["out.npy"] = Some (NPY (np := example_numpy) matrix_2x3)).
Proof.
  assert (H1 : load_mat_correctly (np := example_numpy) stale_fs ["bm"; "data.mat"] None
               = Ok (PArr matrix_2x3, legacy_meta)) by reflexivity.
  assert (H2 : ["out"] <> ([] : path)) by discriminate.
  assert (H3 : endswith (str_path ["out"]) ".npy" = false) by reflexivity.
  assert (H4 : fs_lookup stale_fs ["out"] = Some (NPY (np := example_numpy) old_array)) by reflexivity.
  assert (H5 : np_save (np := example_numpy) stale_fs ["out"] (PArr matrix_2x3)
               = Ok (stale_fs ++ [(["out.npy"], NPY (np := example_numpy) matrix_2x3)])%list) by reflexivity.
  split; [exact H1|]. split; [exact H2|]. split; [exact H3|]. split; [exact H4|].
  split; [exact H5|].
  exact (stale_file_is_compared (np := example_numpy) bm stale_fs
           ["bm"; "data.mat"] ["out"] _ _ _ _ H1 H2 H3 H4 H5).
Defined.

Lemma integer_array_certified_witness :
  load_mat_correctly (np := example_numpy) labels_fs ["bm"; "labels.mat"] None
  = Ok (PArr (NdArray [2; 2]%nat (I64buf [1; 2; 3; 4])),
        LoadMeta "bm/labels.mat" (Some "v7.0_or_older")
          [LoadedVariable "labels" plain_shape [2; 2]%nat "int64"] [] false (Some "labels"))
  /\ derive_npy_path bm ["bm"; "labels.mat"] None = Ok ["bm_npy"; "labels.npy"]
  /\ endswith (str_path ["bm_npy"; "labels.npy"]) ".npy" = true
  /\ np_save (np := example_numpy) labels_fs ["bm_npy"; "labels.npy"]
       (PArr (NdArray [2; 2]%nat (I64buf [1; 2; 3; 4])))
     = Ok (labels_fs ++ [(["bm_npy"; "labels.npy"],
                          NPY (np := example_numpy) (NdArray [2; 2]%nat (I64buf [1; 2; 3; 4])))])%list
  /\ (let r := fst (convert labels_fs ["bm"; "labels.mat"] None) in
      success r = true /\ warnings r = [] /\ errors r = []
      /\ fs_lookup (snd (convert labels_fs ["bm"; "labels.mat"] None)) ["bm_npy"; "labels.npy"]
         = Some (NPY (np := example_numpy) (NdArray [2; 2]%nat (I64buf [1; 2; 3; 4])))).
Proof.
  assert (H1 : load_mat_correctly (np := example_numpy) labels_fs ["bm"; "labels.mat"] None
    = Ok (PArr (NdArray [2; 2]%nat (I64buf [1; 2; 3; 4])),
          LoadMeta "bm/labels.mat" (Some "v7.0_or_older")
            [LoadedVariable "labels" plain_shape [2; 2]%nat "int64"] [] false (Some "labels")))
    by reflexivity.
  assert (H2 : derive_npy_path bm ["bm"; "labels.mat"] None = Ok ["bm_npy"; "labels.npy"])
    by reflexivity.
  assert (H3 : endswith (str_path ["bm_npy"; "labels.npy"]) ".npy" = true) by reflexivity.
  assert (H4 : np_save (np := example_numpy) labels_fs ["bm_npy"; "labels.npy"]
                 (PArr (NdArray [2; 2]%nat (I64buf [1; 2; 3; 4])))
               = Ok (labels_fs ++ [(["bm_npy"; "labels.npy"],
                                    NPY (np := example_numpy)
                                      (NdArray [2; 2]%nat (I64buf [1; 2; 3; 4])))])%list)
    by reflexivity.
  split; [exact H1|]. split; [exact H2|]. split; [exact H3|]. split; [exact H4|].
  exact (integer_array_certified (np := example_numpy) bm labels_fs ["bm"; "labels.mat"] None
           _ _ _ _ _ H1 H2 H3 H4).
Defined.

Lemma float_array_certified_iff_finite_witness :
  load_mat_correctly (np := example_numpy) legacy_fs ["bm"; "data.mat"] None
  = Ok (PArr (NdArray [2; 3]%nat (F64buf [1; 2; 3; 4; 5; 6]%float)), legacy_meta)
  /\ derive_npy_path bm ["bm"; "data.mat"] None = Ok ["bm_npy"; "data.npy"]
  /\ endswith (str_path ["bm_npy"; "data.npy"]) ".npy" = true
  /\ np_save (np := example_numpy) legacy_fs ["bm_npy"; "data.npy"]
       (PArr (NdArray [2; 3]%nat (F64buf [1; 2; 3; 4; 5; 6]%float)))
     = Ok (legacy_fs ++ [(["bm_npy"; "data.npy"], NPY (np := example_numpy) matrix_2x3)])%list
  /\ (let r := fst (convert legacy_fs ["bm"; "data.mat"] None) in
      (success r = true <->
       [1; 2; 3; 4; 5; 6]%float <> []
       /\ Forall (fun x => F64.is_finite x = true) [1; 2; 3; 4; 5; 6]%float)
      /\ (success r = true -> warnings r = [] /\ errors r = [])).
Proof.
  assert (H1 : load_mat_correctly (np := example_numpy) legacy_fs ["bm"; "data.mat"] None
               = Ok (PArr (NdArray [2; 3]%nat (F64buf [1; 2; 3; 4; 5; 6]%float)), legacy_meta))
    by reflexivity.
  assert (H2 : derive_npy_path bm ["bm"; "data.mat"] None = Ok ["bm_npy"; "data.npy"])
    by reflexivity.
  assert (H3 : endswith (str_path ["bm_npy"; "data.npy"]) ".npy" = true) by reflexivity.
  assert (H4 : np_save (np := example_numpy) legacy_fs ["bm_npy"; "data.npy"]
                 (PArr (NdArray [2; 3]%nat (F64buf [1; 2; 3; 4; 5; 6]%float)))
               = Ok (legacy_fs ++ [(["bm_npy"; "data.npy"],
                                    NPY (np := example_numpy) matrix_2x3)])%list)
    by reflexivity.
  split; [exact H1|]. split; [exact H2|]. split; [exact H3|]. split; [exact H4|].
  exact (float_array_certified_iff_finite (np := example_numpy) bm legacy_fs
           ["bm"; "data.mat"] None _ _ _ _ _ H1 H2 H3 H4).
Defined.

Lemma nan_payload_rejected_witness :
  load_mat_correctly (np := example_numpy) holes_fs ["bm"; "holes.mat"] None
  = Ok (PArr (NdArray [1; 2]%nat (F64buf [1; nan]%float)),
        LoadMeta "bm/holes.mat" (Some "v7.0_or_older")
          [LoadedVariable "m" plain_shape [1; 2]%nat "float64"] [] false (Some "m"))
  /\ derive_npy_path bm ["bm"; "holes.mat"] None = Ok ["bm_npy"; "holes.npy"]
  /\ endswith (str_path ["bm_npy"; "holes.npy"]) ".npy" = true
  /\ np_save (np := example_numpy) holes_fs ["bm_npy"; "holes.npy"]
       (PArr (NdArray [1; 2]%nat (F64buf [1; nan]%float)))
     = Ok (holes_fs ++ [(["bm_npy"; "holes.npy"],
                         NPY (np := example_numpy) (NdArray [1; 2]%nat (F64buf [1; nan]%float)))])%list
  /\ In nan [1; nan]%float
  /\ PrimFloat.is_nan nan = true
  /\ (let r := fst (convert holes_fs ["bm"; "holes.mat"] None) in
      success r = false /\ warnings r = []
      /\ errors r = ["Arrays are different (not just transposed)"]).
Proof.
  assert (H1 : load_mat_correctly (np := example_numpy) holes_fs ["bm"; "holes.mat"] None
    = Ok (PArr (NdArray [1; 2]%nat (F64buf [1; nan]%float)),
          LoadMeta "bm/holes.mat" (Some "v7.0_or_older")
            [LoadedVariable "m" plain_shape [1; 2]%nat "float64"] [] false (Some "m")))
    by reflexivity.
  assert (H2 : derive_npy_path bm ["bm"; "holes.mat"] None = Ok ["bm_npy"; "holes.npy"])
    by reflexivity.
  assert (H3 : endswith (str_path ["bm_npy"; "holes.npy"]) ".npy" = true) by reflexivity.
  assert (Hs : np_save (np := example_numpy) holes_fs ["bm_npy"; "holes.npy"]
                 (PArr (NdArray [1; 2]%nat (F64buf [1; nan]%float)))
               = Ok (holes_fs ++ [(["bm_npy"; "holes.npy"],
                                   NPY (np := example_numpy)
                                     (NdArray [1; 2]%nat (F64buf [1; nan]%float)))])%list)
    by reflexivity.
  assert (H4 : In nan [1; nan]%float) by (right; left; reflexivity).
  assert (H5 : PrimFloat.is_nan nan = true) by reflexivity.
  split; [exact H1|]. split; [exact H2|]. split; [exact H3|]. split; [exact Hs|].
  split; [exact H4|]. split; [exact H5|].
  exact (nan_payload_rejected (np := example_numpy) bm holes_fs ["bm"; "holes.mat"] None
           _ _ _ _ _ _ H1 H2 H3 Hs H4 H5).
Defined.

Lemma transposed_warning_is_rare_witness :
  load_mat_correctly (np := example_numpy) empty_matrix_fs ["bm"; "empty.mat"] None
  = Ok (PArr (NdArray [0; 0]%nat (F64buf [])),
        LoadMeta "bm/empty.mat" (Some "v7.0_or_older")
          [LoadedVariable "e" plain_shape [0; 0]%nat "float64"] [] false (Some "e"))
  /\ derive_npy_path bm ["bm"; "empty.mat"] None = Ok ["bm_npy"; "empty.npy"]
  /\ endswith (str_path ["bm_npy"; "empty.npy"]) ".npy" = true
  /\ buf_dtype (buf (NdArray (O := pyvalue) [0; 0]%nat (F64buf []))) <> object
  /\ np_save (np := example_numpy) empty_matrix_fs ["bm_npy"; "empty.npy"]
       (PArr (NdArray [0; 0]%nat (F64buf [])))
     = Ok (empty_matrix_fs ++ [(["bm_npy"; "empty.npy"],
                                NPY (np := example_numpy) (NdArray [0; 0]%nat (F64buf [])))])%list
  /\ warnings (fst (convert empty_matrix_fs ["bm"; "empty.mat"] None)) <> []
  /\ exists n xs,
       shape (NdArray (O := pyvalue) [0; 0]%nat (F64buf [])) = [n; n]
       /\ is_floating (arr_dtype (NdArray (O := pyvalue) [0; 0]%nat (F64buf []))) = true
       /\ as_floats (buf (NdArray (O := pyvalue) [0; 0]%nat (F64buf []))) = Some xs
       /\ Forall (fun x => PrimFloat.is_nan x = false) xs
       /\ (xs = [] \/ exists x, In x xs /\ F64.is_finite x = false).
Proof.
  assert (H1 : load_mat_correctly (np := example_numpy) empty_matrix_fs ["bm"; "empty.mat"] None
    = Ok (PArr (NdArray [0; 0]%nat (F64buf [])),
          LoadMeta "bm/empty.mat" (Some "v7.0_or_older")
            [LoadedVariable "e" plain_shape [0; 0]%nat "float64"] [] false (Some "e")))
    by reflexivity.
  assert (H2 : derive_npy_path bm ["bm"; "empty.mat"] None = Ok ["bm_npy"; "empty.npy"])
    by reflexivity.
  assert (H3 : endswith (str_path ["bm_npy"; "empty.npy"]) ".npy" = true) by reflexivity.
  assert (H4 : buf_dtype (buf (NdArray (O := pyvalue) [0; 0]%nat (F64buf []))) <> object)
    by discriminate.
  assert (Hs : np_save (np := example_numpy) empty_matrix_fs ["bm_npy"; "empty.npy"]
                 (PArr (NdArray [0; 0]%nat (F64buf [])))
               = Ok (empty_matrix_fs ++ [(["bm_npy"; "empty.npy"],
                                          NPY (np := example_numpy)
                                            (NdArray [0; 0]%nat (F64buf [])))])%list)
    by reflexivity.
  assert (H5 : warnings (fst (convert empty_matrix_fs ["bm"; "empty.mat"] None)) <> [])
    by discriminate.
  split; [exact H1|]. split; [exact H2|]. split; [exact H3|]. split; [exact H4|].
  split; [exact Hs|]. split; [exact H5|].
  exact (transposed_warning_is_rare (np := example_numpy) bm empty_matrix_fs
           ["bm"; "empty.mat"] None _ _ _ _ H1 H2 H3 H4 Hs H5).
Defined.

Lemma absent_variable_name_ignored_witness :
  load_mat_correctly (np := example_numpy) legacy_fs ["bm"; "data.mat"] (Some "missing")
  = Ok (PArr matrix_2x3, legacy_meta)
  /\ selected_variable legacy_meta <> Some "missing"
  /\ load_mat_correctly (np := example_numpy) legacy_fs ["bm"; "data.mat"] None
     = Ok (PArr matrix_2x3, legacy_meta).
Proof.
  assert (H1 : load_mat_correctly (np := example_numpy) legacy_fs ["bm"; "data.mat"]
                 (Some "missing") = Ok (PArr matrix_2x3, legacy_meta)) by reflexivity.
  assert (H2 : selected_variable legacy_meta <> Some "missing") by discriminate.
  split; [exact H1|]. split; [exact H2|].
  exact (absent_variable_name_ignored (np := example_numpy) legacy_fs ["bm"; "data.mat"]
           "missing" _ _ H1 H2).
Defined.

Lemma unresolved_object_array_kept_witness :
  let raw := PArr (NdArray [2%nat] (Objbuf [PRef 7%nat; PRef 8%nat])) in
  let warning := "Could not dereference object array for 'cells'" in
  let meta := LoadMeta "bm/cells.mat" (Some "v7.3") [] [warning] false (Some "cells") in
  h5py_File cells_fs ["bm"; "cells.mat"] = Ok cells_file
  /\ dict_get (h5_members cells_file) "cells"
     = Some (H5Dataset [2%nat] (Objbuf [PRef 7%nat; PRef 8%nat]))
  /\ (vs <- dereference_all cells_file [PRef 7%nat; PRef 8%nat] ;;
      stacked <- np_array (Numpy := example_numpy) vs ;;
      reshape stacked [2%nat])%outcome = Raise (Exn ValueError "Invalid object reference")
  /\ load_mat_correctly (np := example_numpy) cells_fs ["bm"; "cells.mat"] None = Ok (raw, meta)
  /\ np_object_alias (Numpy := example_numpy) = Ok tt
  /\ materialized (np := example_numpy) cells_file "cells" [2%nat]
       (Objbuf [PRef 7%nat; PRef 8%nat]) = Ok raw
  /\ In warning (meta_warnings meta).
Proof.
  cbv zeta.
  assert (H1 : h5py_File cells_fs ["bm"; "cells.mat"] = Ok cells_file) by reflexivity.
  assert (H2 : dict_get (h5_members cells_file) "cells"
               = Some (H5Dataset [2%nat] (Objbuf [PRef 7%nat; PRef 8%nat]))) by reflexivity.
  assert (H3 : (vs <- dereference_all cells_file [PRef 7%nat; PRef 8%nat] ;;
                stacked <- np_array (Numpy := example_numpy) vs ;;
                reshape stacked [2%nat])%outcome
               = Raise (Exn ValueError "Invalid object reference")) by reflexivity.
  assert (H4 : load_mat_correctly (np := example_numpy) cells_fs ["bm"; "cells.mat"] None
               = Ok (PArr (NdArray [2%nat] (Objbuf [PRef 7%nat; PRef 8%nat])),
                     LoadMeta "bm/cells.mat" (Some "v7.3") []
                       ["Could not dereference object array for 'cells'"] false (Some "cells")))
    by reflexivity.
  split; [exact H1|]. split; [exact H2|]. split; [exact H3|]. split; [exact H4|].
  exact (unresolved_object_array_kept (np := example_numpy) cells_fs ["bm"; "cells.mat"] None
           cells_file "cells" _ _ _ _ _ _ H1 H2 H3 H4).
Defined.

Lemma report_counts_consistent_witness :
  let fs := (legacy_fs ++ two_variables_fs ++ broken_fs)%list in
  exists results,
    fst (batch_convert_with_verification (np := example_numpy) bm fs) = Ok results
    /\ (successful (report_summary results) + with_errors (report_summary results)
        <= total_files (report_summary results))%nat
    /\ (total_files (report_summary results) <= length (find_mat_files bm fs))%nat
    /\ NoDup (dict_keys results).
Proof.
  cbv zeta.
  destruct (fst (batch_convert_with_verification (np := example_numpy) bm
                   (legacy_fs ++ two_variables_fs ++ broken_fs)%list)) as [results|e] eqn:H.
  - exists results. split; [reflexivity|].
    exact (report_counts_consistent (np := example_numpy) bm _ results H).
  - vm_compute in H. discriminate.
Defined.

Lemma test_single_file_propagates_witness :
  fs_lookup test_fs ["test.mat"] <> None
  /\ load_mat_correctly (np := example_numpy) test_fs ["test.mat"] None
     = Raise (Exn ValueError "Unknown mat file type, version 32, 32")
  /\ test_single_file (np := example_numpy) test_fs
     = (Raise (Exn ValueError "Unknown mat file type, version 32, 32"), test_fs)
  /\ forall self npy,
       convert_and_verify (np := example_numpy) self test_fs ["test.mat"] npy
       = (failed (Exn ValueError "Unknown mat file type, version 32, 32") (initial_result ["test.mat"]), test_fs).
Proof.
  assert (H1 : fs_lookup test_fs ["test.mat"] <> None) by discriminate.
  assert (H2 : load_mat_correctly (np := example_numpy) test_fs ["test.mat"] None
               = Raise (Exn ValueError "Unknown mat file type, version 32, 32")) by reflexivity.
  split; [exact H1|]. split; [exact H2|].
  exact (test_single_file_propagates (np := example_numpy) test_fs _ H1 H2).
Defined.


Lemma layout_undoes_column_major_witness :
  wf_array matrix_2x3
  /\ (2 <= ndim matrix_2x3)%nat
  /\ buf_dtype (buf matrix_2x3) <> object
  /\ h5py_File hdf5_fs ["bm"; "data.mat"] = Ok hdf5_file
  /\ h5_members hdf5_file
     = [("data", H5Dataset (shape (transpose matrix_2x3)) (buf (transpose matrix_2x3)))]
  /\ exists meta,
       load_mat_correctly (np := example_numpy) hdf5_fs ["bm"; "data.mat"] None
       = Ok (PArr matrix_2x3, meta)
       /\ transpose_applied meta = true.
Proof.
  assert (H1 : wf_array matrix_2x3) by reflexivity.
  assert (H2 : (2 <= ndim matrix_2x3)%nat) by (cbn; lia).
  assert (H3 : buf_dtype (buf matrix_2x3) <> object) by discriminate.
  assert (H4 : h5py_File hdf5_fs ["bm"; "data.mat"] = Ok hdf5_file) by reflexivity.
  assert (H5 : h5_members hdf5_file
               = [("data", H5Dataset (shape (transpose matrix_2x3)) (buf (transpose matrix_2x3)))])
    by reflexivity.
  split; [exact H1|]. split; [exact H2|]. split; [exact H3|]. split; [exact H4|].
  split; [exact H5|].
  exact (layout_undoes_column_major (np := example_numpy) hdf5_fs ["bm"; "data.mat"] None
           hdf5_file "data" matrix_2x3 H1 H2 H3 H4 H5).
Defined.

(** ** Where the hypotheses of the further properties matter *)

(** An output path without [.npy] is read back as whatever lies there: an
    older pickle of a dictionary with the same keys certifies the
    two-variable file, by keys alone, while the dictionary just written
    to [out.npy] is not looked at. *)
Example stale_pickle_is_compared_by_keys :
  let r := fst (convert stale_pickle_fs ["bm"; "pair.mat"] (Some ["out"])) in
  success r = true
  /\ verification r = DictVerification true ["a"; "b"]
  /\ errors r = [].
Proof. vm_compute. repeat split. Qed.

(** With a numpy that no longer has [np.object] the loader raises on the
    first array of object type it meets and still loads files without
    one. *)
Example loader_needs_np_object :
  fmap_fst (load_mat_correctly (np := recent_numpy) cells_fs ["bm"; "cells.mat"] None)
  = Raise (Exn AttributeError "module 'numpy' has no attribute 'object'")
  /\ fmap_fst (load_mat_correctly (np := recent_numpy) hdf5_fs ["bm"; "data.mat"] None)
     = Ok (PArr matrix_2x3).
Proof. split; reflexivity. Qed.

(** A sparse matrix of a legacy file is inspected, with its shape, and
    returned by the loader, but is not listed in [loaded_variables]. *)
Example sparse_variable_inspected_not_listed :
  let info := inspect_mat_file_deep sparse_fs ["bm"; "mixed.mat"] in
  map (fun vi => (vi_name vi, vi_type vi, vi_shape vi)) (variables info)
  = [("full", "ndarray", Some [2; 3]%nat); ("holes", "csc_matrix", Some [4; 4]%nat)]
  /\ match load_mat_correctly (np := example_numpy) sparse_fs ["bm"; "mixed.mat"] None with
     | Ok (data, meta) =>
         data = PDict [("full", PArr matrix_2x3); ("holes", PSparse [4; 4]%nat float64)]
         /\ map lv_name (loaded_variables meta) = ["full"]
     | Raise _ => False
     end.
Proof. vm_compute. repeat split. Qed.

(** The batch run over scenario 1 leaves the report next to the array. *)
Example report_next_to_output :
  let fs' := snd (batch_convert_with_verification (np := example_numpy) bm legacy_fs) in
  map fst fs' = [["bm"; "data.mat"]; ["bm_npy"; "data.npy"]; ["bm_npy"; "conversion_report.json"]]
  /\ find_mat_files bm fs' = [["bm"; "data.mat"]].
Proof. vm_compute. repeat split. Qed.
